(** * FinMet-Dashboard: the quantitative core of [src/App.tsx]

    A shallow embedding of the forecasting effect ([runForecast],
    [runJSForecast] and the embedded NumPy script), the DCF valuation effect
    ([runValuation], [runJSValuation] and its script), the integrity scan of
    [handleFileUpload] and the [StrategicInsight] commentary, followed by the
    properties the specification states about them.  Around these:
    [generateSampleData], [parseCSV], the numbers of [marketMetrics], the
    grid of [sensitivityData] with its shades, the variance bars and the
    outputs of the valuation sheet of [handleExcelExport], with further
    properties of the code at the end.

    Numbers.  A JavaScript [number] is an IEEE-754 double.  Finite doubles
    are modelled by exact rationals ([Qc]); the three non-finite values are
    kept as constructors of their own, so that [0/0], [x/0] and arithmetic
    on [undefined] behave as in the source.  Rounding error, overflow and
    the sign of zero are not modelled there: those theorems are about the
    exact-arithmetic reading of the code.  The growth rate of
    [StrategicInsight], which is compared with thresholds, is computed in
    binary64 arithmetic ([PrimFloat]) instead. *)

From Stdlib Require Import Floats.
From Stdlib Require Import QArith Qcanon Qround Lqa ZArith Lia.
From stdpp Require Import base numbers gmap strings list sorting pretty.

Open Scope Qc_scope.

(** ** JavaScript numbers *)

Inductive jsnum : Type :=
  | Fin (q : Qc)
  | PInf
  | NInf
  | NaN.

#[global] Instance jsnum_eq_dec : EqDecision jsnum.
Proof. solve_decision. Defined.

#[global] Instance jsnum_inhabited : Inhabited jsnum := populate NaN.

(** Integer and decimal literals. *)
Definition qz (z : Z) : Qc := Q2Qc (z # 1).
Definition qd (n : Z) (d : positive) : Qc := Q2Qc (n # d).
Definition num (z : Z) : jsnum := Fin (qz z).

Definition is_fin (x : jsnum) : bool :=
  match x with Fin _ => true | _ => false end.

(** Sign of a number; [None] for [NaN]. *)
Definition jsign (x : jsnum) : option comparison :=
  match x with
  | Fin q => Some (q ?= 0)
  | PInf => Some Gt
  | NInf => Some Lt
  | NaN => None
  end.

Definition jneg (x : jsnum) : jsnum :=
  match x with
  | Fin q => Fin (- q)
  | PInf => NInf
  | NInf => PInf
  | NaN => NaN
  end.

Definition jadd (x y : jsnum) : jsnum :=
  match x, y with
  | NaN, _ | _, NaN => NaN
  | Fin a, Fin b => Fin (a + b)
  | PInf, NInf | NInf, PInf => NaN
  | PInf, _ | _, PInf => PInf
  | NInf, _ | _, NInf => NInf
  end.

Definition jsub (x y : jsnum) : jsnum := jadd x (jneg y).

(** Product of two signs, as an infinity; a zero factor gives [NaN]. *)
Definition inf_of_signs (s t : comparison) : jsnum :=
  match s, t with
  | Eq, _ | _, Eq => NaN
  | Gt, Gt | Lt, Lt => PInf
  | _, _ => NInf
  end.

Definition jmul (x y : jsnum) : jsnum :=
  match x, y with
  | Fin a, Fin b => Fin (a * b)
  | _, _ =>
      match jsign x, jsign y with
      | Some s, Some t => inf_of_signs s t
      | _, _ => NaN
      end
  end.

(** Division.  A zero divisor counts as [+0]. *)
Definition jdiv (x y : jsnum) : jsnum :=
  match x, y with
  | NaN, _ | _, NaN => NaN
  | Fin a, Fin b =>
      if decide (b = 0) then
        match a ?= 0 with Eq => NaN | Gt => PInf | Lt => NInf end
      else Fin (a / b)
  | Fin _, _ => Fin 0
  | PInf, Fin b => match b ?= 0 with Lt => NInf | _ => PInf end
  | NInf, Fin b => match b ?= 0 with Lt => PInf | _ => NInf end
  | _, _ => NaN
  end.

Declare Scope js_scope.
Delimit Scope js_scope with js.
Bind Scope js_scope with jsnum.
Infix "+" := jadd : js_scope.
Infix "-" := jsub : js_scope.
Infix "*" := jmul : js_scope.
Infix "/" := jdiv : js_scope.

(** [x > y] of JavaScript: false as soon as one side is [NaN]. *)
Definition jgt (x y : jsnum) : bool :=
  match x, y with
  | NaN, _ | _, NaN => false
  | Fin a, Fin b => bool_decide (b < a)
  | PInf, PInf => false
  | PInf, _ => true
  | _, NInf => match x with NInf => false | _ => true end
  | _, _ => false
  end.

Definition jlt (x y : jsnum) : bool := jgt y x.

Definition isNaN (x : jsnum) : bool :=
  match x with NaN => true | _ => false end.

(** [Math.round]: the nearest integer, a tie going up. *)
Definition round_half_up (q : Qc) : Z := Qfloor (q + qd 1 2).

Definition Math_round (x : jsnum) : jsnum :=
  match x with
  | Fin q => Fin (qz (round_half_up q))
  | _ => x
  end.

(** [Math.pow(x, n)] for the non-negative integer exponents the source
    uses ([i] in [1..5], and [5]). *)
Fixpoint Math_pow (x : jsnum) (n : nat) : jsnum :=
  match n with
  | O => num 1
  | S n' => (x * Math_pow x n')%js
  end.

(** [Number.prototype.toFixed(1)]: one decimal, the nearer tenth, a tie
    going to the larger magnitude; the sign is printed from [x < 0].
    (Magnitudes of [1e21] and more print in exponent form in JavaScript;
    that form is not modelled.) *)
Definition toFixed1 (x : jsnum) : string :=
  match x with
  | NaN => "NaN"
  | PInf => "Infinity"
  | NInf => "-Infinity"
  | Fin q =>
      let a := if decide (q < 0) then - q else q in
      let n := Qfloor (a * qz 10 + qd 1 2) in
      (if decide (q < 0) then "-" else "")
        +:+ pretty (n / 10)%Z +:+ "." +:+ pretty (n mod 10)%Z
  end.

(** A property read that may be [undefined]: [None]. *)
Abbreviation jsval := (option jsnum).

(** [ToNumber]: [undefined] in arithmetic is [NaN]. *)
Definition ToNumber (v : jsval) : jsnum := default NaN v.

(** [Array.prototype.reduce] with the index passed to the callback. *)
Fixpoint reduce_from {A B : Type} (f : B -> A -> nat -> B) (i : nat)
    (l : list A) (acc : B) : B :=
  match l with
  | [] => acc
  | a :: l' => reduce_from f (S i) l' (f acc a i)
  end.

Definition reduce {A B : Type} (f : B -> A -> nat -> B) (l : list A)
    (init : B) : B :=
  reduce_from f 0 l init.

(** ** Python numbers

    The embedded scripts run on CPython floats: the same doubles, read
    here as exact rationals too, but a division by zero raises and a
    non-finite number cannot even be written into the script. *)

Inductive pyres (A : Type) : Type :=
  | PyVal (a : A)
  | PyRaise.
Arguments PyVal {A} a.
Arguments PyRaise {A}.

Definition py_bind {A B : Type} (m : pyres A) (k : A -> pyres B) : pyres B :=
  match m with
  | PyVal a => k a
  | PyRaise => PyRaise
  end.

Notation "'pylet' x ':=' m 'in' k" := (py_bind m (fun x => k))
  (at level 10, x pattern, m at level 100, k at level 200).

(** [int(x)]: truncation toward zero. *)
Definition py_int (q : Qc) : Z := Z.quot (Qnum q) (Zpos (Qden q)).

(** [a / b] of Python. *)
Definition py_div (a b : Qc) : pyres Qc :=
  if decide (b = 0) then PyRaise else PyVal (a / b).

(** ** Records and the forecast series *)

(** A [FinancialRecord] is an object read by key ([d.Year],
    [d[forecastMetric]], [row[col]]); a key that is not there reads as
    [undefined]. *)
Abbreviation FinancialRecord := (gmap string jsnum).

(** A row of [futurePoints] (and of the script's ["future"] list). *)
Record FuturePoint : Type := mkFuture {
  fYear : jsnum;
  fForecast : jsnum;
  fHigh : jsnum;
  fLow : jsnum
}.

(** A row of the chart series; [None] is [null] (or [undefined]). *)
Record ChartPoint : Type := mkChart {
  Year : jsval;
  Historical : jsval;
  Forecast : jsval;
  High : jsval;
  Low : jsval;
  Confidence : option (jsval * jsval)
}.

#[global] Instance FuturePoint_eq_dec : EqDecision FuturePoint.
Proof. solve_decision. Defined.

#[global] Instance ChartPoint_eq_dec : EqDecision ChartPoint.
Proof. solve_decision. Defined.

(** ** The least-squares block

    The same seven lines open [runJSForecast] (App.tsx 372-382) and
    [runJSValuation] (541-549): [n = data.length], [x] the years, [y] the
    chosen column. *)
Definition fitTrend (n : nat) (x y : list jsval) : jsnum * jsnum :=
  let n := num (Z.of_nat n) in
  let sumX := reduce (fun a b _ => a + ToNumber b)%js x (num 0) in
  let sumY := reduce (fun a b _ => a + ToNumber b)%js y (num 0) in
  let sumXY :=
    reduce (fun a b i => a + ToNumber b * ToNumber (mjoin (y !! i)))%js
      x (num 0) in
  let sumXX := reduce (fun a b _ => a + ToNumber b * ToNumber b)%js x (num 0) in
  let slope := ((n * sumXY - sumX * sumY) / (n * sumXX - sumX * sumX))%js in
  let intercept := ((sumY - slope * sumX) / n)%js in
  (slope, intercept).

(** ** [runJSForecast] *)

(** The locals of one turn of the loop [for (i = 1; i <= forecastHorizon;
    i++)], before rounding. *)
Record Band : Type := mkBand {
  b_year : jsnum;
  b_val : jsnum;
  b_high : jsnum;
  b_low : jsnum
}.

#[global] Instance Band_eq_dec : EqDecision Band.
Proof. solve_decision. Defined.

Definition forecastBand (slope intercept : jsnum) (lastYear : jsval)
    (forecastHorizon : nat) (forecastSensitivity : jsnum) (i : nat) : Band :=
  let year := (ToNumber lastYear + num (Z.of_nat i))%js in
  let val := (slope * year + intercept)%js in
  let ratio := (num (Z.of_nat i) / num (Z.of_nat forecastHorizon))%js in
  let currentSpreadPct := ((forecastSensitivity / num 100) * ratio)%js in
  let high := (val * (num 1 + currentSpreadPct))%js in
  let low := (val * (num 1 - currentSpreadPct))%js in
  mkBand year val high low.

(** What the loop pushes. *)
Definition pushed (b : Band) : FuturePoint :=
  mkFuture (b_year b) (Math_round (b_val b)) (Math_round (b_high b))
    (Math_round (b_low b)).

Definition historicalPoint (forecastMetric : string) (d : FinancialRecord)
    : ChartPoint :=
  mkChart (d !! "Year") (d !! forecastMetric) None None None None.

Definition junctionPoint (lastYear lastVal : jsval) : ChartPoint :=
  mkChart lastYear lastVal lastVal lastVal lastVal (Some (lastVal, lastVal)).

Definition futureChartPoint (p : FuturePoint) : ChartPoint :=
  mkChart (Some (fYear p)) None (Some (fForecast p)) (Some (fHigh p))
    (Some (fLow p)) (Some (Some (fLow p), Some (fHigh p))).

(** The array both paths hand to [setForecastData]. *)
Definition mergeSeries (data : list FinancialRecord) (forecastMetric : string)
    (lastYear lastVal : jsval) (future : list FuturePoint) : list ChartPoint :=
  map (historicalPoint forecastMetric) data
    ++ [junctionPoint lastYear lastVal]
    ++ map futureChartPoint future.

(** The locals of every turn, [i = 1 .. forecastHorizon]. *)
Definition jsBands (data : list FinancialRecord)
    (forecastMetric : string) (forecastHorizon : nat)
    (forecastSensitivity : jsnum) : list Band :=
  let x := map (fun d : FinancialRecord => d !! "Year") data in
  let y := map (fun d : FinancialRecord => d !! forecastMetric) data in
  let '(slope, intercept) := fitTrend (length data) x y in
  let lastYear := mjoin (last x) in
  map (forecastBand slope intercept lastYear forecastHorizon
         forecastSensitivity)
      (seq 1 forecastHorizon).

(** [futurePoints] once the loop is over. *)
Definition jsFuturePoints (data : list FinancialRecord)
    (forecastMetric : string) (forecastHorizon : nat)
    (forecastSensitivity : jsnum) : list FuturePoint :=
  map pushed
    (jsBands data forecastMetric forecastHorizon forecastSensitivity).

(** The series [runJSForecast] builds; [None] when reading
    [data[data.length-1][forecastMetric]] throws, that is on empty
    [data]. *)
Definition jsChartData (data : list FinancialRecord) (forecastMetric : string)
    (forecastHorizon : nat) (forecastSensitivity : jsnum)
    : option (list ChartPoint) :=
  let x := map (fun d : FinancialRecord => d !! "Year") data in
  let futurePoints :=
    jsFuturePoints data forecastMetric forecastHorizon forecastSensitivity in
  let lastYear := mjoin (last x) in
  match last data with
  | None => None
  | Some dl =>
      let lastVal := dl !! forecastMetric in
      Some (mergeSeries data forecastMetric lastYear lastVal futurePoints)
  end.

(** ** The application state the effects read and write *)

Inductive PythonStatus : Type := loading | ready | error.

Inductive ComputeSource : Type := PythonNumPy | JSFallback.

(** The lines [addLog] receives, by template. *)
Inductive LogMsg : Type :=
  | LogStartForecast (metric : string) (sensitivity : jsnum)
  | LogForecastDone
  | LogExecutionError
  | LogKernelUnavailable
  | LogStartValuation
  | LogValuationDone
  | LogValuationError
  | LogSeparator
  | LogScanStart (fileName : string)
  | LogIntegrityWarn (row : nat) (col : string)
  | LogIntegrityNote (year : jsval)
  | LogQualityExcellent
  | LogQualityWarning (score : Z)
  | LogIndexed (records : nat).

(** An entry of [waterfall]; [isTotal] is written on the last one only. *)
Record WaterfallEntry : Type := mkEntry {
  name : string;
  value : jsnum;
  isTotal : option bool;
  contribution : string
}.

Record ValuationResult : Type := mkValuation {
  sharePrice : jsnum;
  waterfall : list WaterfallEntry
}.

#[global] Instance PythonStatus_eq_dec : EqDecision PythonStatus.
Proof. solve_decision. Defined.

#[global] Instance ComputeSource_eq_dec : EqDecision ComputeSource.
Proof. solve_decision. Defined.

#[global] Instance WaterfallEntry_eq_dec : EqDecision WaterfallEntry.
Proof. solve_decision. Defined.

#[global] Instance ValuationResult_eq_dec : EqDecision ValuationResult.
Proof. solve_decision. Defined.

Record AppState : Type := mkApp {
  data : list FinancialRecord;
  pythonStatus : PythonStatus;
  pyodide : bool;                      (* [window.pyodide] is set *)
  pythonLogs : list LogMsg;
  forecastHorizon : nat;
  forecastMetric : string;
  forecastSensitivity : jsnum;
  forecastData : list ChartPoint;
  computeSource : option ComputeSource;
  wacc : jsnum;
  termGrowth : jsnum;
  netDebt : jsnum;
  shares : jsnum;
  valuationResult : ValuationResult;
  valuationSource : option ComputeSource
}.

Definition addLog (msg : LogMsg) (st : AppState) : AppState :=
  mkApp (data st) (pythonStatus st) (pyodide st) (pythonLogs st ++ [msg])
    (forecastHorizon st) (forecastMetric st) (forecastSensitivity st)
    (forecastData st) (computeSource st) (wacc st) (termGrowth st)
    (netDebt st) (shares st) (valuationResult st) (valuationSource st).

Definition setData (v : list FinancialRecord) (st : AppState) : AppState :=
  mkApp v (pythonStatus st) (pyodide st) (pythonLogs st)
    (forecastHorizon st) (forecastMetric st) (forecastSensitivity st)
    (forecastData st) (computeSource st) (wacc st) (termGrowth st)
    (netDebt st) (shares st) (valuationResult st) (valuationSource st).

Definition setForecastData (v : list ChartPoint) (st : AppState) : AppState :=
  mkApp (data st) (pythonStatus st) (pyodide st) (pythonLogs st)
    (forecastHorizon st) (forecastMetric st) (forecastSensitivity st)
    v (computeSource st) (wacc st) (termGrowth st)
    (netDebt st) (shares st) (valuationResult st) (valuationSource st).

Definition setComputeSource (v : ComputeSource) (st : AppState) : AppState :=
  mkApp (data st) (pythonStatus st) (pyodide st) (pythonLogs st)
    (forecastHorizon st) (forecastMetric st) (forecastSensitivity st)
    (forecastData st) (Some v) (wacc st) (termGrowth st)
    (netDebt st) (shares st) (valuationResult st) (valuationSource st).

Definition setValuationResult (v : ValuationResult) (st : AppState)
    : AppState :=
  mkApp (data st) (pythonStatus st) (pyodide st) (pythonLogs st)
    (forecastHorizon st) (forecastMetric st) (forecastSensitivity st)
    (forecastData st) (computeSource st) (wacc st) (termGrowth st)
    (netDebt st) (shares st) v (valuationSource st).

Definition setValuationSource (v : ComputeSource) (st : AppState) : AppState :=
  mkApp (data st) (pythonStatus st) (pyodide st) (pythonLogs st)
    (forecastHorizon st) (forecastMetric st) (forecastSensitivity st)
    (forecastData st) (computeSource st) (wacc st) (termGrowth st)
    (netDebt st) (shares st) (valuationResult st) (Some v).

(** [runJSForecast]: on empty [data] the read of the last row throws
    before any setter runs. *)
Definition runJSForecast (st : AppState) : AppState :=
  match jsChartData (data st) (forecastMetric st) (forecastHorizon st)
          (forecastSensitivity st) with
  | Some chartData => setComputeSource JSFallback (setForecastData chartData st)
  | None => st
  end.

(** ** The embedded scripts, on the Python side *)

(** A number of the state written into the script text: a non-finite one
    comes out as [null], [NaN] or [Infinity], none of them a Python
    name. *)
Definition py_number (x : jsnum) : pyres Qc :=
  match x with
  | Fin q => PyVal q
  | _ => PyRaise
  end.

(** [data = ${JSON.stringify(data)}] evaluates. *)
Definition py_literal_ok (data : list FinancialRecord) : bool :=
  forallb (fun d : FinancialRecord =>
             bool_decide (map_Forall (fun _ v => is_fin v = true) d)) data.

(** [d[k]]: a [KeyError] on a missing key. *)
Definition py_get (d : FinancialRecord) (k : string) : pyres Qc :=
  match d !! k with
  | Some v => py_number v
  | None => PyRaise
  end.

(** [d.get(k, 0)]. *)
Definition py_get_default (d : FinancialRecord) (k : string) : pyres Qc :=
  match d !! k with
  | Some v => py_number v
  | None => PyVal 0
  end.

Fixpoint py_mapM {A B : Type} (f : A -> pyres B) (l : list A)
    : pyres (list B) :=
  match l with
  | [] => PyVal []
  | a :: l' =>
      pylet b := f a in
      pylet bs := py_mapM f l' in
      PyVal (b :: bs)
  end.

(** The object the script serialises. *)
Inductive ForecastOutput : Type :=
  | ForecastSuccess (future : list FuturePoint)
  | ForecastFailure.

Section Scripts.

(** [np.polyfit(x, y, 1)], as [(slope, intercept)]: NumPy is not part
    of the repository. *)
Variable polyfit : list Qc -> list Qc -> pyres (Qc * Qc).

(** One turn of [for i, pred in enumerate(predictions)], [i] counted
    from 0, with the row of ["future"] it contributes. *)
Definition scriptRow (sensitivity : Qc) (len_predictions : nat)
    (i : nat) (y : Z) (pred : Qc) : FuturePoint :=
  let ratio := qz (Z.of_nat i + 1) / qz (Z.of_nat len_predictions) in
  let current_spread_pct := sensitivity * ratio in
  let high := pred * (1 + current_spread_pct) in
  let low := pred * (1 - current_spread_pct) in
  mkFuture (num y) (num (py_int pred)) (num (py_int high))
    (num (py_int low)).

Definition forecastScript (data : list FinancialRecord) (metric : string)
    (horizon : nat) (forecastSensitivity : jsnum) : pyres ForecastOutput :=
  if negb (py_literal_ok data) then PyRaise else
  pylet s := py_number forecastSensitivity in
  let sensitivity := s / qz 100 in
  pylet years := py_mapM (fun d => py_get d "Year") data in
  pylet values :=
    py_mapM (fun d => py_get d metric)
      (filter (fun d : FinancialRecord => is_Some (d !! metric)) data) in
  if bool_decide (1 < length values)%nat then
    pylet coef := polyfit years values in
    let '(slope, intercept) := coef in
    pylet ly := match last years with
                | Some v => PyVal v
                | None => PyRaise
                end in
    let last_year := py_int ly in
    let future_years :=
      map (fun k => (last_year + Z.of_nat k)%Z) (seq 1 horizon) in
    let predictions := map (fun y => slope * qz y + intercept) future_years in
    PyVal (ForecastSuccess
             (imap (fun i '(y, pred) =>
                      scriptRow sensitivity (length predictions) i y pred)
                   (zip future_years predictions)))
  else PyVal ForecastFailure.

(** [runForecast], the timer callback of the forecast effect. *)
Definition runForecast (st : AppState) : AppState :=
  if bool_decide (pythonStatus st = ready) && pyodide st then
    let st1 :=
      addLog (LogStartForecast (forecastMetric st) (forecastSensitivity st))
        st in
    match forecastScript (data st) (forecastMetric st) (forecastHorizon st)
            (forecastSensitivity st) with
    | PyVal (ForecastSuccess future) =>
        match last (data st) with
        | Some dl =>
            let lastYear := dl !! "Year" in
            let lastVal := dl !! forecastMetric st in
            let merged :=
              mergeSeries (data st) (forecastMetric st) lastYear lastVal
                future in
            addLog LogForecastDone
              (setComputeSource PythonNumPy (setForecastData merged st1))
        | None => runJSForecast (addLog LogExecutionError st1)
        end
    | PyVal ForecastFailure => st1
    | PyRaise => runJSForecast (addLog LogExecutionError st1)
    end
  else if bool_decide (pythonStatus st = loading) then st
  else
    runJSForecast
      (if bool_decide (pythonStatus st = error)
       then addLog LogKernelUnavailable st else st).

End Scripts.

(** ** [runJSValuation] *)

(** The locals of the body of [runJSValuation], up to [sharePrice]. *)
Record DcfLocals : Type := mkDcf {
  futureFCFs : list jsnum;
  discountedSum : jsnum;
  terminalValue : jsnum;
  discountedTV : jsnum;
  enterpriseValue : jsnum;
  equityValue : jsnum;
  dcfSharePrice : jsnum
}.

Definition jsDcf (data : list FinancialRecord)
    (wacc termGrowth netDebt shares : jsnum) : DcfLocals :=
  let x := map (fun d : FinancialRecord => d !! "Year") data in
  let y := map (fun d : FinancialRecord => d !! "Free Cash Flow") data in
  let '(slope, intercept) := fitTrend (length data) x y in
  let lastYear := mjoin (last x) in
  let r := (wacc / num 100)%js in
  let g := (termGrowth / num 100)%js in
  let fcf := fun i : nat =>
    (slope * (ToNumber lastYear + num (Z.of_nat i)) + intercept)%js in
  let futureFCFs := map fcf (seq 1 5) in
  let discountedSum :=
    fold_left (fun acc i => acc + fcf i / Math_pow (num 1 + r) i)%js
      (seq 1 5) (num 0) in
  let fcf5 := ToNumber (futureFCFs !! 4%nat) in
  let terminalValue :=
    if jgt r g then ((fcf5 * (num 1 + g)) / (r - g))%js
    else (fcf5 * num 15)%js in
  let discountedTV := (terminalValue / Math_pow (num 1 + r) 5)%js in
  let enterpriseValue := (discountedSum + discountedTV)%js in
  let equityValue := (enterpriseValue - netDebt)%js in
  let sharePrice := (equityValue / shares)%js in
  mkDcf futureFCFs discountedSum terminalValue discountedTV enterpriseValue
    equityValue sharePrice.

(** The three-entry literal both paths pass to [setValuationResult]. *)
Definition buildWaterfall (sumFCF terminal enterprise : jsnum)
    : list WaterfallEntry :=
  [ mkEntry "Sum of FCFs" (Math_round sumFCF) None
      (toFixed1 ((sumFCF / enterprise) * num 100)%js);
    mkEntry "Terminal Value" (Math_round terminal) None
      (toFixed1 ((terminal / enterprise) * num 100)%js);
    mkEntry "Enterprise Value" (Math_round enterprise) (Some true) "100.0" ].

(** The result [runJSValuation] stores; [None] on the early [return] for
    empty [data]. *)
Definition jsValuation (data : list FinancialRecord)
    (wacc termGrowth netDebt shares : jsnum) : option ValuationResult :=
  if bool_decide (data = []) then None
  else
    let l := jsDcf data wacc termGrowth netDebt shares in
    Some (mkValuation (dcfSharePrice l)
            (buildWaterfall (discountedSum l) (discountedTV l)
               (enterpriseValue l))).

Definition runJSValuation (st : AppState) : AppState :=
  match jsValuation (data st) (wacc st) (termGrowth st) (netDebt st)
          (shares st) with
  | Some res => setValuationSource JSFallback (setValuationResult res st)
  | None => st
  end.

(** ** The valuation script and [runValuation] *)

Record PyDcf : Type := mkPyDcf {
  future_fcf : list Qc;
  discounted_sum : Qc;
  terminal_value : Qc;
  discounted_tv : Qc;
  enterprise_value : Qc;
  equity_value : Qc;
  share_price : Qc
}.

Inductive ValuationOutput : Type :=
  | ValuationSuccess (l : PyDcf)
  | ValuationFailure.

Fixpoint py_foldM {A B : Type} (f : B -> A -> pyres B) (l : list A) (acc : B)
    : pyres B :=
  match l with
  | [] => PyVal acc
  | a :: l' => pylet acc' := f acc a in py_foldM f l' acc'
  end.

Section ValuationScript.

Variable polyfit : list Qc -> list Qc -> pyres (Qc * Qc).

Definition valuationScript (data : list FinancialRecord)
    (wacc termGrowth netDebt shares : jsnum) : pyres ValuationOutput :=
  if negb (py_literal_ok data) then PyRaise else
  pylet w := py_number wacc in
  let wacc := w / qz 100 in
  pylet t := py_number termGrowth in
  let term_growth := t / qz 100 in
  pylet net_debt := py_number netDebt in
  pylet shares := py_number shares in
  pylet years := py_mapM (fun d => py_get d "Year") data in
  pylet fcf := py_mapM (fun d => py_get_default d "Free Cash Flow") data in
  if bool_decide (1 < length fcf)%nat then
    pylet coef := polyfit years fcf in
    let '(slope, intercept) := coef in
    pylet ly := match last years with
                | Some v => PyVal v
                | None => PyRaise
                end in
    let last_year := py_int ly in
    let proj := fun i : nat =>
      slope * qz (last_year + Z.of_nat i) + intercept in
    let future_fcf := map proj (seq 1 5) in
    pylet discounted_sum :=
      py_foldM (fun acc i =>
                  pylet d := py_div (proj i) ((1 + wacc) ^ i) in
                  PyVal (acc + d))
        (seq 1 5) 0 in
    let fcf_last := default 0 (last future_fcf) in
    pylet terminal_value :=
      (if bool_decide (term_growth < wacc)
       then py_div (fcf_last * (1 + term_growth)) (wacc - term_growth)
       else PyVal (fcf_last * qz 15)) in
    pylet discounted_tv := py_div terminal_value ((1 + wacc) ^ 5) in
    let enterprise_value := discounted_sum + discounted_tv in
    let equity_value := enterprise_value - net_debt in
    pylet share_price :=
      (if bool_decide (0 < shares) then py_div equity_value shares
       else PyVal 0) in
    PyVal (ValuationSuccess
             (mkPyDcf future_fcf discounted_sum terminal_value discounted_tv
                enterprise_value equity_value share_price))
  else PyVal ValuationFailure.

(** [runValuation], the timer callback of the valuation effect. *)
Definition runValuation (st : AppState) : AppState :=
  if bool_decide (pythonStatus st = ready) && pyodide st then
    let st1 := addLog LogStartValuation st in
    match valuationScript (data st) (wacc st) (termGrowth st) (netDebt st)
            (shares st) with
    | PyVal (ValuationSuccess o) =>
        addLog LogValuationDone
          (setValuationSource PythonNumPy
             (setValuationResult
                (mkValuation (Fin (share_price o))
                   (buildWaterfall (Fin (discounted_sum o))
                      (Fin (discounted_tv o)) (Fin (enterprise_value o))))
                st1))
    | PyVal ValuationFailure => st1
    | PyRaise => runJSValuation (addLog LogValuationError st1)
    end
  else if bool_decide (pythonStatus st = loading) then st
  else runJSValuation st.

End ValuationScript.

(** [np.polyfit] taken at its mathematical value: the least-squares
    line in closed form, raising on vectors of different length or an
    empty one as NumPy does.  Used to run the scripts on concrete data. *)
Definition sumQc (l : list Qc) : Qc := fold_right Qcplus 0 l.

Definition exact_polyfit (x y : list Qc) : pyres (Qc * Qc) :=
  if bool_decide (length x = length y) && negb (bool_decide (x = [])) then
    let n := qz (Z.of_nat (length x)) in
    let sx := sumQc x in
    let sy := sumQc y in
    let sxy := sumQc (zip_with Qcmult x y) in
    let sxx := sumQc (zip_with Qcmult x x) in
    let slope := (n * sxy - sx * sy) / (n * sxx - sx * sx) in
    PyVal (slope, (sy - slope * sx) / n)
  else PyRaise.

(** ** The integrity scan of [handleFileUpload] *)

Definition checkCols : list string := ["Revenue"; "Net Income"].

Record ScanState : Type := mkScan {
  integrityScore : Z;
  nullCount : nat;
  scanLogs : list LogMsg
}.

(** [row[col] === undefined || row[col] === null || isNaN(row[col])]. *)
Definition isNullCell (row : FinancialRecord) (col : string) : bool :=
  match row !! col with
  | None => true
  | Some v => isNaN v
  end.

Definition scanCell (row : FinancialRecord) (idx : nat) (s : ScanState)
    (col : string) : ScanState :=
  if isNullCell row col then
    mkScan (integrityScore s - 5) (S (nullCount s))
      (scanLogs s ++ [LogIntegrityWarn (idx + 1) col])
  else s.

Definition scanRow (s : ScanState) (row : FinancialRecord) (idx : nat)
    : ScanState :=
  let s' := fold_left (scanCell row idx) checkCols s in
  if jlt (ToNumber (row !! "Year")) (num 2000)
     || jgt (ToNumber (row !! "Year")) (num 2030)
  then mkScan (integrityScore s') (nullCount s')
         (scanLogs s' ++ [LogIntegrityNote (row !! "Year")])
  else s'.

(** [parsed.forEach((row, idx) => ...)] from [integrityScore = 100]. *)
Definition scanRecords (parsed : list FinancialRecord) : ScanState :=
  reduce scanRow parsed (mkScan 100 0 []).

(** The [onload] body once the file is parsed ([setBaseRev] writes a
    field that none of the effects here reads). *)
Definition handleFileUpload (fileName : string) (parsed : list FinancialRecord)
    (st : AppState) : AppState :=
  if bool_decide (0 < length parsed)%nat then
    let s := scanRecords parsed in
    let st1 := addLog (LogScanStart fileName)
                 (addLog LogSeparator (setData parsed st)) in
    let st2 := fold_left (fun a m => addLog m a) (scanLogs s) st1 in
    let st3 :=
      if bool_decide (integrityScore s = 100%Z)
      then addLog LogQualityExcellent st2
      else addLog (LogQualityWarning (integrityScore s)) st2 in
    addLog LogSeparator (addLog (LogIndexed (length parsed)) st3)
  else st.

(** ** [StrategicInsight]

    The growth rate is computed in binary64 arithmetic: the division, the
    subtraction, the multiplication and the comparisons are the IEEE
    operations of [PrimFloat], which round as the engine does.  [Math.pow]
    is implementation-approximated and stays a parameter. *)

(** The double nearest to an integer. *)
Definition Z2double (z : Z) : float :=
  SF2Prim (binary_normalize prec emax z 0 false).

(** The double a number of the series stands for: the quotient of the
    doubles nearest to its numerator and to its denominator, which is the
    double nearest to the number itself while both stay below [2^53]. *)
Definition toDouble (x : jsnum) : float :=
  match x with
  | Fin q => (Z2double (Qnum q) / Z2double (Zpos (Qden q)))%float
  | PInf => infinity
  | NInf => neg_infinity
  | NaN => nan
  end.

Inductive Direction : Type := expansion | contraction.
Inductive Strength : Type := aggressive | moderate | stable.

(** The text of the commentary, by template and by what fills it. *)
Inductive InsightText : Type :=
  | InsufficientData
  | InitializationRequired
  | Commentary (metric : string) (strength : Strength)
      (direction : Direction) (cagr : float) (horizon : nat)
      (endVal : jsnum).

Definition directionOf (cagr : float) : Direction :=
  if (0 <? cagr)%float then expansion else contraction.

Definition strengthOf (cagr : float) : Strength :=
  if (10 <? abs cagr)%float then aggressive
  else if (5 <? abs cagr)%float then moderate
  else stable.

Section Insight.

(** [Math.pow] on doubles. *)
Variable Math_pow_double : float -> float -> float.

(** [(Math.pow(endVal / startVal, 1 / horizon) - 1) * 100]. *)
Definition cagrPercent (startVal endVal : jsnum) (horizon : nat) : float :=
  ((Math_pow_double (toDouble endVal / toDouble startVal)
      (1 / Z2double (Z.of_nat horizon)) - 1) * 100)%float.

Definition StrategicInsight (metric : string) (data : list ChartPoint)
    (horizon : nat) : InsightText :=
  if bool_decide (length data < 2)%nat then InsufficientData
  else
    let history := filter (fun d => is_Some (Historical d)) data in
    let forecast := filter (fun d => is_Some (Forecast d)) data in
    match last history, last forecast with
    | Some h, Some f =>
        let startVal := ToNumber (Historical h) in
        let endVal := ToNumber (Forecast f) in
        let cagr := cagrPercent startVal endVal horizon in
        Commentary metric (strengthOf cagr) (directionOf cagr) cagr horizon
          endVal
    | _, _ => InitializationRequired
    end.

End Insight.

(** A stand-in for [Math.pow] on which the commentary can be run for a
    horizon of one year: with the exponent [1] the power is the base
    itself; other exponents are left without a value. *)
Definition unitPow (x y : float) : float :=
  if (y =? 1)%float then x else nan.

(** ** Sample record sets *)

(** A row with a year and one metric. *)
Definition row1 (year : Z) (metric : string) (v : Z) : FinancialRecord :=
  {[ "Year" := num year; metric := num v ]}.

(** A row as [generateSampleData] and the CSV header lay it out. *)
Definition row (year revenue netIncome fcf : Z) : FinancialRecord :=
  {[ "Year" := num year; "Revenue" := num revenue;
     "Net Income" := num netIncome; "Free Cash Flow" := num fcf ]}.

(** Revenue on the line [y = 2x + 1]. *)
Definition lineData : list FinancialRecord :=
  [ row1 2020 "Revenue" 4041; row1 2021 "Revenue" 4043;
    row1 2022 "Revenue" 4045 ].

(** Three growing years: revenue 100, 110, 120; cash flow 12, 13, 14. *)
Definition growthData : list FinancialRecord :=
  [ row 2020 100 15 12; row 2021 110 16 13; row 2022 120 18 14 ].

(** Three shrinking years: revenue 500, 400, 300. *)
Definition declineData : list FinancialRecord :=
  [ row 2020 500 75 60; row 2021 400 60 48; row 2022 300 45 36 ].

(** A single year. *)
Definition oneRow : list FinancialRecord := [ row 2020 100 15 12 ].


(** ** Sample states *)

(** The state after the first render: the [useState] defaults around a
    record set, the kernel still loading. *)
Definition initialState (data : list FinancialRecord) : AppState :=
  mkApp data loading false [] 5 "Revenue" (num 10) [] None
    (num 10) (Fin (qd 5 2)) (num 150) (num 50) (mkValuation (num 0) []) None.

Definition setPythonStatus (v : PythonStatus) (st : AppState) : AppState :=
  mkApp (data st) v (pyodide st) (pythonLogs st)
    (forecastHorizon st) (forecastMetric st) (forecastSensitivity st)
    (forecastData st) (computeSource st) (wacc st) (termGrowth st)
    (netDebt st) (shares st) (valuationResult st) (valuationSource st).

(** The end of [initPython]: [window.pyodide = pyodide;
    setPythonStatus('ready')]. *)
Definition kernelReady (st : AppState) : AppState :=
  mkApp (data st) ready true (pythonLogs st)
    (forecastHorizon st) (forecastMetric st) (forecastSensitivity st)
    (forecastData st) (computeSource st) (wacc st) (termGrowth st)
    (netDebt st) (shares st) (valuationResult st) (valuationSource st).

Definition setForecastHorizon (v : nat) (st : AppState) : AppState :=
  mkApp (data st) (pythonStatus st) (pyodide st) (pythonLogs st)
    v (forecastMetric st) (forecastSensitivity st)
    (forecastData st) (computeSource st) (wacc st) (termGrowth st)
    (netDebt st) (shares st) (valuationResult st) (valuationSource st).

Definition setForecastSensitivity (v : jsnum) (st : AppState) : AppState :=
  mkApp (data st) (pythonStatus st) (pyodide st) (pythonLogs st)
    (forecastHorizon st) (forecastMetric st) v
    (forecastData st) (computeSource st) (wacc st) (termGrowth st)
    (netDebt st) (shares st) (valuationResult st) (valuationSource st).

Definition setShares (v : jsnum) (st : AppState) : AppState :=
  mkApp (data st) (pythonStatus st) (pyodide st) (pythonLogs st)
    (forecastHorizon st) (forecastMetric st) (forecastSensitivity st)
    (forecastData st) (computeSource st) (wacc st) (termGrowth st)
    (netDebt st) v (valuationResult st) (valuationSource st).

(** A kernel that is ready, one uploaded row, and on screen still the
    series computed for [growthData]. *)
Definition staleSeries : list ChartPoint :=
  default [] (jsChartData growthData "Revenue" 5 (num 10)).

Definition staleState : AppState :=
  setForecastData staleSeries (kernelReady (initialState oneRow)).

(** Eleven yearly rows of a file whose only metric column is [Sales]. *)
Definition salesOnly : list FinancialRecord :=
  map (fun i => row1 (2010 + Z.of_nat i) "Sales" 100) (seq 0 11).

(** Four rows, the revenue cell missing in the second and [NaN] in the
    fourth. *)
Definition twoGaps : list FinancialRecord :=
  [ row 2020 100 15 12;
    {[ "Year" := num 2021; "Net Income" := num 16 ]};
    row 2022 120 18 14;
    {[ "Year" := num 2023; "Revenue" := NaN; "Net Income" := num 20 ]} ].

(** ** The cells the scan is to report

    The required cells that are absent or [NaN], as (row number, column),
    rows numbered from [i + 1], in reading order. *)
Fixpoint nullCellsFrom (i : nat) (parsed : list FinancialRecord)
    : list (nat * string) :=
  match parsed with
  | [] => []
  | r :: rest =>
      map (fun col => ((i + 1)%nat, col)) (List.filter (isNullCell r) checkCols)
        ++ nullCellsFrom (S i) rest
  end.

Definition nullCells (parsed : list FinancialRecord) : list (nat * string) :=
  nullCellsFrom 0 parsed.

Definition isWarn (m : LogMsg) : bool :=
  match m with LogIntegrityWarn _ _ => true | _ => false end.

Definition warnings (logs : list LogMsg) : list LogMsg :=
  List.filter isWarn logs.

(** ** Columns of finite cells, and ascending years *)

(** A column ([data.map(d => d[key])]) all of whose cells hold finite
    numbers. *)
Abbreviation fin_cells := (map (fun q : Qc => Some (Fin q))).

(** Every [Year] of the series is a finite number and they never
    decrease. *)
Definition yearsAscending (series : list ChartPoint) : Prop :=
  exists ys : list Qc,
    map Year series = fin_cells ys /\ StronglySorted Qcle ys.

(** The junction row sits at index [historicalCount] and repeats the
    last historical value everywhere. *)
Definition junctionAt (series : list ChartPoint) (i : nat)
    (lastYear lastVal : jsval) : Prop :=
  exists j,
    series !! i = Some j
    /\ Year j = lastYear
    /\ Historical j = lastVal
    /\ Forecast j = lastVal
    /\ High j = lastVal
    /\ Low j = lastVal
    /\ Confidence j = Some (lastVal, lastVal).

(** ** The width of the cone *)

(** [high - low] of a turn of the loop, and [High - Low] of a stored
    row. *)
Definition bandSpread (b : Band) : jsnum := (b_high b - b_low b)%js.

Definition reportedSpread (p : FuturePoint) : jsnum := (fHigh p - fLow p)%js.

(** Each number is [<] the next one. *)
Fixpoint strictlyIncreasing (l : list jsnum) : bool :=
  match l with
  | a :: (b :: _) as rest => jlt a b && strictlyIncreasing rest
  | _ => true
  end.

(** ** Sums over a column

    The sum of squares, the denominator [n * sumXX - sumX * sumX] of the
    fit, and the squared distances from one abscissa to the others. *)
Definition sumsq (l : list Qc) : Qc := sumQc (zip_with Qcmult l l).

Definition olsDen (l : list Qc) : Qc :=
  qz (Z.of_nat (length l)) * sumsq l - sumQc l * sumQc l.

Definition sqdev (x : Qc) (l : list Qc) : Qc :=
  sumQc (map (fun y => (x - y) * (x - y)) l).

(** ** What the scripts cannot read *)

(** Some record lacks [Year], or some cell of some record is not a
    finite number. *)
Definition unreadable (data : list FinancialRecord) : Prop :=
  Exists (fun d : FinancialRecord =>
            d !! "Year" = None
            \/ exists k v, d !! k = Some v /\ is_fin v = false) data.

(** ** What a callback leaves alone *)

(** The two states hold the same records, kernel status and input
    fields. *)
Definition sameInputs (st st' : AppState) : Prop :=
  data st' = data st
  /\ pythonStatus st' = pythonStatus st
  /\ pyodide st' = pyodide st
  /\ forecastHorizon st' = forecastHorizon st
  /\ forecastMetric st' = forecastMetric st
  /\ forecastSensitivity st' = forecastSensitivity st
  /\ wacc st' = wacc st
  /\ termGrowth st' = termGrowth st
  /\ netDebt st' = netDebt st
  /\ shares st' = shares st.

(** ** Figures one unit apart *)

(** Two integers, the second the first or its neighbour away from
    zero. *)
Definition withinOne (x y : jsnum) : Prop :=
  exists a b : Z,
    x = num a /\ y = num b
    /\ (a - 1 <= b <= a + 1)%Z /\ (0 < a -> a <= b)%Z /\ (a < 0 -> b <= a)%Z.

Definition agreeWithinOne (p q : FuturePoint) : Prop :=
  fYear p = fYear q
  /\ withinOne (fForecast p) (fForecast q)
  /\ withinOne (fHigh p) (fHigh q)
  /\ withinOne (fLow p) (fLow q).

(** ** The notes of the scan *)

(** [row['Year'] < 2000 || row['Year'] > 2030]. *)
Definition unusualYear (r : FinancialRecord) : bool :=
  jlt (ToNumber (r !! "Year")) (num 2000)
  || jgt (ToNumber (r !! "Year")) (num 2030).

Definition isNote (m : LogMsg) : bool :=
  match m with LogIntegrityNote _ => true | _ => false end.

Definition notes (logs : list LogMsg) : list LogMsg :=
  List.filter isNote logs.

(** ** [generateSampleData]

    [Math.random()] is read from a stream: [random k] is what the call
    number [k] returns.  The callback of [Array.from] runs for
    [i = 0 .. 5] in order and draws twice, for [growth] and then for
    [Budget]. *)
Definition sampleRow (random : nat -> Qc) (i : nat) : FinancialRecord :=
  let baseRevenue := num 100000 in
  let year := (num 2020 + num (Z.of_nat i))%js in
  let growth :=
    (num 1 + num (Z.of_nat i) * Fin (qd 1 10)
     + Fin (random (2 * i)%nat) * Fin (qd 5 100))%js in
  let revenue := Math_round (baseRevenue * growth) in
  {[ "Year" := year;
     "Revenue" := revenue;
     "Net Income" := Math_round (revenue * Fin (qd 15 100));
     "Free Cash Flow" := Math_round (revenue * Fin (qd 12 100));
     "Budget" :=
       Math_round
         (revenue * (if jgt (Fin (random (2 * i + 1)%nat)) (Fin (qd 1 2))
                     then Fin (qd 95 100) else Fin (qd 105 100))) ]}.

Definition generateSampleData (random : nat -> Qc) : list FinancialRecord :=
  map (sampleRow random) (seq 0 6).

(** ** The variance chart *)

(** [v || 0]. *)
Definition orZero (v : jsval) : jsnum :=
  match v with
  | None | Some NaN => num 0
  | Some (Fin q) => if decide (q = 0) then num 0 else Fin q
  | Some x => x
  end.

(** [x >= y]. *)
Definition jge (x y : jsnum) : bool :=
  match x, y with
  | NaN, _ | _, NaN => false
  | _, _ => negb (jlt x y)
  end.

(** [(d.Revenue || 0) - (d.Budget || 0)], and the test that fills the
    bar in black. *)
Definition variance (d : FinancialRecord) : jsnum :=
  (orZero (d !! "Revenue") - orZero (d !! "Budget"))%js.

Definition favourable (d : FinancialRecord) : bool :=
  jge (variance d) (num 0).

(** ** [marketMetrics] *)

(** The truth value of a number: [0] and [NaN] are falsy. *)
Definition truthy (x : jsnum) : bool :=
  match x with
  | NaN => false
  | Fin q => negb (bool_decide (q = 0))
  | _ => true
  end.

(** [Math.max(...l)]. *)
Definition jmax (x y : jsnum) : jsnum :=
  match x, y with
  | NaN, _ | _, NaN => NaN
  | _, _ => if jgt y x then y else x
  end.

Definition Math_max (l : list jsnum) : jsnum := fold_left jmax l NInf.

(** [data.reduce((acc, curr) => acc + (curr[k] || 0), 0)]. *)
Definition sumOrZero (k : string) (data : list FinancialRecord) : jsnum :=
  reduce (fun acc (curr : FinancialRecord) _ => acc + orZero (curr !! k))%js
    data (num 0).

(** The numbers behind the four cards, before they are formatted. *)
Record MarketLocals : Type := mkMarket {
  avgEquity : jsnum;
  avgNetIncome : jsnum;
  roe : jsnum;
  rateBase : jsnum;
  avgRev : jsnum;
  maxRev : jsnum
}.

#[global] Instance MarketLocals_eq_dec : EqDecision MarketLocals.
Proof. solve_decision. Defined.

(** [None] on the early [return] of the literal card texts, for empty
    [data]. *)
Definition marketMetrics (data : list FinancialRecord)
    : option MarketLocals :=
  if bool_decide (data = []) then None
  else
    let n := num (Z.of_nat (length data)) in
    let avgEquity := (sumOrZero "Free Cash Flow" data / n * num 5)%js in
    let avgNetIncome := (sumOrZero "Net Income" data / n)%js in
    let roe :=
      if truthy avgEquity then (avgNetIncome / avgEquity * num 100)%js
      else num 0 in
    Some (mkMarket avgEquity avgNetIncome roe (avgEquity * Fin (qd 3 2))%js
            (sumOrZero "Revenue" data / n)%js
            (Math_max
               (map (fun d : FinancialRecord => orZero (d !! "Revenue"))
                  data))).

(** The number a cell contributes to a total: [0] unless the cell holds
    a finite number. *)
Definition cellOrZero (v : jsval) : Qc :=
  match v with
  | Some (Fin q) => q
  | _ => 0
  end.

Definition total (k : string) (data : list FinancialRecord) : Qc :=
  sumQc (map (fun d : FinancialRecord => cellOrZero (d !! k)) data).

(** No cell of column [k] is an infinity. *)
Definition noInfinity (k : string) (data : list FinancialRecord) : Prop :=
  Forall (fun d : FinancialRecord =>
            d !! k <> Some PInf /\ d !! k <> Some NInf) data.

(** ** The sensitivity matrix and its shades *)

Definition jmin (x y : jsnum) : jsnum :=
  match x, y with
  | NaN, _ | _, NaN => NaN
  | _, _ => if jlt y x then y else x
  end.

(** [Math.min(...l)]. *)
Definition Math_min (l : list jsnum) : jsnum := fold_left jmin l PInf.

Definition revChanges : list jsnum :=
  [Fin (qd 9 10); Fin (qd 95 100); num 1; Fin (qd 105 100); Fin (qd 11 10)].

Definition costChanges : list jsnum := revChanges.

(** [sensitivityData]: one row per revenue change, one cell per cost
    change. *)
Definition sensitivityData (baseRev : jsval) (baseCost : jsnum)
    : list (list jsnum) :=
  map (fun r =>
         map (fun costMult =>
                (ToNumber baseRev * r - baseCost * costMult)%js)
           costChanges)
    revChanges.

(** The lightness of one cell of the flattened grid. *)
Definition lightness (grid : list (list jsnum)) (val : jsnum) : jsnum :=
  let maxVal := Math_max (concat grid) in
  let minVal := Math_min (concat grid) in
  let normalized := ((val - minVal) / (maxVal - minVal))%js in
  (num 20 + normalized * num 80)%js.

Definition heatCells (grid : list (list jsnum)) : list jsnum :=
  map (lightness grid) (concat grid).

(** ** [parseCSV]

    A string is read as its sequence of code units, each below 256.
    [Number] applied to a string is a parameter of the section. *)

(** The white space and line terminators [trim] removes. *)
Definition isSpace (c : Ascii.ascii) : bool :=
  bool_decide (Ascii.nat_of_ascii c ∈ [9; 10; 11; 12; 13; 32; 160]%nat).

Fixpoint trimStart (s : string) : string :=
  match s with
  | EmptyString => EmptyString
  | String c s' => if isSpace c then trimStart s' else s
  end.

Fixpoint trimEnd (s : string) : string :=
  match s with
  | EmptyString => EmptyString
  | String c s' =>
      match trimEnd s' with
      | EmptyString => if isSpace c then EmptyString else String c EmptyString
      | t => String c t
      end
  end.

Definition trim (s : string) : string := trimEnd (trimStart s).

(** [s.split(sep)] for a separator of one character. *)
Fixpoint split (sep : Ascii.ascii) (s : string) : list string :=
  match s with
  | EmptyString => [EmptyString]
  | String c s' =>
      if decide (c = sep) then EmptyString :: split sep s'
      else
        match split sep s' with
        | cur :: rest => String c cur :: rest
        | [] => [String c EmptyString]
        end
  end.

(** The characters the source names: line feed, comma, and the two
    quotes. *)
Definition chLF : Ascii.ascii := Ascii.ascii_of_nat 10.
Definition chCR : Ascii.ascii := Ascii.ascii_of_nat 13.
Definition chComma : Ascii.ascii := Ascii.ascii_of_nat 44.
Definition chQuote : Ascii.ascii := Ascii.ascii_of_nat 39.
Definition chDoubleQuote : Ascii.ascii := Ascii.ascii_of_nat 34.

(** [h.replace(re, '')], [re] the global pattern of one or more single or
    double quotes: every quote goes. *)
Fixpoint removeQuotes (s : string) : string :=
  match s with
  | EmptyString => EmptyString
  | String c s' =>
      if bool_decide (c = chQuote \/ c = chDoubleQuote) then removeQuotes s'
      else String c (removeQuotes s')
  end.

(** What a property of a parsed row may hold. *)
Inductive CsvCell : Type :=
  | CellNum (x : jsnum)
  | CellStr (s : string)
  | CellUndefined.

#[global] Instance CsvCell_eq_dec : EqDecision CsvCell.
Proof. solve_decision. Defined.

(** The lines of the text, split at line feeds, that [trim] does not
    empty. *)
Definition nonBlankLines (text : string) : list string :=
  List.filter (fun l => negb (bool_decide (trim l = EmptyString)))
    (split chLF text).

(** The header cells of the first line, trimmed and stripped of
    quotes. *)
Definition headersOf (line : string) : list string :=
  map (fun h => removeQuotes (trim h)) (split chComma line).

Section ParseCSV.

Variable Number : string -> jsnum.

(** [isNaN(Number(val)) ? val : Number(val)], [val] possibly
    [undefined]. *)
Definition cellOf (val : option string) : CsvCell :=
  let n := match val with Some s => Number s | None => NaN end in
  if isNaN n then
    match val with Some s => CellStr s | None => CellUndefined end
  else CellNum n.

(** [obj[h] = c]: the key [__proto__] reaches the setter of
    [Object.prototype], which ignores a value that is no object. *)
Definition assign (h : string) (c : CsvCell) (obj : gmap string CsvCell)
    : gmap string CsvCell :=
  if decide (h = "__proto__") then obj else <[h := c]> obj.

Definition cellTruthy (c : option CsvCell) : bool :=
  match c with
  | Some (CellNum x) => truthy x
  | Some (CellStr s) => negb (bool_decide (s = EmptyString))
  | _ => false
  end.

Definition cellToNumber (c : option CsvCell) : jsnum :=
  match c with
  | Some (CellNum x) => x
  | Some (CellStr s) => Number s
  | _ => NaN
  end.

(** The callback of [lines.slice(1).map]. *)
Definition parseLine (headers : list string) (line : string)
    : gmap string CsvCell :=
  let values := split chComma line in
  let obj :=
    reduce (fun obj h i => assign h (cellOf (trim <$> values !! i)) obj)
      headers ∅ in
  if negb (cellTruthy (obj !! "Budget")) && cellTruthy (obj !! "Revenue")
  then
    <["Budget" :=
        CellNum (Math_round (cellToNumber (obj !! "Revenue")
                             * Fin (qd 95 100)))]> obj
  else obj.

Definition parseCSV (text : string) : list (gmap string CsvCell) :=
  let lines := nonBlankLines text in
  if bool_decide (length lines < 2)%nat then []
  else
    match lines with
    | first :: rest => map (parseLine (headersOf first)) rest
    | [] => []
    end.

End ParseCSV.

(** A stand-in for [Number] on the strings of decimal digits (the empty
    one reads as 0), [NaN] on every other string; used to run [parseCSV]
    on sample texts. *)
Fixpoint digitsValue (s : string) (acc : Z) : option Z :=
  match s with
  | EmptyString => Some acc
  | String c s' =>
      let n := Ascii.nat_of_ascii c in
      if (48 <=? n)%nat && (n <=? 57)%nat
      then digitsValue s' (10 * acc + Z.of_nat (n - 48))%Z
      else None
  end.

Definition digitsNumber (s : string) : jsnum :=
  match digitsValue s 0 with
  | Some z => num z
  | None => NaN
  end.

(** Three lines ended by line feeds: a header, a full row, and a row
    whose revenue cell is blank. *)
Definition sampleCsv : string :=
  "Year,Revenue" +:+ String chLF ("2020,100" +:+ String chLF
    ("2021," +:+ String chLF EmptyString)).

(** ** Texts line by line *)

(** The lines, with a line feed between one and the next. *)
Fixpoint joinLines (ls : list string) : string :=
  match ls with
  | [] => EmptyString
  | [l] => l
  | l :: rest => l +:+ String chLF (joinLines rest)
  end.

(** No line feed inside. *)
Fixpoint oneLine (s : string) : bool :=
  match s with
  | EmptyString => true
  | String c s' => negb (bool_decide (c = chLF)) && oneLine s'
  end.

(** The same line, or the line with a carriage return at its end. *)
Definition sameLine (l l' : string) : Prop :=
  l' = l \/ l' = l +:+ String chCR EmptyString.

(** [t] appended to the last string of the list. *)
Fixpoint appLast (l : list string) (t : string) : list string :=
  match l with
  | [] => []
  | [x] => [x +:+ t]
  | x :: rest => x :: appLast rest t
  end.

(** ** The outputs of the valuation sheet of [handleExcelExport]

    The four numbers under "OUTPUTS" that are read from the waterfall;
    [None] when [valuationResult.waterfall[i].value] throws, the entry
    being [undefined]. *)
Definition valuationDetailOutputs (res : ValuationResult) (netDebt : jsnum)
    : option (list jsnum) :=
  w0 ← waterfall res !! 0%nat;
  w1 ← waterfall res !! 1%nat;
  w2 ← waterfall res !! 2%nat;
  Some [ Math_round (value w0); Math_round (value w1);
         Math_round (value w2); Math_round (value w2 - netDebt)%js ].

(** The records of [growthData], latest year first. *)
Definition descendingData : list FinancialRecord :=
  [ row 2022 120 18 14; row 2021 110 16 13; row 2020 100 15 12 ].

(** ** The sum check on the bridge

    The relation between the three values of the bridge, written as the
    JavaScript test [Math.abs(b[0].value + b[1].value - b[2].value) <= 1]
    on a three-entry bridge. *)

Definition Math_abs (x : jsnum) : jsnum :=
  match x with
  | Fin q => Fin (if decide (q < 0) then - q else q)
  | NInf => PInf
  | _ => x
  end.

Definition sumsWithinRounding (b : list WaterfallEntry) : bool :=
  match b with
  | [e0; e1; e2] =>
      jge (num 1) (Math_abs (value e0 + value e1 - value e2)%js)
  | _ => false
  end.

(** ** Whole numbers that binary64 holds exactly *)

(** A whole number of absolute value at most [B]. *)
Definition wholeWithin (B : Z) (q : Qc) : Prop :=
  exists z : Z, q = qz z /\ (Z.abs z <= B)%Z.

(** * Properties *)

(** ** Arithmetic on [Qc] through [Q] *)

Lemma Qc_this_eq (a b : Qc) : (this a == this b)%Q -> a = b.
Proof. apply Qc_is_canon. Qed.

Lemma Qc_this_neq (a b : Qc) : a <> b -> ~ (this a == this b)%Q.
Proof. intros H E. apply H, Qc_is_canon, E. Qed.

(** Turns a goal (and the hypotheses) about [Qc] into one about [Q]. *)
Ltac qc_unfold :=
  unfold Qcle, Qclt, Qcminus, Qcdiv, Qcinv, Qcopp, Qcplus, Qcmult, qz, qd,
    Q2Qc in *;
  cbn [this] in *;
  rewrite ?Qred_correct in *.

Ltac qc_hyps :=
  repeat match goal with
         | H : @eq Qc ?a ?b |- _ => apply (f_equal this) in H
         | H : ?a <> ?b :> Qc |- _ => apply Qc_this_neq in H
         end.

Ltac qc_ring := intros; apply Qc_this_eq; qc_unfold; ring.
Ltac qc_lra := intros; qc_hyps; qc_unfold; Lqa.lra.
Ltac qc_nra := intros; qc_hyps; qc_unfold; Lqa.nra.

Lemma qz_1 : qz 1 = 1.
Proof. apply Qc_this_eq. reflexivity. Qed.

Lemma qz_add (a b : Z) : qz (a + b) = qz a + qz b.
Proof.
  apply Qc_this_eq. qc_unfold. unfold Qeq, Qplus; cbn. lia.
Qed.

Lemma qz_succ_nat (n : nat) : qz (Z.of_nat (S n)) = qz (Z.of_nat n) + 1.
Proof.
  rewrite Nat2Z.inj_succ, <- Z.add_1_r, qz_add. reflexivity.
Qed.

Lemma qz_nat_nonneg (n : nat) : 0 <= qz (Z.of_nat n).
Proof.
  qc_unfold. unfold Qle; cbn. lia.
Qed.

Lemma qz_nat_pos (n : nat) : (0 < n)%nat -> 0 < qz (Z.of_nat n).
Proof.
  intros H. qc_unfold. unfold Qlt; cbn. lia.
Qed.

Lemma jdiv_fin (a b : Qc) : b <> 0 -> (Fin a / Fin b)%js = Fin (a / b).
Proof.
  intros H. unfold jdiv. destruct (decide (b = 0)); congruence.
Qed.

(** ** Finite operands *)

Lemma jadd_fin (a b : Qc) : (Fin a + Fin b)%js = Fin (a + b).
Proof. reflexivity. Qed.

Lemma jsub_fin (a b : Qc) : (Fin a - Fin b)%js = Fin (a - b).
Proof. reflexivity. Qed.

Lemma jmul_fin (a b : Qc) : (Fin a * Fin b)%js = Fin (a * b).
Proof. reflexivity. Qed.

Lemma ToNumber_fin (a : Qc) : ToNumber (Some (Fin a)) = Fin a.
Proof. reflexivity. Qed.

Lemma sumQc_nil : sumQc [] = 0.
Proof. reflexivity. Qed.

Lemma sumQc_cons (a : Qc) (l : list Qc) : sumQc (a :: l) = a + sumQc l.
Proof. reflexivity. Qed.

Create Rewrite HintDb jsfin.
#[global] Hint Rewrite jadd_fin jsub_fin jmul_fin ToNumber_fin sumQc_nil
  sumQc_cons : jsfin.

(** ** The sums of the least-squares block *)

Lemma reduce_sum (xs : list Qc) : forall (i : nat) (acc : Qc),
  reduce_from (fun a b (_ : nat) => a + ToNumber b)%js i (fin_cells xs)
    (Fin acc)
  = Fin (acc + sumQc xs).
Proof.
  induction xs as [|x xs IH]; intros i acc; cbn [map reduce_from];
    autorewrite with jsfin.
  - f_equal. ring.
  - rewrite IH. f_equal. ring.
Qed.

Lemma reduce_sum_sq (xs : list Qc) : forall (i : nat) (acc : Qc),
  reduce_from (fun a b (_ : nat) => a + ToNumber b * ToNumber b)%js i
    (fin_cells xs) (Fin acc)
  = Fin (acc + sumQc (zip_with Qcmult xs xs)).
Proof.
  induction xs as [|x xs IH]; intros i acc; cbn [map reduce_from zip_with];
    autorewrite with jsfin.
  - f_equal. ring.
  - rewrite IH. f_equal. ring.
Qed.

Lemma reduce_sum_xy (xs : list Qc) : forall (ys pre : list Qc) (acc : Qc),
  length xs = length ys ->
  reduce_from
    (fun a b i =>
       a + ToNumber b * ToNumber (mjoin (fin_cells (pre ++ ys) !! i)))%js
    (length pre) (fin_cells xs) (Fin acc)
  = Fin (acc + sumQc (zip_with Qcmult xs ys)).
Proof.
  induction xs as [|x xs IH]; intros [|y ys] pre acc Hlen; try discriminate;
    cbn [map reduce_from zip_with].
  - autorewrite with jsfin. f_equal. ring.
  - replace (fin_cells (pre ++ y :: ys) !! length pre)
      with (Some (Some (Fin y))).
    2:{ rewrite list_lookup_fmap, lookup_app_r by lia.
        rewrite Nat.sub_diag. reflexivity. }
    cbn [mjoin option_join]. autorewrite with jsfin.
    specialize (IH ys (pre ++ [y]) (acc + x * y)).
    rewrite length_app, Nat.add_1_r, <- app_assoc in IH. cbn [app] in IH.
    rewrite IH by (cbn in Hlen; lia).
    f_equal. ring.
Qed.

(** ** The denominator [n * sumXX - sumX * sumX] *)

Lemma sumsq_cons (a : Qc) (l : list Qc) : sumsq (a :: l) = a * a + sumsq l.
Proof. reflexivity. Qed.

Lemma sqdev_expand (x : Qc) (l : list Qc) :
  sqdev x l
  = qz (Z.of_nat (length l)) * (x * x) - (x + x) * sumQc l + sumsq l.
Proof.
  induction l as [|y l IH].
  - unfold sqdev, sumsq.
    cbn [map length zip_with sumQc fold_right Z.of_nat]. qc_ring.
  - unfold sqdev in *. cbn [map length]. rewrite sumQc_cons, IH, sumsq_cons,
      sumQc_cons, qz_succ_nat. ring.
Qed.

Lemma Qc_sq_nonneg (a : Qc) : 0 <= a * a.
Proof. qc_nra. Qed.

Lemma Qc_sq_pos (a b : Qc) : a <> b -> 0 < (a - b) * (a - b).
Proof.
  intros H. apply Qc_this_neq in H. qc_unfold.
  assert (this a < this b \/ this b < this a)%Q as [Hlt|Hlt].
  { destruct (Q_dec (this a) (this b)) as [[?|?]|?]; tauto. }
  all: Lqa.nra.
Qed.

Lemma Qc_add_nonneg (a b : Qc) : 0 <= a -> 0 <= b -> 0 <= a + b.
Proof. qc_lra. Qed.

Lemma Qc_add_pos_nonneg (a b : Qc) : 0 < a -> 0 <= b -> 0 < a + b.
Proof. qc_lra. Qed.

Lemma Qc_add_nonneg_pos (a b : Qc) : 0 <= a -> 0 < b -> 0 < a + b.
Proof. qc_lra. Qed.

Lemma sqdev_nonneg (x : Qc) (l : list Qc) : 0 <= sqdev x l.
Proof.
  induction l as [|y l IH].
  - apply Qcle_refl.
  - unfold sqdev in *. cbn [map]. rewrite sumQc_cons.
    apply Qc_add_nonneg; [apply Qc_sq_nonneg | exact IH].
Qed.

Lemma olsDen_cons (x : Qc) (l : list Qc) :
  olsDen (x :: l) = olsDen l + sqdev x l.
Proof.
  rewrite sqdev_expand. unfold olsDen. cbn [length].
  rewrite qz_succ_nat, sumsq_cons, sumQc_cons. ring.
Qed.

Lemma olsDen_nonneg (l : list Qc) : 0 <= olsDen l.
Proof.
  induction l as [|x l IH].
  - apply Qcle_refl.
  - rewrite olsDen_cons. apply Qc_add_nonneg; [exact IH | apply sqdev_nonneg].
Qed.

(** With two distinct abscissas the denominator is positive. *)
Lemma olsDen_pos (l : list Qc) :
  NoDup l -> (2 <= length l)%nat -> 0 < olsDen l.
Proof.
  intros Hnd Hlen. destruct l as [|x [|y l]]; cbn in Hlen; try lia.
  assert (x <> y) as Hxy.
  { intros ->. apply NoDup_cons in Hnd as [Hni _]. apply Hni. left. }
  rewrite olsDen_cons.
  apply Qc_add_nonneg_pos; [apply olsDen_nonneg |].
  unfold sqdev. cbn [map]. rewrite sumQc_cons.
  apply Qc_add_pos_nonneg; [apply Qc_sq_pos, Hxy | apply (sqdev_nonneg x l)].
Qed.

(** ** The least-squares line *)

Lemma qz_0 : qz 0 = 0.
Proof. apply Qc_this_eq. reflexivity. Qed.

Lemma Qclt_neq_0 (a : Qc) : 0 < a -> a <> 0.
Proof. intros H ->. exact (Qclt_not_eq _ _ H eq_refl). Qed.

(** What the block computes on finite cells. *)
Lemma fitTrend_fin (xs ys : list Qc) :
  length xs = length ys -> (2 <= length xs)%nat -> NoDup xs ->
  let n := qz (Z.of_nat (length xs)) in
  let slope :=
    (n * sumQc (zip_with Qcmult xs ys) - sumQc xs * sumQc ys) / olsDen xs in
  fitTrend (length xs) (fin_cells xs) (fin_cells ys)
  = (Fin slope, Fin ((sumQc ys - slope * sumQc xs) / n)).
Proof.
  intros Hlen H2 Hnd n slope. unfold fitTrend, reduce, num.
  rewrite !reduce_sum, reduce_sum_sq.
  pose proof (reduce_sum_xy xs ys [] (qz 0) Hlen) as Hxy.
  cbn [app length] in Hxy. rewrite Hxy. clear Hxy.
  rewrite qz_0, !Qcplus_0_l. autorewrite with jsfin.
  fold (sumsq xs). fold (olsDen xs). fold n.
  rewrite jdiv_fin by (apply Qclt_neq_0, olsDen_pos; assumption).
  fold slope. autorewrite with jsfin.
  rewrite jdiv_fin by (apply Qclt_neq_0, qz_nat_pos; lia).
  reflexivity.
Qed.

Lemma line_sums (a b : Qc) (xs ys : list Qc) :
  Forall2 (fun x y => y = a * x + b) xs ys ->
  sumQc ys = a * sumQc xs + qz (Z.of_nat (length xs)) * b
  /\ sumQc (zip_with Qcmult xs ys) = a * sumsq xs + b * sumQc xs.
Proof.
  induction 1 as [|x y xs ys Hxy _ [IH1 IH2]].
  - unfold sumsq. cbn [zip_with length]. change (Z.of_nat 0) with 0%Z.
    rewrite qz_0, sumQc_nil. split; ring.
  - cbn [zip_with length]. rewrite sumsq_cons, !sumQc_cons, qz_succ_nat, IH1,
      IH2, Hxy. split; ring.
Qed.

Lemma line_slope (a b n sx sxx : Qc) :
  n * sxx - sx * sx <> 0 ->
  (n * (a * sxx + b * sx) - sx * (a * sx + n * b)) / (n * sxx - sx * sx) = a.
Proof.
  intros H. apply Qc_this_neq in H. apply Qc_this_eq. qc_unfold.
  field. exact H.
Qed.

Lemma line_intercept (a b n sx : Qc) :
  n <> 0 -> (a * sx + n * b - a * sx) / n = b.
Proof.
  intros H. apply Qc_this_neq in H. apply Qc_this_eq. qc_unfold.
  field. exact H.
Qed.

(** C1.  On [n >= 2] rows with finite cells and distinct years the block
    that opens [runJSForecast] and [runJSValuation] computes
    [slope = (n*Sxy - Sx*Sy) / (n*Sxx - Sx*Sx)] over a non-zero denominator
    and [intercept = (Sy - slope*Sx) / n]; when every row lies on
    [y = 2x + 1] the result is [slope = 2], [intercept = 1]. *)
Theorem fitTrend_ordinary_least_squares
    (data : list FinancialRecord) (metric : string) (xs ys : list Qc) :
  map (fun d : FinancialRecord => d !! "Year") data = fin_cells xs ->
  map (fun d : FinancialRecord => d !! metric) data = fin_cells ys ->
  (2 <= length data)%nat ->
  NoDup xs ->
  let n := qz (Z.of_nat (length data)) in
  let sumX := sumQc xs in
  let sumY := sumQc ys in
  let sumXY := sumQc (zip_with Qcmult xs ys) in
  let sumXX := sumQc (zip_with Qcmult xs xs) in
  let slope := (n * sumXY - sumX * sumY) / (n * sumXX - sumX * sumX) in
  let intercept := (sumY - slope * sumX) / n in
  n * sumXX - sumX * sumX <> 0
  /\ fitTrend (length data)
       (map (fun d : FinancialRecord => d !! "Year") data)
       (map (fun d : FinancialRecord => d !! metric) data)
     = (Fin slope, Fin intercept)
  /\ (Forall2 (fun x y => y = qz 2 * x + qz 1) xs ys ->
      fitTrend (length data)
        (map (fun d : FinancialRecord => d !! "Year") data)
        (map (fun d : FinancialRecord => d !! metric) data)
      = (num 2, num 1)).
Proof.
  intros Hx Hy H2 Hnd.
  assert (length xs = length data) as Lx
    by (rewrite <- (length_map (fun q : Qc => Some (Fin q)) xs), <- Hx;
        apply length_map).
  assert (length ys = length data) as Ly
    by (rewrite <- (length_map (fun q : Qc => Some (Fin q)) ys), <- Hy;
        apply length_map).
  rewrite Hx, Hy, <- Lx. cbn zeta.
  assert (olsDen xs <> 0) as HD
    by (apply Qclt_neq_0, olsDen_pos; [exact Hnd | lia]).
  assert (qz (Z.of_nat (length xs)) <> 0) as Hn
    by (apply Qclt_neq_0, qz_nat_pos; lia).
  pose proof (fitTrend_fin xs ys (eq_trans Lx (eq_sym Ly))) as Hfit.
  cbn zeta in Hfit. split; [exact HD|]. split.
  - apply Hfit; [lia | exact Hnd].
  - intros Hline. rewrite Hfit by (lia || exact Hnd).
    destruct (line_sums _ _ _ _ Hline) as [HsY HsXY].
    rewrite HsY, HsXY.
    assert ((qz (Z.of_nat (length xs))
             * (qz 2 * sumsq xs + qz 1 * sumQc xs)
             - sumQc xs * (qz 2 * sumQc xs + qz (Z.of_nat (length xs)) * qz 1))
            / olsDen xs = qz 2) as ->
      by (apply line_slope; exact HD).
    rewrite line_intercept by exact Hn. reflexivity.
Qed.

Lemma fitTrend_ordinary_least_squares_witness :
  let xs := [qz 2020; qz 2021; qz 2022] in
  let ys := [qz 4041; qz 4043; qz 4045] in
  map (fun d : FinancialRecord => d !! "Year") lineData = fin_cells xs
  /\ map (fun d : FinancialRecord => d !! "Revenue") lineData = fin_cells ys
  /\ (2 <= length lineData)%nat
  /\ NoDup xs
  /\ Forall2 (fun x y => y = qz 2 * x + qz 1) xs ys
  /\ fitTrend (length lineData)
       (map (fun d : FinancialRecord => d !! "Year") lineData)
       (map (fun d : FinancialRecord => d !! "Revenue") lineData)
     = (num 2, num 1).
Proof.
  intros xs ys.
  assert (map (fun d : FinancialRecord => d !! "Year") lineData = fin_cells xs)
    as Hx by (vm_compute; reflexivity).
  assert (map (fun d : FinancialRecord => d !! "Revenue") lineData
          = fin_cells ys) as Hy by (vm_compute; reflexivity).
  assert (2 <= length lineData)%nat as H2 by (cbn; lia).
  assert (NoDup xs) as Hnd by (refine (bool_decide_unpack _ _); vm_compute; exact I).
  assert (Forall2 (fun x y => y = qz 2 * x + qz 1) xs ys) as Hline
    by (repeat constructor; apply Qc_this_eq; vm_compute; reflexivity).
  repeat split; try assumption.
  exact (proj2 (proj2 (fitTrend_ordinary_least_squares lineData "Revenue"
                         xs ys Hx Hy H2 Hnd)) Hline).
Defined.

(** ** Evaluation on closed inputs *)

Lemma decide_by_compute (P : Prop) `{Decision P} : bool_decide P = true -> P.
Proof. apply bool_decide_eq_true_1. Qed.

Ltac by_compute :=
  lazymatch goal with
  | |- ?P => refine (@decide_by_compute P _ _); vm_compute; reflexivity
  end.

Lemma Qcle_by_compute (a b : Qc) : bool_decide (a <= b) = true -> a <= b.
Proof. apply bool_decide_eq_true_1. Qed.

Lemma Qclt_by_compute (a b : Qc) : bool_decide (a < b) = true -> a < b.
Proof. apply bool_decide_eq_true_1. Qed.

(** ** Terminal value *)

Lemma qz_100_neq_0 : qz 100 <> 0.
Proof. intros H. apply (f_equal this) in H. discriminate H. Qed.

Lemma percent_lt (t w : Qc) : t / qz 100 < w / qz 100 <-> t < w.
Proof.
  split; qc_unfold; change (/ (100 # 1))%Q with (1 # 100)%Q; intros H;
    Lqa.lra.
Qed.

Lemma jpercent_fin (a : Qc) : (Fin a / num 100)%js = Fin (a / qz 100).
Proof. unfold num. apply jdiv_fin, qz_100_neq_0. Qed.

Lemma num_add_fin (z : Z) (a : Qc) : (num z + Fin a)%js = Fin (qz z + a).
Proof. reflexivity. Qed.

Lemma jgt_percent (w t : Qc) :
  jgt (Fin w / num 100)%js (Fin t / num 100)%js = bool_decide (t < w).
Proof.
  unfold num. rewrite !jdiv_fin by exact qz_100_neq_0. cbn [jgt].
  apply bool_decide_ext, percent_lt.
Qed.

(** Inversion of a run of a script that returned a value. *)
Ltac py_step H :=
  match type of H with
  | context [py_bind ?m _] =>
      let E := fresh "E" in
      destruct m eqn:E; cbn [py_bind] in H; [|discriminate H]
  | context [if negb ?b then _ else _] =>
      let E := fresh "E" in
      destruct b eqn:E; cbn [negb] in H; [|discriminate H]
  | context [if ?b then _ else _] =>
      let E := fresh "E" in
      destruct b eqn:E; [|discriminate H]
  | context [let '(_, _) := ?p in _] => destruct p
  end.

Lemma py_div_val (a b q : Qc) : py_div a b = PyVal q -> b <> 0 /\ q = a / b.
Proof.
  unfold py_div. destruct (decide (b = 0)); [discriminate|].
  intros [= <-]. split; [assumption | reflexivity].
Qed.

Lemma Math_pow_fin (q : Qc) (n : nat) : Math_pow (Fin q) n = Fin (q ^ n).
Proof.
  induction n as [|n IH]; cbn [Math_pow Qcpower].
  - unfold num. rewrite qz_1. reflexivity.
  - rewrite IH. reflexivity.
Qed.

Lemma Qcpower_neq_0 (q : Qc) (n : nat) : q <> 0 -> q ^ n <> 0.
Proof.
  intros Hq. induction n as [|n IH]; cbn [Qcpower].
  - discriminate.
  - intros H. apply Qcmult_integral in H. tauto.
Qed.

Lemma py_div_ok (a b : Qc) : b <> 0 -> py_div a b = PyVal (a / b).
Proof. intros H. unfold py_div. destruct (decide (b = 0)); [contradiction|reflexivity]. Qed.

Lemma py_mapM_cells (k : string) (data : list FinancialRecord) :
  forall xs,
  map (fun d : FinancialRecord => d !! k) data = fin_cells xs ->
  py_mapM (fun d => py_get d k) data = PyVal xs
  /\ py_mapM (fun d => py_get_default d k) data = PyVal xs.
Proof.
  induction data as [|d data IH]; intros [|x xs] Hx; cbn [map] in Hx;
    try discriminate.
  - split; reflexivity.
  - injection Hx as Hd Hx. destruct (IH xs Hx) as [E1 E2].
    cbn [py_mapM]. unfold py_get at 1, py_get_default at 1.
    rewrite Hd, E1, E2. split; reflexivity.
Qed.

Lemma js_discount_fold (g : nat -> Qc) (P : Qc) (l : list nat) :
  P <> 0 -> forall acc : Qc,
  fold_left (fun a i => a + Fin (g i) / Math_pow (Fin P) i)%js l (Fin acc)
  = Fin (fold_left (fun a i => a + g i / P ^ i) l acc).
Proof.
  intros HP. induction l as [|i l IH]; intros acc; [reflexivity|].
  cbn [fold_left].
  rewrite Math_pow_fin, (jdiv_fin _ _ (Qcpower_neq_0 P i HP)), jadd_fin.
  apply IH.
Qed.

Lemma py_discount_fold (f g : nat -> Qc) (P : Qc) (l : list nat) :
  P <> 0 -> (forall i, f i = g i) -> forall acc : Qc,
  py_foldM (fun a i => pylet d := py_div (f i) (P ^ i) in PyVal (a + d)) l acc
  = PyVal (fold_left (fun a i => a + g i / P ^ i) l acc).
Proof.
  intros HP Hfg. induction l as [|i l IH]; intros acc; [reflexivity|].
  cbn [py_foldM fold_left].
  rewrite (py_div_ok _ _ (Qcpower_neq_0 P i HP)). cbn [py_bind].
  rewrite Hfg. apply IH.
Qed.

Lemma Qclt_minus_neq_0 (a b : Qc) : a < b -> b - a <> 0.
Proof.
  intros H E. apply (Qclt_not_eq _ _ H).
  transitivity (b - (b - a)); [ring | rewrite E; ring].
Qed.

Lemma jgt_nan_l (x : jsnum) : jgt NaN x = false.
Proof. reflexivity. Qed.

Lemma jgt_nan_r (x : jsnum) : jgt x NaN = false.
Proof. destruct x; reflexivity. Qed.

(** C2.  The fifth projected cash flow is
    [fcf_5 = slope * (lastYear + 5) + intercept], on the trend line fitted
    to the [Free Cash Flow] column.  With the rates read as percentages,
    [r = wacc/100] and [g = termGrowth/100]: when [wacc > termGrowth] the
    terminal value is [fcf_5 * (1 + g) / (r - g)], otherwise it is
    [fcf_5 * 15], and so it is when one of the two fields is not a number;
    it is discounted by [(1 + r)^5].  The script, which takes the line
    from [np.polyfit] and the last year truncated to an integer, returns a
    result on every readable record set of at least two records unless
    [r = -1], and follows the same rule. *)
Theorem terminal_value_rule
    (polyfit : list Qc -> list Qc -> pyres (Qc * Qc))
    (data : list FinancialRecord) (w t : Qc) (netDebt shares : jsnum) :
  let r := w / qz 100 in
  let g := t / qz 100 in
  let x := map (fun d : FinancialRecord => d !! "Year") data in
  let y := map (fun d : FinancialRecord => d !! "Free Cash Flow") data in
  let slope := fst (fitTrend (length data) x y) in
  let intercept := snd (fitTrend (length data) x y) in
  let lastYear := ToNumber (mjoin (last x)) in
  let fcf := fun i : nat =>
    (slope * (lastYear + num (Z.of_nat i)) + intercept)%js in
  let l := jsDcf data (Fin w) (Fin t) netDebt shares in
  futureFCFs l = map fcf (seq 1 5)
  /\ (t < w ->
      terminalValue l = ((fcf 5%nat * Fin (qz 1 + g)) / Fin (r - g))%js)
  /\ (w <= t -> terminalValue l = (fcf 5%nat * num 15)%js)
  /\ discountedTV l = (terminalValue l / Math_pow (Fin (qz 1 + r)) 5)%js
  /\ (forall other : jsnum,
        terminalValue (jsDcf data NaN other netDebt shares)
        = (fcf 5%nat * num 15)%js
        /\ terminalValue (jsDcf data other NaN netDebt shares)
           = (fcf 5%nat * num 15)%js)
  /\ (forall (xs fs : list Qc) (sl ic ly nd sh : Qc),
        py_literal_ok data = true ->
        x = fin_cells xs -> y = fin_cells fs ->
        (2 <= length data)%nat ->
        polyfit xs fs = PyVal (sl, ic) ->
        last xs = Some ly ->
        netDebt = Fin nd -> shares = Fin sh ->
        1 + r <> 0 ->
        let fcf_5 := sl * qz (py_int ly + 5) + ic in
        exists o,
          valuationScript polyfit data (Fin w) (Fin t) netDebt shares
          = PyVal (ValuationSuccess o)
          /\ last (future_fcf o) = Some fcf_5
          /\ (t < w -> terminal_value o = fcf_5 * (1 + g) / (r - g))
          /\ (w <= t -> terminal_value o = fcf_5 * qz 15)
          /\ discounted_tv o = terminal_value o / (1 + r) ^ 5).
Proof.
  intros r g x y slope intercept lastYear fcf l.
  assert (forall wacc termGrowth : jsnum,
            let l' := jsDcf data wacc termGrowth netDebt shares in
            let r' := (wacc / num 100)%js in
            let g' := (termGrowth / num 100)%js in
            futureFCFs l' = map fcf (seq 1 5)
            /\ terminalValue l'
               = (if jgt r' g' then ((fcf 5%nat * (num 1 + g')) / (r' - g'))%js
                  else (fcf 5%nat * num 15)%js)
            /\ discountedTV l'
               = (terminalValue l' / Math_pow (num 1 + r') 5)%js) as Hany.
  { intros wacc termGrowth. cbn zeta.
    subst fcf slope intercept lastYear x y. unfold jsDcf.
    destruct (fitTrend (length data) _ _) as [sl ic]. cbn [fst snd].
    repeat split. }
  destruct (Hany (Fin w) (Fin t)) as (HF & HTV & HD). fold l in HF, HTV, HD.
  cbn zeta in HTV, HD.
  rewrite jgt_percent, !jpercent_fin, num_add_fin, jsub_fin in HTV.
  rewrite !jpercent_fin, num_add_fin in HD.
  split; [exact HF|]. split; [|split; [|split; [exact HD|split]]].
  - intros Hlt. rewrite HTV, bool_decide_eq_true_2 by exact Hlt. reflexivity.
  - intros Hle. rewrite HTV, bool_decide_eq_false_2; [reflexivity|].
    apply Qcle_not_lt, Hle.
  - intros other. split.
    + destruct (Hany NaN other) as (_ & -> & _). reflexivity.
    + destruct (Hany other NaN) as (_ & -> & _).
      change (NaN / num 100)%js with NaN. rewrite jgt_nan_r. reflexivity.
  - intros xs fs sl ic ly nd sh Hlit Hx Hy Hlen Hpoly Hlast -> -> HP fcf_5.
    set (proj := fun i : nat => sl * qz (py_int ly + Z.of_nat i) + ic).
    set (P := 1 + w / qz 100) in *.
    set (DS := fold_left (fun a i => a + proj i / P ^ i) (seq 1 5) 0).
    set (TV := if bool_decide (t / qz 100 < w / qz 100)
               then fcf_5 * (1 + t / qz 100) / (w / qz 100 - t / qz 100)
               else fcf_5 * qz 15).
    set (SP := if bool_decide (0 < sh)
               then (DS + TV / P ^ 5 - nd) / sh else 0).
    exists (mkPyDcf (map proj (seq 1 5)) DS TV (TV / P ^ 5) (DS + TV / P ^ 5)
              (DS + TV / P ^ 5 - nd) SP).
    assert (P ^ 5 <> 0) as HP5 by (apply Qcpower_neq_0, HP).
    split; [|split; [reflexivity|split; [|split; [|reflexivity]]]].
    + unfold valuationScript. rewrite Hlit. cbn [negb py_number py_bind].
      destruct (py_mapM_cells "Year" data xs Hx) as [-> _].
      destruct (py_mapM_cells "Free Cash Flow" data fs Hy) as [_ ->].
      cbn [py_bind].
      assert (length fs = length data) as Hl.
      { rewrite <- (length_map (fun q : Qc => Some (Fin q)) fs).
        fold (fin_cells fs). rewrite <- Hy. apply length_map. }
      rewrite bool_decide_eq_true_2 by lia.
      rewrite Hpoly. cbn [py_bind]. rewrite Hlast. cbn [py_bind]. cbv zeta.
      fold P.
      rewrite (py_discount_fold _ proj P (seq 1 5) HP (fun i => eq_refl)).
      cbn [py_bind]. fold DS.
      change (default 0 (last (map (fun i : nat =>
                 sl * qz (py_int ly + Z.of_nat i) + ic) (seq 1 5))))
        with fcf_5.
      assert ((if bool_decide (t / qz 100 < w / qz 100)
               then py_div (fcf_5 * (1 + t / qz 100))
                      (w / qz 100 - t / qz 100)
               else PyVal (fcf_5 * qz 15)) = PyVal TV) as ->.
      { subst TV. destruct (bool_decide (t / qz 100 < w / qz 100)) eqn:E;
          [|reflexivity].
        apply py_div_ok, Qclt_minus_neq_0, (bool_decide_eq_true_1 _ E). }
      cbn [py_bind]. rewrite (py_div_ok _ _ HP5). cbn [py_bind].
      assert ((if bool_decide (0 < sh)
               then py_div (DS + TV / P ^ 5 - nd) sh
               else PyVal 0) = PyVal SP) as ->.
      { subst SP. destruct (bool_decide (0 < sh)) eqn:E; [|reflexivity].
        apply py_div_ok, Qclt_neq_0, (bool_decide_eq_true_1 _ E). }
      reflexivity.
    + intros Hlt. cbn [terminal_value]. subst TV.
      rewrite bool_decide_eq_true_2 by (apply percent_lt, Hlt). reflexivity.
    + intros Hle. cbn [terminal_value]. subst TV.
      rewrite bool_decide_eq_false_2; [reflexivity|].
      intros Hlt. apply (proj1 (percent_lt _ _)) in Hlt.
      exact (Qcle_not_lt _ _ Hle Hlt).
Qed.

Lemma terminal_value_rule_witness :
  let l := jsDcf growthData (num 5) (num 8) (num 150) (num 50) in
  let xs := [qz 2020; qz 2021; qz 2022] in
  let fs := [qz 12; qz 13; qz 14] in
  qz 5 <= qz 8
  /\ futureFCFs l = [num 15; num 16; num 17; num 18; num 19]
  /\ terminalValue l = num 285
  /\ py_literal_ok growthData = true
  /\ exact_polyfit xs fs = PyVal (qz 1, qz (-2008))
  /\ 1 + qz 5 / qz 100 <> 0
  /\ exists o,
       valuationScript exact_polyfit growthData (num 5) (num 8) (num 150)
         (num 50) = PyVal (ValuationSuccess o)
       /\ last (future_fcf o) = Some (qz 19)
       /\ terminal_value o = qz 285.
Proof.
  intros l xs fs.
  assert (qz 5 <= qz 8) as Hle by (apply Qcle_by_compute; vm_compute; reflexivity).
  assert (py_literal_ok growthData = true) as Hlit by (vm_compute; reflexivity).
  assert (exact_polyfit xs fs = PyVal (qz 1, qz (-2008))) as Hfit.
  { unfold exact_polyfit. cbn [length xs fs bool_decide].
    rewrite bool_decide_eq_true_2 by reflexivity.
    rewrite bool_decide_eq_false_2 by discriminate. cbn [negb andb].
    do 2 f_equal; apply Qc_this_eq; vm_compute; reflexivity. }
  assert (1 + qz 5 / qz 100 <> 0) as HP by by_compute.
  pose proof (terminal_value_rule exact_polyfit growthData (qz 5) (qz 8)
                (num 150) (num 50)) as (HF & _ & Hjs & _ & _ & Hpy).
  destruct (Hpy xs fs (qz 1) (qz (-2008)) (qz 2022) (qz 150) (qz 50) Hlit
              ltac:(vm_compute; reflexivity) ltac:(vm_compute; reflexivity)
              ltac:(cbn; lia) Hfit eq_refl eq_refl eq_refl HP)
    as (o & Ho & Hlast & _ & Hpy15 & _).
  split; [exact Hle|]. split; [etransitivity; [exact HF | by_compute]|].
  split; [etransitivity; [exact (Hjs Hle) | by_compute]|].
  split; [exact Hlit|]. split; [exact Hfit|]. split; [exact HP|].
  exists o. split; [exact Ho|]. split.
  - etransitivity; [exact Hlast|]. apply (f_equal Some).
    apply Qc_this_eq. vm_compute. reflexivity.
  - etransitivity; [exact (Hpy15 Hle)|].
    apply Qc_this_eq. vm_compute. reflexivity.
Defined.

(** ** When the script reports insufficient data *)

Lemma py_literal_ok_cons (d : FinancialRecord) (ds : list FinancialRecord) :
  py_literal_ok (d :: ds) = true ->
  map_Forall (fun _ v => is_fin v = true) d /\ py_literal_ok ds = true.
Proof.
  unfold py_literal_ok. cbn [forallb]. intros [H1 H2]%andb_prop.
  split; [exact (bool_decide_eq_true_1 _ H1) | exact H2].
Qed.

Lemma py_get_some (d : FinancialRecord) (k : string) :
  map_Forall (fun _ v => is_fin v = true) d -> is_Some (d !! k) ->
  exists q, py_get d k = PyVal q.
Proof.
  intros Hfin [v Hv]. unfold py_get. rewrite Hv.
  specialize (Hfin k v Hv). destruct v; try discriminate. eauto.
Qed.

Lemma py_mapM_get (k : string) (data : list FinancialRecord) :
  py_literal_ok data = true ->
  Forall (fun d : FinancialRecord => is_Some (d !! k)) data ->
  exists vs,
    py_mapM (fun d => py_get d k) data = PyVal vs /\ length vs = length data.
Proof.
  induction data as [|d ds IH]; intros Hok Hall.
  - exists []. split; reflexivity.
  - apply py_literal_ok_cons in Hok as [Hd Hds].
    apply Forall_cons in Hall as [Hk Hall].
    destruct (py_get_some d k Hd Hk) as [q Hq].
    destruct (IH Hds Hall) as (vs & Hvs & Hlen).
    exists (q :: vs). cbn [py_mapM]. rewrite Hq. cbn [py_bind].
    rewrite Hvs. cbn [py_bind length]. split; [reflexivity | lia].
Qed.

Lemma py_literal_ok_filter (P : FinancialRecord -> Prop)
    `{forall d, Decision (P d)} (data : list FinancialRecord) :
  py_literal_ok data = true -> py_literal_ok (filter P data) = true.
Proof.
  induction data as [|d ds IH]; intros Hok; [reflexivity|].
  apply py_literal_ok_cons in Hok as [Hd Hds].
  rewrite filter_cons. destruct (decide (P d)); [|exact (IH Hds)].
  unfold py_literal_ok. cbn [forallb].
  rewrite (bool_decide_eq_true_2 _ Hd). exact (IH Hds).
Qed.

(** With fewer than two rows carrying the metric the script answers
    [{"success": False, ...}], whatever [np.polyfit] would do. *)
Lemma forecastScript_insufficient
    (polyfit : list Qc -> list Qc -> pyres (Qc * Qc))
    (data : list FinancialRecord) (metric : string) (horizon : nat)
    (s : Qc) :
  py_literal_ok data = true ->
  Forall (fun d : FinancialRecord => is_Some (d !! "Year")) data ->
  (length (filter (fun d : FinancialRecord => is_Some (d !! metric)) data) < 2)%nat ->
  forecastScript polyfit data metric horizon (Fin s) = PyVal ForecastFailure.
Proof.
  intros Hok Hyears Hfew. unfold forecastScript. rewrite Hok.
  cbn [negb py_number py_bind].
  destruct (py_mapM_get "Year" data Hok Hyears) as (ys & -> & _).
  cbn [py_bind].
  destruct (py_mapM_get metric
              (filter (fun d : FinancialRecord => is_Some (d !! metric)) data))
    as (vs & -> & Hlen).
  { apply py_literal_ok_filter, Hok. }
  { apply Forall_forall. intros d Hd.
    apply list_elem_of_filter in Hd as [Hd _]. exact Hd. }
  cbn [py_bind]. rewrite bool_decide_eq_false_2 by lia. reflexivity.
Qed.

(** C10.  When the kernel is ready and the script reports failure (fewer
    than two rows carry the metric), [runForecast] only logs the start of
    the job: [runJSForecast] is not run and the stored series and its
    source stay as they were. *)
Theorem python_failure_leaves_forecast_untouched
    (polyfit : list Qc -> list Qc -> pyres (Qc * Qc)) (st : AppState)
    (s : Qc) :
  pythonStatus st = ready ->
  pyodide st = true ->
  forecastSensitivity st = Fin s ->
  py_literal_ok (data st) = true ->
  Forall (fun d : FinancialRecord => is_Some (d !! "Year")) (data st) ->
  (length (filter (fun d : FinancialRecord => is_Some (d !! forecastMetric st))
             (data st)) < 2)%nat ->
  forecastScript polyfit (data st) (forecastMetric st) (forecastHorizon st)
    (forecastSensitivity st) = PyVal ForecastFailure
  /\ runForecast polyfit st
     = addLog (LogStartForecast (forecastMetric st) (forecastSensitivity st))
         st
  /\ forecastData (runForecast polyfit st) = forecastData st
  /\ computeSource (runForecast polyfit st) = computeSource st.
Proof.
  intros Hready Hpy Hs Hok Hyears Hfew.
  assert (forecastScript polyfit (data st) (forecastMetric st)
            (forecastHorizon st) (forecastSensitivity st)
          = PyVal ForecastFailure) as Hfail
    by (rewrite Hs; apply forecastScript_insufficient; assumption).
  assert (runForecast polyfit st
          = addLog (LogStartForecast (forecastMetric st)
                      (forecastSensitivity st)) st) as Hrun.
  { unfold runForecast. rewrite Hready, Hpy, Hfail.
    rewrite bool_decide_eq_true_2 by reflexivity. reflexivity. }
  split; [exact Hfail|]. split; [exact Hrun|].
  rewrite Hrun. split; reflexivity.
Qed.

Lemma python_failure_leaves_forecast_untouched_witness :
  pythonStatus staleState = ready
  /\ pyodide staleState = true
  /\ forecastSensitivity staleState = Fin (qz 10)
  /\ py_literal_ok (data staleState) = true
  /\ Forall (fun d : FinancialRecord => is_Some (d !! "Year"))
       (data staleState)
  /\ (length (filter (fun d : FinancialRecord =>
                        is_Some (d !! forecastMetric staleState))
                (data staleState)) < 2)%nat
  /\ length (forecastData staleState) = 9%nat
  /\ forecastData (runForecast exact_polyfit staleState) = staleSeries
  /\ computeSource (runForecast exact_polyfit staleState) = None.
Proof.
  assert (pythonStatus staleState = ready) as H1 by reflexivity.
  assert (pyodide staleState = true) as H2 by reflexivity.
  assert (forecastSensitivity staleState = Fin (qz 10)) as H3 by reflexivity.
  assert (py_literal_ok (data staleState) = true) as H4
    by (vm_compute; reflexivity).
  assert (Forall (fun d : FinancialRecord => is_Some (d !! "Year"))
            (data staleState)) as H5 by by_compute.
  assert (length (filter (fun d : FinancialRecord =>
                            is_Some (d !! forecastMetric staleState))
                    (data staleState)) < 2)%nat as H6 by by_compute.
  destruct (python_failure_leaves_forecast_untouched exact_polyfit staleState
              (qz 10) H1 H2 H3 H4 H5 H6) as (_ & _ & Hdata & Hsrc).
  assert (forecastData staleState = staleSeries) as Hstale by reflexivity.
  rewrite Hstale in Hdata.
  assert (computeSource staleState = None) as Hnone by reflexivity.
  rewrite Hnone in Hsrc.
  assert (length (forecastData staleState) = 9%nat) as H7
    by (vm_compute; reflexivity).
  exact (conj H1 (conj H2 (conj H3 (conj H4 (conj H5 (conj H6
          (conj H7 (conj Hdata Hsrc)))))))).
Defined.

(** C7 (evaluation).  One uploaded row and no kernel: [runJSForecast]
    raises nothing and stores a seven-point series whose five projected
    rows carry [NaN] in [Forecast], [High] and [Low]; the script, on the
    same row, reports the failure. *)
Theorem js_fallback_forecasts_from_one_row :
  let st := setPythonStatus error (initialState oneRow) in
  let st' := runForecast exact_polyfit st in
  computeSource st' = Some JSFallback
  /\ length (forecastData st') = 7%nat
  /\ map Forecast (drop 2 (forecastData st')) = replicate 5 (Some NaN)
  /\ map High (drop 2 (forecastData st')) = replicate 5 (Some NaN)
  /\ map Low (drop 2 (forecastData st')) = replicate 5 (Some NaN)
  /\ forecastScript exact_polyfit oneRow "Revenue" 5 (num 10)
     = PyVal ForecastFailure.
Proof.
  intros st st'. repeat split; vm_compute; reflexivity.
Qed.

(** C3 (evaluation).  On revenue 100, 110, 120 with horizon 2 and the
    default 10% sensitivity the two paths store different series: the
    script truncates 136.5 and 123.5 to 136 and 123 where the fallback
    rounds them to 137 and 124; and with zero shares the script prices the
    share at 0 where the fallback divides by zero. *)
Theorem python_and_js_paths_disagree :
  let st := setForecastHorizon 2 (initialState growthData) in
  let py := runForecast exact_polyfit (kernelReady st) in
  let js := runForecast exact_polyfit (setPythonStatus error st) in
  let st0 := setShares (num 0) (initialState growthData) in
  let pyv := runValuation exact_polyfit (kernelReady st0) in
  let jsv := runValuation exact_polyfit (setPythonStatus error st0) in
  computeSource py = Some PythonNumPy
  /\ computeSource js = Some JSFallback
  /\ forecastData py !! 4%nat
     = Some (mkChart (Some (num 2023)) None (Some (num 130)) (Some (num 136))
               (Some (num 123)) (Some (Some (num 123), Some (num 136))))
  /\ forecastData js !! 4%nat
     = Some (mkChart (Some (num 2023)) None (Some (num 130)) (Some (num 137))
               (Some (num 124)) (Some (Some (num 124), Some (num 137))))
  /\ forecastData py <> forecastData js
  /\ valuationSource pyv = Some PythonNumPy
  /\ valuationSource jsv = Some JSFallback
  /\ sharePrice (valuationResult pyv) = num 0
  /\ sharePrice (valuationResult jsv) = PInf.
Proof.
  intros st py js st0 pyv jsv. by_compute.
Qed.

(** ** The integrity score *)

Lemma scanCells_spec (r : FinancialRecord) (idx : nat) (cols : list string) :
  forall s : ScanState,
  let s' := fold_left (scanCell r idx) cols s in
  let hit := List.filter (isNullCell r) cols in
  integrityScore s' = (integrityScore s - 5 * Z.of_nat (length hit))%Z
  /\ nullCount s' = (nullCount s + length hit)%nat
  /\ scanLogs s' = scanLogs s ++ map (LogIntegrityWarn (idx + 1)) hit.
Proof.
  induction cols as [|c cols IH]; intros s; cbn [fold_left List.filter].
  - cbn. rewrite app_nil_r. repeat split; lia.
  - destruct (IH (scanCell r idx s c)) as (H1 & H2 & H3).
    cbn zeta. rewrite H1, H2, H3. unfold scanCell.
    destruct (isNullCell r c); cbn [integrityScore nullCount scanLogs length map].
    + rewrite <- app_assoc. repeat split; lia.
    + repeat split; lia.
Qed.

Lemma warnings_app (a b : list LogMsg) :
  warnings (a ++ b) = warnings a ++ warnings b.
Proof. apply List.filter_app. Qed.

Lemma warnings_warn (n : nat) (cols : list string) :
  warnings (map (LogIntegrityWarn n) cols) = map (LogIntegrityWarn n) cols.
Proof.
  induction cols as [|c cols IH]; [reflexivity|].
  cbn [map warnings List.filter isWarn]. f_equal. exact IH.
Qed.

Lemma scanRow_spec (s : ScanState) (r : FinancialRecord) (idx : nat) :
  let s' := scanRow s r idx in
  let hit := List.filter (isNullCell r) checkCols in
  integrityScore s' = (integrityScore s - 5 * Z.of_nat (length hit))%Z
  /\ nullCount s' = (nullCount s + length hit)%nat
  /\ warnings (scanLogs s')
     = warnings (scanLogs s) ++ map (LogIntegrityWarn (idx + 1)) hit.
Proof.
  cbn zeta. unfold scanRow.
  destruct (scanCells_spec r idx checkCols s) as (H1 & H2 & H3).
  cbn zeta in H1, H2, H3.
  destruct (_ || _); cbn [integrityScore nullCount scanLogs];
    rewrite ?warnings_app, H3, warnings_app, warnings_warn;
    cbn [warnings List.filter isWarn]; rewrite ?app_nil_r; auto.
Qed.

Lemma scanFrom_spec (parsed : list FinancialRecord) :
  forall (i : nat) (s : ScanState),
  let s' := reduce_from scanRow i parsed s in
  let cells := nullCellsFrom i parsed in
  integrityScore s' = (integrityScore s - 5 * Z.of_nat (length cells))%Z
  /\ nullCount s' = (nullCount s + length cells)%nat
  /\ warnings (scanLogs s')
     = warnings (scanLogs s)
         ++ map (fun c => LogIntegrityWarn (fst c) (snd c)) cells.
Proof.
  induction parsed as [|r rest IH]; intros i s;
    cbn [reduce_from nullCellsFrom].
  - cbn. rewrite app_nil_r. repeat split; lia.
  - destruct (IH (S i) (scanRow s r i)) as (H1 & H2 & H3).
    destruct (scanRow_spec s r i) as (R1 & R2 & R3).
    cbn zeta in *. rewrite H1, H2, H3, R1, R2, R3.
    rewrite length_app, length_map, map_app, map_map, <- app_assoc.
    repeat split; lia.
Qed.

(** C8, as the code has it.  The score is [100 - 5 * k], [k] the number
    of required cells ([Revenue], [Net Income]) that are absent or [NaN];
    [nullCount] is [k]; the scan logs one warning per such cell, with its
    row number and column, in reading order; the score never exceeds 100
    (and nothing keeps it from going below 0); with two such cells it is
    90. *)
Theorem integrity_score_formula (parsed : list FinancialRecord) :
  let s := scanRecords parsed in
  let k := length (nullCells parsed) in
  integrityScore s = (100 - 5 * Z.of_nat k)%Z
  /\ nullCount s = k
  /\ warnings (scanLogs s)
     = map (fun c => LogIntegrityWarn (fst c) (snd c)) (nullCells parsed)
  /\ (integrityScore s <= 100)%Z
  /\ (k = 2%nat ->
      integrityScore s = 90%Z /\ length (warnings (scanLogs s)) = 2%nat).
Proof.
  cbn zeta. unfold scanRecords, reduce, nullCells.
  destruct (scanFrom_spec parsed 0 (mkScan 100 0 [])) as (H1 & H2 & H3).
  cbn zeta in *. cbn [integrityScore nullCount scanLogs] in *.
  rewrite H1, H2, H3. cbn [warnings List.filter app].
  split; [reflexivity|]. split; [reflexivity|]. split; [reflexivity|].
  split; [lia|]. intros Hk. rewrite length_map, Hk. split; reflexivity.
Qed.

Lemma integrity_score_formula_witness :
  length (nullCells twoGaps) = 2%nat
  /\ length twoGaps = 4%nat
  /\ integrityScore (scanRecords twoGaps) = 90%Z
  /\ warnings (scanLogs (scanRecords twoGaps))
     = [LogIntegrityWarn 2 "Revenue"; LogIntegrityWarn 4 "Revenue"].
Proof.
  assert (length (nullCells twoGaps) = 2%nat) as Hk
    by (vm_compute; reflexivity).
  destruct (integrity_score_formula twoGaps) as (_ & _ & Hw & _ & Hex).
  split; [exact Hk|]. split; [reflexivity|].
  split; [exact (proj1 (Hex Hk))|].
  rewrite Hw. vm_compute. reflexivity.
Defined.

(** C8, as stated, fails: a file of eleven rows without the two required
    columns scores -10, below the floor of 0. *)
Lemma integrity_score_not_clamped :
  integrityScore (scanRecords salesOnly) = (-10)%Z
  /\ ~ (0 <= integrityScore (scanRecords salesOnly) <= 100)%Z.
Proof.
  assert (integrityScore (scanRecords salesOnly) = (-10)%Z) as H
    by (vm_compute; reflexivity).
  split; [exact H|]. rewrite H. lia.
Qed.

(** ** The merged series *)

Lemma mergeSeries_length (data : list FinancialRecord) (metric : string)
    (lastYear lastVal : jsval) (future : list FuturePoint) :
  length (mergeSeries data metric lastYear lastVal future)
  = (length data + 1 + length future)%nat.
Proof.
  unfold mergeSeries. rewrite !length_app, !length_map. cbn [length]. lia.
Qed.

Lemma mergeSeries_junction (data : list FinancialRecord) (metric : string)
    (lastYear lastVal : jsval) (future : list FuturePoint) :
  junctionAt (mergeSeries data metric lastYear lastVal future) (length data)
    lastYear lastVal.
Proof.
  exists (junctionPoint lastYear lastVal). split; [|repeat split].
  unfold mergeSeries. rewrite lookup_app_r by (rewrite length_map; lia).
  rewrite length_map, Nat.sub_diag. reflexivity.
Qed.

Lemma mergeSeries_years (data : list FinancialRecord) (metric : string)
    (xs fs : list Qc) (xl : Qc) (lastVal : jsval) (future : list FuturePoint) :
  map (fun d : FinancialRecord => d !! "Year") data = fin_cells xs ->
  map fYear future = map Fin fs ->
  map Year (mergeSeries data metric (Some (Fin xl)) lastVal future)
  = fin_cells (xs ++ xl :: fs).
Proof.
  intros Hx Hf. unfold mergeSeries.
  rewrite !map_app, !map_map. cbn [map Year historicalPoint junctionPoint app].
  rewrite Hx. f_equal. f_equal.
  change (map (fun x => Year (futureChartPoint x)) future)
    with (map (fun x => Some (fYear x)) future).
  rewrite <- (map_map fYear Some), Hf, map_map. reflexivity.
Qed.

Lemma ascending_append (xs fs : list Qc) (xl : Qc) :
  StronglySorted Qcle xs -> last xs = Some xl ->
  StronglySorted Qcle fs -> Forall (Qcle xl) fs ->
  StronglySorted Qcle (xs ++ xl :: fs).
Proof.
  intros Hxs Hlast Hfs Hge.
  apply last_Some in Hlast as [xs' ->].
  assert (forall x, x ∈ xs' ++ [xl] -> x <= xl) as Hle.
  { intros x [Hx|Hx]%elem_of_app.
    - apply (StronglySorted_app_1_elem_of _ _ _ _ _ Hxs Hx). left.
    - apply list_elem_of_singleton in Hx as ->. apply Qcle_refl. }
  apply StronglySorted_app_2; [|exact Hxs|].
  - intros x1 x2 H1 H2. apply Qcle_trans with xl; [apply Hle, H1|].
    apply elem_of_cons in H2 as [->|H2]; [apply Qcle_refl|].
    rewrite Forall_forall in Hge. apply Hge, H2.
  - constructor; assumption.
Qed.

Lemma ascending_map_seq (f : nat -> Qc) (a n : nat) :
  (forall i j, (i <= j)%nat -> f i <= f j) ->
  StronglySorted Qcle (map f (seq a n)).
Proof.
  intros Hmono. revert a. induction n as [|n IH]; intros a; cbn [seq map].
  - constructor.
  - constructor; [apply IH|].
    apply Forall_forall. intros y Hy.
    apply list_elem_of_fmap in Hy as (j & -> & Hj).
    apply elem_of_seq in Hj. apply Hmono. lia.
Qed.

(** The years the fallback projects. *)
Lemma jsFuturePoints_years (data : list FinancialRecord) (metric : string)
    (h : nat) (s : jsnum) (xs : list Qc) (xl : Qc) :
  map (fun d : FinancialRecord => d !! "Year") data = fin_cells xs ->
  last xs = Some xl ->
  map fYear (jsFuturePoints data metric h s)
  = map Fin (map (fun i => xl + qz (Z.of_nat i)) (seq 1 h)).
Proof.
  intros Hx Hlast. unfold jsFuturePoints, jsBands.
  destruct (fitTrend _ _ _) as [slope intercept].
  rewrite Hx, !map_map. apply map_ext. intros i.
  cbn [fYear pushed b_year forecastBand].
  change (last (fin_cells xs)) with (last ((fun q => Some (Fin q)) <$> xs)).
  rewrite fmap_last, Hlast. reflexivity.
Qed.

Lemma jsFuturePoints_length (data : list FinancialRecord) (metric : string)
    (h : nat) (s : jsnum) :
  length (jsFuturePoints data metric h s) = h.
Proof.
  unfold jsFuturePoints, jsBands.
  destruct (fitTrend _ _ _) as [slope intercept].
  rewrite !length_map. apply length_seq.
Qed.

Lemma qz_nat_mono (i j : nat) :
  (i <= j)%nat -> qz (Z.of_nat i) <= qz (Z.of_nat j).
Proof. intros H. qc_unfold. unfold Qle; cbn. lia. Qed.

Lemma Qc_add_le_mono_l (a b c : Qc) : b <= c -> a + b <= a + c.
Proof. qc_lra. Qed.

Lemma Qc_le_add_nonneg (a b : Qc) : 0 <= b -> a <= a + b.
Proof. qc_lra. Qed.

(** ** What a successful run of the forecast script returns *)

Lemma py_mapM_length {A B : Type} (f : A -> pyres B) (l : list A) :
  forall vs, py_mapM f l = PyVal vs -> length vs = length l.
Proof.
  induction l as [|a l IH]; intros vs H; cbn [py_mapM] in H.
  - injection H as <-. reflexivity.
  - destruct (f a); cbn [py_bind] in H; [|discriminate].
    destruct (py_mapM f l); cbn [py_bind] in H; [|discriminate].
    injection H as <-. cbn [length]. f_equal. apply IH. reflexivity.
Qed.

Lemma py_mapM_get_cells (k : string) (data : list FinancialRecord) :
  forall xs ys,
  map (fun d : FinancialRecord => d !! k) data = fin_cells xs ->
  py_mapM (fun d => py_get d k) data = PyVal ys ->
  ys = xs.
Proof.
  induction data as [|d data IH]; intros [|x xs] ys Hx Hy;
    cbn [map py_mapM] in *; try discriminate.
  - injection Hy as <-. reflexivity.
  - injection Hx as Hd Hx. unfold py_get in Hy at 1. rewrite Hd in Hy.
    cbn [py_number py_bind] in Hy.
    destruct (py_mapM _ data) as [vs|] eqn:E; cbn [py_bind] in Hy;
      [|discriminate].
    injection Hy as <-. f_equal. exact (IH xs vs Hx eq_refl).
Qed.

Lemma scriptRows_years_from (sens : Qc) (n : nat) (l : list (Z * Qc)) :
  forall g : nat -> nat,
  map fYear (imap (fun i '(y, pred) => scriptRow sens n (g i) y pred) l)
  = map (fun yp => num (fst yp)) l.
Proof.
  induction l as [|[y pred] l IH]; intros g; [reflexivity|].
  rewrite imap_cons. cbn [map fYear scriptRow fst]. f_equal.
  exact (IH (fun i => g (S i))).
Qed.

Lemma scriptRows_years (sens : Qc) (n : nat) (l : list (Z * Qc)) :
  map fYear (imap (fun i '(y, pred) => scriptRow sens n i y pred) l)
  = map (fun yp => num (fst yp)) l.
Proof. exact (scriptRows_years_from sens n l (fun i => i)). Qed.

Lemma zip_years (g : Z -> Qc) (l : list Z) :
  map (fun yp : Z * Qc => num (fst yp)) (zip l (map g l)) = map num l.
Proof.
  induction l as [|y l IH]; [reflexivity|].
  cbn [map zip zip_with fst]. f_equal. exact IH.
Qed.

Lemma forecastScript_success
    (polyfit : list Qc -> list Qc -> pyres (Qc * Qc))
    (data : list FinancialRecord) (metric : string) (h : nat) (s : jsnum)
    (future : list FuturePoint) :
  forecastScript polyfit data metric h s = PyVal (ForecastSuccess future) ->
  exists years ly,
    py_mapM (fun d => py_get d "Year") data = PyVal years
    /\ last years = Some ly
    /\ map fYear future
       = map (fun k => num (py_int ly + Z.of_nat k)) (seq 1 h).
Proof.
  intros Hrun. unfold forecastScript in Hrun.
  repeat py_step Hrun.
  injection Hrun as <-.
  match goal with
  | H : py_mapM (fun d => py_get d "Year") data = PyVal ?ys |- _ =>
      exists ys
  end.
  match goal with
  | H : match last ?ys with Some _ => _ | None => _ end = PyVal ?v |- _ =>
      exists v; destruct (last ys) as [ly|] eqn:Hlast; [|discriminate H];
      injection H as <-
  end.
  split; [reflexivity|]. split; [reflexivity|].
  rewrite scriptRows_years, zip_years, map_map. reflexivity.
Qed.

(** [int(x) + k] is at least [x] once [k >= 1]. *)
Lemma py_int_upper (q : Qc) (k : nat) :
  (1 <= k)%nat -> q <= qz (py_int q + Z.of_nat k).
Proof.
  intros Hk. unfold py_int. qc_unfold. destruct q as [[n d] Hc]. cbn [this].
  unfold Qle. cbn [Qnum Qden].
  pose proof (Z.quot_rem' n (Z.pos d)) as Hqr.
  pose proof (Z.rem_bound_abs n (Z.pos d) ltac:(lia)) as Hb.
  nia.
Qed.

Lemma py_future_sorted (ly : Qc) (h : nat) :
  let fs := map (fun k => qz (py_int ly + Z.of_nat k)) (seq 1 h) in
  StronglySorted Qcle fs /\ Forall (Qcle ly) fs.
Proof.
  split.
  - apply ascending_map_seq. intros i j Hij. qc_unfold. unfold Qle; cbn. lia.
  - apply Forall_forall. intros y Hy.
    apply list_elem_of_fmap in Hy as (k & -> & Hk). apply elem_of_seq in Hk.
    apply py_int_upper. lia.
Qed.

Lemma js_future_sorted (xl : Qc) (h : nat) :
  let fs := map (fun i => xl + qz (Z.of_nat i)) (seq 1 h) in
  StronglySorted Qcle fs /\ Forall (Qcle xl) fs.
Proof.
  split.
  - apply ascending_map_seq. intros i j Hij.
    apply Qc_add_le_mono_l, qz_nat_mono, Hij.
  - apply Forall_forall. intros y Hy.
    apply list_elem_of_fmap in Hy as (k & -> & Hk).
    apply Qc_le_add_nonneg, qz_nat_nonneg.
Qed.

Lemma last_year_cell (data : list FinancialRecord) (xs : list Qc)
    (dl : FinancialRecord) :
  map (fun d : FinancialRecord => d !! "Year") data = fin_cells xs ->
  last data = Some dl ->
  exists xl, last xs = Some xl /\ dl !! "Year" = Some (Fin xl).
Proof.
  intros Hx Hl.
  assert (last (map (fun d : FinancialRecord => d !! "Year") data)
          = Some (dl !! "Year")) as H1.
  { change (map ?f data) with (f <$> data). rewrite fmap_last, Hl.
    reflexivity. }
  rewrite Hx in H1.
  change (fin_cells xs) with ((fun q : Qc => Some (Fin q)) <$> xs) in H1.
  rewrite fmap_last in H1. destruct (last xs) as [xl|]; [|discriminate].
  exists xl. split; [reflexivity|]. injection H1 as <-. reflexivity.
Qed.

(** The fallback has no notion of too little data: on any non-empty
    record set it stores a full-length series. *)
Lemma runJSForecast_always_stores (st : AppState) :
  data st <> [] ->
  computeSource (runJSForecast st) = Some JSFallback
  /\ length (forecastData (runJSForecast st))
     = (length (data st) + 1 + forecastHorizon st)%nat.
Proof.
  intros Hne. unfold runJSForecast, jsChartData.
  destruct (last (data st)) as [dl|] eqn:Hlast.
  - cbn [computeSource forecastData setComputeSource setForecastData].
    split; [reflexivity|].
    rewrite mergeSeries_length, jsFuturePoints_length. reflexivity.
  - apply last_None in Hlast. contradiction.
Qed.

(** What either path stores is a merge around the last row. *)
Lemma stored_series_is_merge
    (polyfit : list Qc -> list Qc -> pyres (Qc * Qc)) (st : AppState)
    (series : list ChartPoint) :
  jsChartData (data st) (forecastMetric st) (forecastHorizon st)
    (forecastSensitivity st) = Some series
  \/ (pythonStatus st = ready /\ pyodide st = true
      /\ (exists future,
            forecastScript polyfit (data st) (forecastMetric st)
              (forecastHorizon st) (forecastSensitivity st)
            = PyVal (ForecastSuccess future))
      /\ series = forecastData (runForecast polyfit st)) ->
  exists dl future,
    last (data st) = Some dl
    /\ series = mergeSeries (data st) (forecastMetric st) (dl !! "Year")
                  (dl !! forecastMetric st) future
    /\ length future = forecastHorizon st
    /\ (forall xs xl,
          map (fun d : FinancialRecord => d !! "Year") (data st)
          = fin_cells xs ->
          last xs = Some xl ->
          exists fs, map fYear future = map Fin fs
                     /\ StronglySorted Qcle fs /\ Forall (Qcle xl) fs).
Proof.
  intros [Hjs | (Hready & Hpy & [future Hrun] & ->)].
  - unfold jsChartData in Hjs.
    destruct (last (data st)) as [dl|] eqn:Hlast; [|discriminate].
    injection Hjs as <-.
    exists dl, (jsFuturePoints (data st) (forecastMetric st)
                  (forecastHorizon st) (forecastSensitivity st)).
    split; [reflexivity|]. split.
    { f_equal. change (map ?f (data st)) with (f <$> data st).
      rewrite fmap_last, Hlast. reflexivity. }
    split; [apply jsFuturePoints_length|].
    intros xs xl Hx Hxl. eexists. split.
    + eapply jsFuturePoints_years; eassumption.
    + apply js_future_sorted.
  - destruct (forecastScript_success _ _ _ _ _ _ Hrun)
      as (years & ly & Hyears & Hly & Hfy).
    assert (length years = length (data st)) as Hlen
      by exact (py_mapM_length _ _ _ Hyears).
    destruct (last (data st)) as [dl|] eqn:Hlast.
    2:{ apply last_None in Hlast. rewrite Hlast in Hlen.
        destruct years; [discriminate Hly | discriminate Hlen]. }
    exists dl, future. split; [reflexivity|]. split.
    { unfold runForecast. rewrite Hready, Hpy, Hrun, Hlast.
      rewrite bool_decide_eq_true_2 by reflexivity. reflexivity. }
    split.
    { rewrite <- (length_map fYear), Hfy, length_map. apply length_seq. }
    intros xs xl Hx Hxl.
    assert (years = xs) as -> by exact (py_mapM_get_cells _ _ _ _ Hx Hyears).
    assert (ly = xl) as -> by congruence.
    exists (map (fun k => qz (py_int xl + Z.of_nat k))
              (seq 1 (forecastHorizon st))).
    split; [rewrite Hfy, map_map; reflexivity | apply py_future_sorted].
Qed.

Lemma fin_cells_inj (xs ys : list Qc) : fin_cells xs = fin_cells ys -> xs = ys.
Proof.
  revert ys. induction xs as [|x xs IH]; intros [|y ys] H;
    try discriminate H; [reflexivity|].
  cbn [map] in H. injection H as Hx Hr. f_equal; [congruence | exact (IH _ Hr)].
Qed.

(** C5.  The series either path stores has [data.length + 1 + horizon]
    rows; row [data.length] is the junction, which repeats the last
    record's year and value as [Historical], [Forecast], [High] and [Low]
    and carries the band [(lastValue, lastValue)].  When the years of the
    records are numbers, the years of the series are those of the records
    in the order of the records, which the code never sorts, then the last
    record's year again, then the projected years, ascending and none
    before the last record's: the whole series is ordered by year exactly
    when the records are. *)
Theorem forecast_series_shape
    (polyfit : list Qc -> list Qc -> pyres (Qc * Qc)) (st : AppState)
    (series : list ChartPoint) :
  jsChartData (data st) (forecastMetric st) (forecastHorizon st)
    (forecastSensitivity st) = Some series
  \/ (pythonStatus st = ready /\ pyodide st = true
      /\ (exists future,
            forecastScript polyfit (data st) (forecastMetric st)
              (forecastHorizon st) (forecastSensitivity st)
            = PyVal (ForecastSuccess future))
      /\ series = forecastData (runForecast polyfit st)) ->
  length series = (length (data st) + 1 + forecastHorizon st)%nat
  /\ (exists dl,
        last (data st) = Some dl
        /\ junctionAt series (length (data st)) (dl !! "Year")
             (dl !! forecastMetric st))
  /\ (forall xs,
        map (fun d : FinancialRecord => d !! "Year") (data st) = fin_cells xs ->
        StronglySorted Qcle xs ->
        yearsAscending series)
  /\ (forall xs,
        map (fun d : FinancialRecord => d !! "Year") (data st) = fin_cells xs ->
        (exists xl fs,
           last xs = Some xl
           /\ map Year series = fin_cells (xs ++ xl :: fs)
           /\ length fs = forecastHorizon st
           /\ StronglySorted Qcle fs
           /\ Forall (Qcle xl) fs)
        /\ (yearsAscending series -> StronglySorted Qcle xs)).
Proof.
  intros Hstored.
  destruct (stored_series_is_merge polyfit st series Hstored)
    as (dl & future & Hlast & -> & Hlen & Hyears).
  split; [rewrite mergeSeries_length, Hlen; reflexivity|].
  split; [exists dl; split; [exact Hlast | apply mergeSeries_junction]|].
  assert (forall xs,
            map (fun d : FinancialRecord => d !! "Year") (data st)
            = fin_cells xs ->
            exists xl fs,
              last xs = Some xl
              /\ map Year (mergeSeries (data st) (forecastMetric st)
                             (dl !! "Year") (dl !! forecastMetric st) future)
                 = fin_cells (xs ++ xl :: fs)
              /\ length fs = forecastHorizon st
              /\ StronglySorted Qcle fs
              /\ Forall (Qcle xl) fs) as Hall.
  { intros xs Hx.
    destruct (last_year_cell _ _ _ Hx Hlast) as (xl & Hxl & Hcell).
    destruct (Hyears xs xl Hx Hxl) as (fs & Hfs & Hfsorted & Hge).
    exists xl, fs. split; [exact Hxl|].
    split; [rewrite Hcell; apply mergeSeries_years; assumption|].
    split; [|split; assumption].
    rewrite <- Hlen, <- (length_map Fin fs), <- Hfs. apply length_map. }
  split.
  - intros xs Hx Hsorted.
    destruct (Hall xs Hx) as (xl & fs & Hxl & Hy & _ & Hfsorted & Hge).
    exists (xs ++ xl :: fs). split; [exact Hy|].
    apply ascending_append; assumption.
  - intros xs Hx. split; [exact (Hall xs Hx)|].
    destruct (Hall xs Hx) as (xl & fs & _ & Hy & _).
    intros (ys & Hys & Hs). rewrite Hy in Hys.
    apply fin_cells_inj in Hys. subst ys.
    exact (StronglySorted_app_1_l _ _ _ Hs).
Qed.

Lemma forecast_series_shape_witness :
  let st := setPythonStatus error (initialState growthData) in
  let series := forecastData (runForecast exact_polyfit st) in
  let xs := [qz 2020; qz 2021; qz 2022] in
  jsChartData (data st) (forecastMetric st) (forecastHorizon st)
    (forecastSensitivity st) = Some series
  /\ map (fun d : FinancialRecord => d !! "Year") (data st) = fin_cells xs
  /\ StronglySorted Qcle xs
  /\ length series = 9%nat
  /\ junctionAt series 3 (Some (num 2022)) (Some (num 120))
  /\ yearsAscending series.
Proof.
  intros st series xs.
  assert (jsChartData (data st) (forecastMetric st) (forecastHorizon st)
            (forecastSensitivity st) = Some series) as Hjs
    by (vm_compute; reflexivity).
  assert (map (fun d : FinancialRecord => d !! "Year") (data st)
          = fin_cells xs) as Hx by (vm_compute; reflexivity).
  assert (StronglySorted Qcle xs) as Hs
    by (repeat constructor; apply Qcle_by_compute; vm_compute; reflexivity).
  destruct (forecast_series_shape exact_polyfit st series (or_introl Hjs))
    as (Hlen & (dl & Hdl & Hj) & Hasc & _).
  assert (dl = row 2022 120 18 14) as -> by (cbn in Hdl; congruence).
  exact (conj Hjs (conj Hx (conj Hs (conj Hlen (conj Hj (Hasc xs Hx Hs)))))).
Defined.

(** On the records of [descendingData] both paths store the years 2022,
    2021, 2020, 2020, 2021, ..., 2025: the series is not ascending. *)
Lemma forecast_series_keeps_record_order :
  let js := setPythonStatus error (initialState descendingData) in
  let py := kernelReady (initialState descendingData) in
  let years := fin_cells [qz 2022; qz 2021; qz 2020; qz 2020; qz 2021;
                          qz 2022; qz 2023; qz 2024; qz 2025] in
  computeSource (runForecast exact_polyfit js) = Some JSFallback
  /\ map Year (forecastData (runForecast exact_polyfit js)) = years
  /\ ~ yearsAscending (forecastData (runForecast exact_polyfit js))
  /\ computeSource (runForecast exact_polyfit py) = Some PythonNumPy
  /\ map Year (forecastData (runForecast exact_polyfit py)) = years
  /\ ~ yearsAscending (forecastData (runForecast exact_polyfit py)).
Proof.
  intros js py years.
  assert (map Year (forecastData (runForecast exact_polyfit js)) = years)
    as Hjs by by_compute.
  assert (map Year (forecastData (runForecast exact_polyfit py)) = years)
    as Hpy by by_compute.
  assert (forall series, map Year series = years -> ~ yearsAscending series)
    as Hno.
  { intros series Hy (ys & Hys & Hs). rewrite Hy in Hys.
    apply fin_cells_inj in Hys. subst ys.
    apply StronglySorted_inv in Hs as [_ Hs].
    apply Forall_inv in Hs. revert Hs. apply Qclt_not_le.
    apply Qclt_by_compute. vm_compute. reflexivity. }
  split; [by_compute|]. split; [exact Hjs|]. split; [exact (Hno _ Hjs)|].
  split; [by_compute|]. split; [exact Hpy|]. exact (Hno _ Hpy).
Qed.


(** ** The valuation bridge *)

Lemma round_half_up_bounds (a : Qc) :
  (inject_Z (round_half_up a) <= this a + (1 # 2)
   /\ this a + (1 # 2) < inject_Z (round_half_up a) + 1)%Q.
Proof.
  unfold round_half_up. change (this (qd 1 2)) with (1 # 2)%Q. split.
  - apply Qfloor_le.
  - change 1%Q with (inject_Z 1). rewrite <- inject_Z_plus.
    apply Qlt_floor.
Qed.

(** Rounding the two parts and rounding their sum differ by one unit at
    most. *)
Lemma round_half_up_add (a b : Qc) :
  (round_half_up a + round_half_up b - 1 <= round_half_up (a + b)
   <= round_half_up a + round_half_up b + 1)%Z.
Proof.
  destruct (round_half_up_bounds a) as [A1 A2].
  destruct (round_half_up_bounds b) as [B1 B2].
  destruct (round_half_up_bounds (a + b)) as [C1 C2].
  revert A1 A2 B1 B2 C1 C2.
  generalize (round_half_up a) (round_half_up b) (round_half_up (a + b)).
  intros za zb zc. qc_unfold. intros A1 A2 B1 B2 C1 C2.
  split.
  - assert (inject_Z (za + zb - 1) < inject_Z (zc + 1))%Q as H.
    { replace (za + zb - 1)%Z with (za + zb + -1)%Z by lia.
      rewrite !inject_Z_plus. change (inject_Z (-1)) with (-1 # 1)%Q.
      change (inject_Z 1) with 1%Q. Lqa.lra. }
    rewrite <- Zlt_Qlt in H. lia.
  - assert (inject_Z zc < inject_Z (za + zb + 2))%Q as H.
    { rewrite !inject_Z_plus. change (inject_Z 2) with 2%Q. Lqa.lra. }
    rewrite <- Zlt_Qlt in H. lia.
Qed.

Lemma jsDcf_enterpriseValue (data : list FinancialRecord)
    (wacc termGrowth netDebt shares : jsnum) :
  let l := jsDcf data wacc termGrowth netDebt shares in
  enterpriseValue l = (discountedSum l + discountedTV l)%js.
Proof.
  unfold jsDcf.
  destruct (fitTrend (length data) _ _) as [slope intercept]. reflexivity.
Qed.

(** What either path stores is the three-entry literal around an
    enterprise value that is the sum of the two parts. *)
Lemma stored_valuation_is_bridge
    (polyfit : list Qc -> list Qc -> pyres (Qc * Qc)) (st : AppState)
    (res : ValuationResult) :
  jsValuation (data st) (wacc st) (termGrowth st) (netDebt st) (shares st)
  = Some res
  \/ (pythonStatus st = ready /\ pyodide st = true
      /\ (exists o,
            valuationScript polyfit (data st) (wacc st) (termGrowth st)
              (netDebt st) (shares st) = PyVal (ValuationSuccess o))
      /\ res = valuationResult (runValuation polyfit st)) ->
  exists sumFCF terminal,
    waterfall res = buildWaterfall sumFCF terminal (sumFCF + terminal)%js.
Proof.
  intros [Hjs | (Hready & Hpy & [o Hrun] & ->)].
  - unfold jsValuation in Hjs.
    destruct (bool_decide (data st = [])); [discriminate|].
    injection Hjs as <-.
    set (l := jsDcf (data st) (wacc st) (termGrowth st) (netDebt st)
                (shares st)).
    exists (discountedSum l), (discountedTV l).
    pose proof (jsDcf_enterpriseValue (data st) (wacc st) (termGrowth st)
                  (netDebt st) (shares st)) as E.
    cbn zeta in E. fold l in E. rewrite <- E. reflexivity.
  - unfold runValuation. rewrite Hready, Hpy, Hrun.
    rewrite bool_decide_eq_true_2 by reflexivity.
    cbn [andb valuationResult addLog setValuationSource setValuationResult
           waterfall].
    exists (Fin (discounted_sum o)), (Fin (discounted_tv o)).
    unfold valuationScript in Hrun. repeat py_step Hrun.
    injection Hrun as <-. reflexivity.
Qed.

Lemma qz_sub (a b : Z) : qz (a - b) = qz a - qz b.
Proof.
  apply Qc_this_eq. qc_unfold. unfold Qeq, Qplus, Qminus, Qopp, Qplus; cbn. lia.
Qed.

Lemma sumsWithinRounding_bridge (sumFCF terminal : jsnum) :
  sumsWithinRounding (buildWaterfall sumFCF terminal (sumFCF + terminal)%js)
  = is_fin sumFCF && is_fin terminal.
Proof.
  destruct sumFCF as [a| | |], terminal as [b| | |]; try reflexivity.
  unfold buildWaterfall, sumsWithinRounding. cbn [value is_fin andb].
  rewrite jadd_fin. cbn [Math_round]. rewrite jadd_fin, jsub_fin.
  rewrite <- qz_add, <- qz_sub.
  pose proof (round_half_up_add a b) as H.
  assert (round_half_up a + round_half_up b - round_half_up (a + b) = -1
          \/ round_half_up a + round_half_up b - round_half_up (a + b) = 0
          \/ round_half_up a + round_half_up b - round_half_up (a + b) = 1)%Z
    as [-> | [-> | ->]] by lia; vm_compute; reflexivity.
Qed.

(** C6.  The bridge either path stores holds three entries, in the order
    "Sum of FCFs", "Terminal Value", "Enterprise Value", whose values are
    [Math.round] of the discounted sum, of the discounted terminal value
    and of their sum; only the last carries [isTotal: true] and its
    contribution is the text "100.0".  The first two values add up to the
    third within one unit exactly when the two amounts are finite numbers.
    They always are in a result of the script.  They are not on
    [oneRow] with the kernel down: the script answers "Insufficient data"
    on that record and stores nothing, the fallback stores a bridge of
    three [NaN]. *)
Theorem valuation_bridge_shape
    (polyfit : list Qc -> list Qc -> pyres (Qc * Qc)) :
  let bridge := fun sumFCF terminal : jsnum =>
    [ mkEntry "Sum of FCFs" (Math_round sumFCF) None
        (toFixed1 (sumFCF / (sumFCF + terminal) * num 100)%js);
      mkEntry "Terminal Value" (Math_round terminal) None
        (toFixed1 (terminal / (sumFCF + terminal) * num 100)%js);
      mkEntry "Enterprise Value" (Math_round (sumFCF + terminal)%js)
        (Some true) "100.0" ] in
  (forall st : AppState,
     data st <> [] ->
     let l := jsDcf (data st) (wacc st) (termGrowth st) (netDebt st)
                (shares st) in
     let stored := waterfall (valuationResult (runJSValuation st)) in
     stored = bridge (discountedSum l) (discountedTV l)
     /\ sumsWithinRounding stored
        = is_fin (discountedSum l) && is_fin (discountedTV l))
  /\ (forall (st : AppState) (o : PyDcf),
        pythonStatus st = ready -> pyodide st = true ->
        valuationScript polyfit (data st) (wacc st) (termGrowth st)
          (netDebt st) (shares st) = PyVal (ValuationSuccess o) ->
        let stored := waterfall (valuationResult (runValuation polyfit st)) in
        stored = bridge (Fin (discounted_sum o)) (Fin (discounted_tv o))
        /\ sumsWithinRounding stored = true)
  /\ (let st := setPythonStatus error (initialState oneRow) in
      let stored := waterfall (valuationResult (runValuation polyfit st)) in
      valuationSource (runValuation polyfit st) = Some JSFallback
      /\ stored = [ mkEntry "Sum of FCFs" NaN None "NaN";
                    mkEntry "Terminal Value" NaN None "NaN";
                    mkEntry "Enterprise Value" NaN (Some true) "100.0" ]
      /\ sumsWithinRounding stored = false
      /\ valuationScript polyfit (data st) (wacc st) (termGrowth st)
           (netDebt st) (shares st) = PyVal ValuationFailure
      /\ valuationResult
           (runValuation polyfit (kernelReady (initialState oneRow)))
         = valuationResult (initialState oneRow)).
Proof.
  intros bridge. split; [|split].
  - intros st Hne l stored. subst stored.
    unfold runJSValuation, jsValuation.
    rewrite bool_decide_eq_false_2 by exact Hne.
    cbn [valuationResult setValuationSource setValuationResult waterfall].
    fold l.
    pose proof (jsDcf_enterpriseValue (data st) (wacc st) (termGrowth st)
                  (netDebt st) (shares st)) as E.
    cbn zeta in E. fold l in E. rewrite E.
    split; [reflexivity | apply sumsWithinRounding_bridge].
  - intros st o Hready Hpy Hrun stored. subst stored.
    unfold runValuation. rewrite Hready, Hpy, Hrun.
    rewrite bool_decide_eq_true_2 by reflexivity.
    cbn [andb valuationResult addLog setValuationSource setValuationResult
           waterfall].
    assert (enterprise_value o = discounted_sum o + discounted_tv o) as ->.
    { unfold valuationScript in Hrun. repeat py_step Hrun.
      injection Hrun as <-. reflexivity. }
    rewrite <- jadd_fin.
    split; [reflexivity | apply sumsWithinRounding_bridge].
  - cbv zeta. repeat split; reflexivity.
Qed.

Lemma valuation_bridge_shape_witness :
  let st := setPythonStatus error (initialState growthData) in
  let kst := kernelReady (initialState growthData) in
  let stored := waterfall (valuationResult (runJSValuation st)) in
  data st <> []
  /\ map value stored = [num 64; num 161; num 225]
  /\ map contribution stored = ["28.3"; "71.7"; "100.0"]
  /\ sumsWithinRounding stored = true
  /\ (exists o,
        valuationScript exact_polyfit (data kst) (wacc kst) (termGrowth kst)
          (netDebt kst) (shares kst) = PyVal (ValuationSuccess o))
  /\ map value (waterfall (valuationResult (runValuation exact_polyfit kst)))
     = [num 64; num 161; num 225]
  /\ sumsWithinRounding
       (waterfall (valuationResult (runValuation exact_polyfit kst))) = true.
Proof.
  intros st kst stored.
  assert (data st <> []) as Hne by discriminate.
  destruct (valuation_bridge_shape exact_polyfit) as (Hjs & Hpy & _).
  destruct (Hjs st Hne) as [_ Hsum].
  assert (exists o,
            valuationScript exact_polyfit (data kst) (wacc kst)
              (termGrowth kst) (netDebt kst) (shares kst)
            = PyVal (ValuationSuccess o)) as [o Ho]
    by (vm_compute; eexists; reflexivity).
  destruct (Hpy kst o eq_refl eq_refl Ho) as [_ Hpsum].
  split; [exact Hne|]. split; [by_compute|]. split; [by_compute|].
  split; [etransitivity; [exact Hsum | vm_compute; reflexivity]|].
  split; [exists o; exact Ho|]. split; [by_compute | exact Hpsum].
Defined.

(** ** The cone of uncertainty *)

Lemma jlt_fin (a b : Qc) : jlt (Fin a) (Fin b) = true <-> a < b.
Proof. unfold jlt, jgt. apply bool_decide_eq_true. Qed.

Lemma qz_nat_neq_0 (n : nat) : (1 <= n)%nat -> qz (Z.of_nat n) <> 0.
Proof. intros H. apply Qclt_neq_0, qz_nat_pos. lia. Qed.

(** One turn of the loop on finite inputs. *)
Lemma forecastBand_fin (slope intercept lastYear sens : Qc) (h i : nat) :
  (1 <= h)%nat ->
  let point := slope * (lastYear + qz (Z.of_nat i)) + intercept in
  let spreadPct := sens / qz 100 * (qz (Z.of_nat i) / qz (Z.of_nat h)) in
  forecastBand (Fin slope) (Fin intercept) (Some (Fin lastYear)) h (Fin sens) i
  = mkBand (Fin (lastYear + qz (Z.of_nat i))) (Fin point)
      (Fin (point * (1 + spreadPct))) (Fin (point * (1 - spreadPct))).
Proof.
  intros Hh. cbn zeta. unfold forecastBand.
  rewrite jpercent_fin. unfold num.
  rewrite (jdiv_fin _ _ (qz_nat_neq_0 h Hh)). reflexivity.
Qed.

Lemma spread_closed_form (p k : Qc) : p * (1 + k) - p * (1 - k) = qz 2 * k * p.
Proof. qc_ring. Qed.

Lemma Qcinv_pos (a : Qc) : 0 < a -> 0 < / a.
Proof.
  intros H. destruct (Qclt_le_dec 0 (/ a)) as [|Hle]; [assumption|].
  exfalso. assert (a * / a = 1) as E by (apply Qcmult_inv_r, Qclt_neq_0, H).
  assert (a * / a <= 0) as Hn.
  { clear E. revert H Hle. generalize (/ a). intros t. qc_unfold.
    intros H Hle. Lqa.nra. }
  rewrite E in Hn. revert Hn. apply Qclt_not_le. reflexivity.
Qed.

(** The spread grows from one year to the next when the trend does not
    fall and the first projected value is positive. *)
Lemma spread_step (slope c ly s t I : Qc) :
  0 < s -> 0 < t -> 0 <= slope -> qz 1 <= I ->
  0 < slope * (ly + qz 1) + c ->
  qz 2 * (s * (I * t)) * (slope * (ly + I) + c)
  < qz 2 * (s * ((I + 1) * t)) * (slope * (ly + (I + 1)) + c).
Proof.
  qc_unfold. intros Hs Ht Hsl HI Hp.
  assert (0 <= this slope * (this I - 1))%Q as H1 by Lqa.nra.
  assert (0 < this s * this t)%Q as Hst by Lqa.nra.
  assert (0 < this slope * (this ly + this I) + this c)%Q as Hpi by Lqa.nra.
  assert (0 <= this slope * (this I + 1))%Q as H2 by Lqa.nra.
  assert (0 < (this I + 1) * (this slope * (this ly + (this I + 1)) + this c)
              - this I * (this slope * (this ly + this I) + this c))%Q as Hd
    by Lqa.nra.
  Lqa.nra.
Qed.

Lemma round_spread_bounds (a b : Qc) :
  qz (round_half_up a) - qz (round_half_up b) - 1 <= a - b
  /\ a - b <= qz (round_half_up a) - qz (round_half_up b) + 1.
Proof.
  destruct (round_half_up_bounds a) as [A1 A2].
  destruct (round_half_up_bounds b) as [B1 B2].
  revert A1 A2 B1 B2. generalize (round_half_up a) (round_half_up b).
  intros za zb. qc_unfold. unfold inject_Z. intros A1 A2 B1 B2.
  split; Lqa.lra.
Qed.

(** C4, as the code has it.  On a finite fit, for every horizon [h >= 1],
    sensitivity [s] (a percentage) and [i]: the loop computes
    [high_i = point_i * (1 + (s/100) * i/h)] and
    [low_i = point_i * (1 - (s/100) * i/h)], and the script truncates the
    same two products.  When [s > 0], the slope is not negative and the
    first projected value is positive, [high_i - low_i] is strictly
    increasing in [i]; at [i = h] it equals [2 * (s/100) * point_h], and
    the stored [High - Low] of that year is within one unit of it. *)
Theorem forecast_band_widens (slope intercept lastYear sens : Qc) (h : nat) :
  (1 <= h)%nat ->
  let point := fun i : nat =>
    slope * (lastYear + qz (Z.of_nat i)) + intercept in
  let s := sens / qz 100 in
  let band := forecastBand (Fin slope) (Fin intercept) (Some (Fin lastYear)) h
                (Fin sens) in
  (forall i : nat,
     b_val (band i) = Fin (point i)
     /\ b_high (band i)
        = Fin (point i * (1 + s * (qz (Z.of_nat i) / qz (Z.of_nat h))))
     /\ b_low (band i)
        = Fin (point i * (1 - s * (qz (Z.of_nat i) / qz (Z.of_nat h)))))
  /\ (forall (i0 : nat) (y : Z) (pred : Qc),
        let row := scriptRow s h i0 y pred in
        let ratio := qz (Z.of_nat i0 + 1) / qz (Z.of_nat h) in
        fHigh row = num (py_int (pred * (1 + s * ratio)))
        /\ fLow row = num (py_int (pred * (1 - s * ratio))))
  /\ (0 < sens -> 0 <= slope -> 0 < point 1%nat ->
      forall i : nat, (1 <= i < h)%nat ->
        jlt (bandSpread (band i)) (bandSpread (band (S i))) = true)
  /\ bandSpread (band h) = Fin (qz 2 * s * point h)
  /\ exists zh zl : Z,
       fHigh (pushed (band h)) = num zh
       /\ fLow (pushed (band h)) = num zl
       /\ qz zh - qz zl - 1 <= qz 2 * s * point h
       /\ qz 2 * s * point h <= qz zh - qz zl + 1.
Proof.
  intros Hh point s band.
  assert (forall i, band i
            = mkBand (Fin (lastYear + qz (Z.of_nat i))) (Fin (point i))
                (Fin (point i
                      * (1 + s * (qz (Z.of_nat i) / qz (Z.of_nat h)))))
                (Fin (point i
                      * (1 - s * (qz (Z.of_nat i) / qz (Z.of_nat h))))))
    as Hband by (intros i; apply forecastBand_fin, Hh).
  assert (forall i, bandSpread (band i)
            = Fin (qz 2 * (s * (qz (Z.of_nat i) / qz (Z.of_nat h)))
                   * point i)) as Hspread.
  { intros i. unfold bandSpread. rewrite Hband. cbn [b_high b_low].
    rewrite jsub_fin, spread_closed_form. reflexivity. }
  assert (qz (Z.of_nat h) / qz (Z.of_nat h) = 1) as Hone
    by (apply Qcmult_inv_r, qz_nat_neq_0, Hh).
  split; [|split; [|split; [|split]]].
  - intros i. rewrite Hband. repeat split.
  - intros i0 y pred. split; reflexivity.
  - intros Hs Hsl Hp i Hi. rewrite !Hspread. apply jlt_fin.
    rewrite qz_succ_nat. unfold point. rewrite qz_succ_nat.
    unfold Qcdiv. apply spread_step; try assumption.
    + subst s. revert Hs. qc_unfold. change (/ (100 # 1))%Q with (1 # 100)%Q.
      intros Hs. Lqa.lra.
    + apply Qcinv_pos, qz_nat_pos. lia.
    + change (qz 1) with (qz (Z.of_nat 1)). apply qz_nat_mono. lia.
  - rewrite Hspread, Hone. f_equal. ring.
  - exists (round_half_up (point h * (1 + s))),
      (round_half_up (point h * (1 - s))).
    rewrite Hband, Hone, !Qcmult_1_r. cbn [pushed b_high b_low fHigh fLow].
    split; [reflexivity|]. split; [reflexivity|].
    rewrite <- (spread_closed_form (point h) s). apply round_spread_bounds.
Qed.

Lemma forecast_band_widens_witness :
  let band := forecastBand (num 10) (num (-20100)) (Some (num 2022)) 5
                (num 20) in
  (1 <= 5)%nat
  /\ 0 < qz 20
  /\ 0 <= qz 10
  /\ 0 < qz 10 * (qz 2022 + qz (Z.of_nat 1)) + qz (-20100)
  /\ jsBands growthData "Revenue" 5 (num 20) = map band (seq 1 5)
  /\ jlt (bandSpread (band 1%nat)) (bandSpread (band 2%nat)) = true
  /\ jlt (bandSpread (band 4%nat)) (bandSpread (band 5%nat)) = true
  /\ bandSpread (band 5%nat)
     = Fin (qz 2 * (qz 20 / qz 100)
            * (qz 10 * (qz 2022 + qz (Z.of_nat 5)) + qz (-20100))).
Proof.
  intros band.
  assert (1 <= 5)%nat as H1 by lia.
  assert (0 < qz 20) as H2 by (apply Qclt_by_compute; vm_compute; reflexivity).
  assert (0 <= qz 10) as H3
    by (apply Qcle_by_compute; vm_compute; reflexivity).
  assert (0 < qz 10 * (qz 2022 + qz (Z.of_nat 1)) + qz (-20100)) as H4
    by (apply Qclt_by_compute; vm_compute; reflexivity).
  assert (jsBands growthData "Revenue" 5 (num 20) = map band (seq 1 5)) as H5
    by by_compute.
  destruct (forecast_band_widens (qz 10) (qz (-20100)) (qz 2022) (qz 20) 5 H1)
    as (_ & _ & Hwide & Hlast & _).
  pose proof (Hwide H2 H3 H4) as Hw.
  exact (conj H1 (conj H2 (conj H3 (conj H4 (conj H5
          (conj (Hw 1%nat ltac:(lia)) (conj (Hw 4%nat ltac:(lia)) Hlast))))))).
Defined.

(** C4, as stated, fails: on revenue 500, 400, 300 with sensitivity 20%
    and horizon 5 the projected values are 200, 100, 0, -100, -200 and the
    spread runs 16, 16, 0, -32, -80, before rounding and after. *)
Lemma cone_does_not_widen_on_decline :
  strictlyIncreasing
    (map bandSpread (jsBands declineData "Revenue" 5 (num 20))) = false
  /\ strictlyIncreasing
       (map reportedSpread (jsFuturePoints declineData "Revenue" 5 (num 20)))
     = false
  /\ map reportedSpread (jsFuturePoints declineData "Revenue" 5 (num 20))
     = [num 16; num 16; num 0; num (-32); num (-80)].
Proof.
  split; [vm_compute; reflexivity|]. split; [vm_compute; reflexivity|].
  by_compute.
Qed.

(** ** The growth commentary *)







(** * Further properties *)

(** ** The fit of data on a line *)

Lemma fitTrend_on_line (xs ys : list Qc) (a b : Qc) :
  length xs = length ys -> (2 <= length xs)%nat -> NoDup xs ->
  Forall2 (fun x y => y = a * x + b) xs ys ->
  fitTrend (length xs) (fin_cells xs) (fin_cells ys) = (Fin a, Fin b).
Proof.
  intros Hlen H2 Hnd Hline.
  assert (olsDen xs <> 0) as HD
    by (apply Qclt_neq_0, olsDen_pos; assumption).
  assert (qz (Z.of_nat (length xs)) <> 0) as Hn
    by (apply Qclt_neq_0, qz_nat_pos; lia).
  rewrite (fitTrend_fin xs ys Hlen H2 Hnd).
  destruct (line_sums _ _ _ _ Hline) as [HsY HsXY]. rewrite HsY, HsXY.
  assert ((qz (Z.of_nat (length xs)) * (a * sumsq xs + b * sumQc xs)
           - sumQc xs * (a * sumQc xs + qz (Z.of_nat (length xs)) * b))
          / olsDen xs = a) as -> by (apply line_slope; exact HD).
  rewrite line_intercept by exact Hn. reflexivity.
Qed.

(** ** A single record *)

Lemma jadd_0_l (x : jsnum) : (num 0 + x)%js = x.
Proof.
  unfold num. rewrite qz_0. destruct x; try reflexivity.
  rewrite jadd_fin, Qcplus_0_l. reflexivity.
Qed.

Lemma jmul_1_l (x : jsnum) : (num 1 * x)%js = x.
Proof.
  unfold num. rewrite qz_1. destruct x; try reflexivity.
  rewrite jmul_fin, Qcmult_1_l. reflexivity.
Qed.

Lemma jsub_self (x : jsnum) : (x - x)%js = num 0 \/ (x - x)%js = NaN.
Proof.
  destruct x as [q| | |]; [left|right..]; try reflexivity.
  rewrite jsub_fin. unfold num. rewrite qz_0. f_equal. ring.
Qed.

Lemma jdiv_zero_or_nan (n d : jsnum) :
  n = num 0 \/ n = NaN -> d = num 0 \/ d = NaN -> (n / d)%js = NaN.
Proof.
  intros [-> | ->] [-> | ->]; try reflexivity.
Qed.

(** With one record the fit is [0/0] (or worse): both coefficients are
    [NaN], whatever the two cells hold. *)
Lemma fitTrend_single (vx vy : jsval) : fitTrend 1 [vx] [vy] = (NaN, NaN).
Proof.
  unfold fitTrend, reduce.
  cbn [reduce_from lookup list_lookup mjoin option_join].
  change (Z.of_nat 1) with 1%Z.
  generalize (ToNumber vx) (ToNumber vy). intros X Y.
  rewrite !jadd_0_l, !jmul_1_l.
  rewrite (jdiv_zero_or_nan _ _ (jsub_self (X * Y)%js) (jsub_self (X * X)%js)).
  destruct Y, X; reflexivity.
Qed.

(** X2.  On a record set of exactly one record, whatever its cells, the
    horizon and the sensitivity, [runJSForecast] raises nothing: it builds
    the historical row, the junction row and one row per projected year,
    and every projected row carries [NaN] as [Forecast], [High] and
    [Low]. *)
Theorem js_forecast_single_record_is_nan
    (d : FinancialRecord) (metric : string) (h : nat) (sens : jsnum) :
  jsChartData [d] metric h sens
  = Some (mergeSeries [d] metric (d !! "Year") (d !! metric)
            (map (fun i : nat =>
                    mkFuture (ToNumber (d !! "Year") + num (Z.of_nat i))%js
                      NaN NaN NaN)
               (seq 1 h))).
Proof.
  unfold jsChartData, jsFuturePoints, jsBands. cbn [map length last].
  rewrite fitTrend_single. cbn [mjoin option_join]. do 2 f_equal.
  rewrite map_map. apply map_ext. intros i. reflexivity.
Qed.

(** X3.  On a record set of exactly one record, whatever its cells and
    whatever WACC, growth, debt and share count, [runJSValuation] stores a
    share price of [NaN] and a bridge whose three values are [NaN]; the
    two parts are labelled "NaN" percent and the total still "100.0". *)
Theorem js_valuation_single_record_is_nan
    (d : FinancialRecord) (wacc termGrowth netDebt shares : jsnum) :
  jsValuation [d] wacc termGrowth netDebt shares
  = Some (mkValuation NaN
            [ mkEntry "Sum of FCFs" NaN None "NaN";
              mkEntry "Terminal Value" NaN None "NaN";
              mkEntry "Enterprise Value" NaN (Some true) "100.0" ]).
Proof.
  unfold jsValuation. rewrite bool_decide_eq_false_2 by discriminate.
  unfold jsDcf. cbn [map length last]. rewrite fitTrend_single.
  cbn [dcfSharePrice discountedSum discountedTV enterpriseValue].
  destruct (jgt _ _); reflexivity.
Qed.

(** ** When a script raises *)

Lemma py_mapM_raise {A B : Type} (f : A -> pyres B) (l : list A) :
  Exists (fun a => f a = PyRaise) l -> py_mapM f l = PyRaise.
Proof.
  induction 1 as [a l Ha | a l _ IH]; cbn [py_mapM].
  - rewrite Ha. reflexivity.
  - rewrite IH. destruct (f a); reflexivity.
Qed.

Lemma py_literal_ok_false (data : list FinancialRecord) :
  Exists (fun d : FinancialRecord =>
            exists k v, d !! k = Some v /\ is_fin v = false) data ->
  py_literal_ok data = false.
Proof.
  induction 1 as [d l (k & v & Hk & Hv) | d l _ IH];
    unfold py_literal_ok; cbn [forallb].
  - rewrite bool_decide_eq_false_2; [reflexivity|].
    intros Hall. specialize (Hall k v Hk). cbn in Hall. congruence.
  - fold (py_literal_ok l). rewrite IH. apply andb_false_r.
Qed.

Lemma unreadable_cases (data : list FinancialRecord) :
  unreadable data ->
  py_literal_ok data = false
  \/ Exists (fun d : FinancialRecord => py_get d "Year" = PyRaise) data.
Proof.
  unfold unreadable. intros H.
  destruct (py_literal_ok data) eqn:Hok; [right | left; reflexivity].
  induction H as [d l [Hd | Hd] | d l _ IH].
  - left. unfold py_get. rewrite Hd. reflexivity.
  - exfalso. rewrite py_literal_ok_false in Hok; [discriminate|].
    left. exact Hd.
  - right. apply IH. apply py_literal_ok_cons in Hok. tauto.
Qed.

Lemma forecastScript_unreadable
    (polyfit : list Qc -> list Qc -> pyres (Qc * Qc))
    (data : list FinancialRecord) (metric : string) (h : nat) (s : jsnum) :
  unreadable data \/ is_fin s = false ->
  forecastScript polyfit data metric h s = PyRaise.
Proof.
  intros H. unfold forecastScript.
  destruct (py_literal_ok data) eqn:Hok; cbn [negb]; [|reflexivity].
  destruct s as [q| | |]; cbn [py_number py_bind]; try reflexivity.
  destruct H as [H | H]; [|discriminate H].
  destruct (unreadable_cases data H) as [Hf | Hy]; [congruence|].
  rewrite (py_mapM_raise _ _ Hy). reflexivity.
Qed.

Lemma valuationScript_unreadable
    (polyfit : list Qc -> list Qc -> pyres (Qc * Qc))
    (data : list FinancialRecord) (wacc termGrowth netDebt shares : jsnum) :
  unreadable data
  \/ is_fin wacc && is_fin termGrowth && is_fin netDebt && is_fin shares
     = false ->
  valuationScript polyfit data wacc termGrowth netDebt shares = PyRaise.
Proof.
  intros H. unfold valuationScript.
  destruct (py_literal_ok data) eqn:Hok; cbn [negb]; [|reflexivity].
  destruct wacc as [w| | |]; cbn [py_number py_bind]; try reflexivity.
  destruct termGrowth as [t| | |]; cbn [py_number py_bind]; try reflexivity.
  destruct netDebt as [n| | |]; cbn [py_number py_bind]; try reflexivity.
  destruct shares as [sh| | |]; cbn [py_number py_bind]; try reflexivity.
  destruct H as [H | H]; [|discriminate H].
  destruct (unreadable_cases data H) as [Hf | Hy]; [congruence|].
  rewrite (py_mapM_raise _ _ Hy). reflexivity.
Qed.

(** X4.  With the kernel ready, a record without [Year], a cell that is
    [NaN] or infinite, or a non-finite input field makes the script
    raise; the callback then logs the error and hands over to the
    fallback: the outcome is that of [runJSForecast] (of [runJSValuation])
    run after the two log lines, and on non-empty data the source shown is
    the JS fallback. *)
Theorem script_error_falls_back
    (polyfit : list Qc -> list Qc -> pyres (Qc * Qc)) (st : AppState) :
  pythonStatus st = ready ->
  pyodide st = true ->
  (unreadable (data st) \/ is_fin (forecastSensitivity st) = false ->
   runForecast polyfit st
   = runJSForecast
       (addLog LogExecutionError
          (addLog (LogStartForecast (forecastMetric st)
                     (forecastSensitivity st)) st))
   /\ (data st <> [] ->
       computeSource (runForecast polyfit st) = Some JSFallback))
  /\ (unreadable (data st)
      \/ is_fin (wacc st) && is_fin (termGrowth st) && is_fin (netDebt st)
         && is_fin (shares st) = false ->
      runValuation polyfit st
      = runJSValuation (addLog LogValuationError (addLog LogStartValuation st))
      /\ (data st <> [] ->
          valuationSource (runValuation polyfit st) = Some JSFallback)).
Proof.
  intros Hready Hpy. split.
  - intros H.
    assert (runForecast polyfit st
            = runJSForecast
                (addLog LogExecutionError
                   (addLog (LogStartForecast (forecastMetric st)
                              (forecastSensitivity st)) st))) as Hrun.
    { unfold runForecast.
      rewrite Hready, Hpy, (forecastScript_unreadable polyfit _ _ _ _ H).
      rewrite bool_decide_eq_true_2 by reflexivity. reflexivity. }
    split; [exact Hrun|]. intros Hne. rewrite Hrun.
    apply runJSForecast_always_stores. exact Hne.
  - intros H.
    assert (runValuation polyfit st
            = runJSValuation
                (addLog LogValuationError (addLog LogStartValuation st)))
      as Hrun.
    { unfold runValuation.
      rewrite Hready, Hpy, (valuationScript_unreadable polyfit _ _ _ _ _ H).
      rewrite bool_decide_eq_true_2 by reflexivity. reflexivity. }
    split; [exact Hrun|]. intros Hne. rewrite Hrun.
    unfold runJSValuation, jsValuation. cbn [data addLog].
    rewrite bool_decide_eq_false_2 by exact Hne. reflexivity.
Qed.

Lemma script_error_falls_back_witness :
  let st := kernelReady (initialState twoGaps) in
  pythonStatus st = ready
  /\ pyodide st = true
  /\ unreadable (data st)
  /\ computeSource (runForecast exact_polyfit st) = Some JSFallback
  /\ valuationSource (runValuation exact_polyfit st) = Some JSFallback.
Proof.
  intros st.
  assert (unreadable (data st)) as Hbad.
  { unfold unreadable. cbn [data st kernelReady initialState twoGaps].
    do 3 apply Exists_cons_tl. apply Exists_cons_hd. right.
    exists "Revenue", NaN. split; [vm_compute; reflexivity | reflexivity]. }
  assert (data st <> []) as Hne by discriminate.
  destruct (script_error_falls_back exact_polyfit st eq_refl eq_refl)
    as [Hf Hv].
  exact (conj eq_refl (conj eq_refl (conj Hbad
          (conj (proj2 (Hf (or_introl Hbad)) Hne)
                (proj2 (Hv (or_introl Hbad)) Hne))))).
Defined.

(** ** What the callbacks leave alone *)

Lemma sameInputs_addLog (m : LogMsg) (st : AppState) :
  sameInputs st (addLog m st).
Proof. repeat split. Qed.

Lemma sameInputs_trans (a b c : AppState) :
  sameInputs a b -> sameInputs b c -> sameInputs a c.
Proof.
  unfold sameInputs. intros H1 H2.
  repeat match goal with H : _ /\ _ |- _ => destruct H end.
  repeat split; congruence.
Qed.

Lemma runJSForecast_frame (st : AppState) :
  sameInputs st (runJSForecast st)
  /\ pythonLogs (runJSForecast st) = pythonLogs st
  /\ valuationResult (runJSForecast st) = valuationResult st
  /\ valuationSource (runJSForecast st) = valuationSource st.
Proof.
  unfold runJSForecast. destruct (jsChartData _ _ _ _); repeat split.
Qed.

Lemma runJSValuation_frame (st : AppState) :
  sameInputs st (runJSValuation st)
  /\ pythonLogs (runJSValuation st) = pythonLogs st
  /\ forecastData (runJSValuation st) = forecastData st
  /\ computeSource (runJSValuation st) = computeSource st.
Proof.
  unfold runJSValuation. destruct (jsValuation _ _ _ _ _); repeat split.
Qed.

Lemma prefix_snoc2 {A : Type} (l : list A) (x y : A) :
  l `prefix_of` (l ++ [x]) ++ [y].
Proof. rewrite <- app_assoc. apply prefix_app_r. reflexivity. Qed.

Lemma prefix_snoc {A : Type} (l : list A) (x : A) :
  l `prefix_of` l ++ [x].
Proof. apply prefix_app_r. reflexivity. Qed.

Lemma runForecast_frame
    (polyfit : list Qc -> list Qc -> pyres (Qc * Qc)) (st : AppState) :
  sameInputs st (runForecast polyfit st)
  /\ pythonLogs st `prefix_of` pythonLogs (runForecast polyfit st)
  /\ valuationResult (runForecast polyfit st) = valuationResult st
  /\ valuationSource (runForecast polyfit st) = valuationSource st.
Proof.
  pose proof (fun m n =>
                runJSForecast_frame
                  (addLog m (addLog n st))) as F2.
  pose proof (fun m => runJSForecast_frame (addLog m st)) as F1.
  pose proof (runJSForecast_frame st) as F0.
  unfold runForecast.
  destruct (bool_decide (pythonStatus st = ready) && pyodide st).
  - destruct (forecastScript _ _ _ _ _) as [[future|]|].
    + destruct (last (data st)) as [dl|].
      * split; [repeat split|]. split; [apply prefix_snoc2|].
        split; reflexivity.
      * destruct (F2 LogExecutionError
                    (LogStartForecast (forecastMetric st)
                       (forecastSensitivity st))) as (H1 & H2 & H3 & H4).
        rewrite H2, H3, H4. split; [exact H1|].
        split; [apply prefix_snoc2|]. split; reflexivity.
    + split; [repeat split|]. split; [apply prefix_snoc|]. split; reflexivity.
    + destruct (F2 LogExecutionError
                  (LogStartForecast (forecastMetric st)
                     (forecastSensitivity st))) as (H1 & H2 & H3 & H4).
      rewrite H2, H3, H4. split; [exact H1|].
      split; [apply prefix_snoc2|]. split; reflexivity.
  - destruct (bool_decide (pythonStatus st = loading)).
    + split; [repeat split|]. split; [reflexivity|]. split; reflexivity.
    + destruct (bool_decide (pythonStatus st = error)).
      * destruct (F1 LogKernelUnavailable) as (H1 & H2 & H3 & H4).
        rewrite H2, H3, H4. split; [exact H1|].
        split; [apply prefix_snoc|]. split; reflexivity.
      * destruct F0 as (H1 & H2 & H3 & H4).
        rewrite H2, H3, H4. split; [exact H1|].
        split; [reflexivity|]. split; reflexivity.
Qed.

Lemma runValuation_frame
    (polyfit : list Qc -> list Qc -> pyres (Qc * Qc)) (st : AppState) :
  sameInputs st (runValuation polyfit st)
  /\ pythonLogs st `prefix_of` pythonLogs (runValuation polyfit st)
  /\ forecastData (runValuation polyfit st) = forecastData st
  /\ computeSource (runValuation polyfit st) = computeSource st.
Proof.
  pose proof (fun m n =>
                runJSValuation_frame
                  (addLog m (addLog n st))) as F2.
  pose proof (runJSValuation_frame st) as F0.
  unfold runValuation.
  destruct (bool_decide (pythonStatus st = ready) && pyodide st).
  - destruct (valuationScript _ _ _ _ _ _) as [[o|]|].
    + split; [repeat split|]. split; [apply prefix_snoc2|].
      split; reflexivity.
    + split; [repeat split|]. split; [apply prefix_snoc|]. split; reflexivity.
    + destruct (F2 LogValuationError LogStartValuation)
        as (H1 & H2 & H3 & H4).
      rewrite H2, H3, H4. split; [exact H1|].
      split; [apply prefix_snoc2|]. split; reflexivity.
  - destruct (bool_decide (pythonStatus st = loading)).
    + split; [repeat split|]. split; [reflexivity|]. split; reflexivity.
    + destruct F0 as (H1 & H2 & H3 & H4).
      rewrite H2, H3, H4. split; [exact H1|].
      split; [reflexivity|]. split; reflexivity.
Qed.

(** Whether the forecast callback stores a series, and which, is decided
    by the inputs alone. *)
Lemma runForecast_stores_or_keeps
    (polyfit : list Qc -> list Qc -> pyres (Qc * Qc)) (st : AppState) :
  (exists series src,
     forall st', sameInputs st st' ->
       forecastData (runForecast polyfit st') = series
       /\ computeSource (runForecast polyfit st') = Some src)
  \/ (forall st', sameInputs st st' ->
        forecastData (runForecast polyfit st') = forecastData st'
        /\ computeSource (runForecast polyfit st') = computeSource st').
Proof.
  destruct (bool_decide (pythonStatus st = ready) && pyodide st) eqn:Hb;
    destruct (forecastScript polyfit (data st) (forecastMetric st)
                (forecastHorizon st) (forecastSensitivity st))
      as [[future|]|] eqn:Hs;
    destruct (last (data st)) as [dl|] eqn:Hl;
    destruct (jsChartData (data st) (forecastMetric st) (forecastHorizon st)
                (forecastSensitivity st)) as [chart|] eqn:Hj;
    destruct (bool_decide (pythonStatus st = loading)) eqn:Hload;
    destruct (bool_decide (pythonStatus st = error)) eqn:Herr.
  all: first
    [ left; do 2 eexists; intros st' HS; unfold sameInputs in HS;
      destruct HS as (E1 & E2 & E3 & E4 & E5 & E6 & _);
      unfold runForecast, runJSForecast;
      repeat (progress
                (cbn [data pythonStatus pyodide forecastHorizon forecastMetric
                        forecastSensitivity addLog];
                 rewrite ?E1, ?E2, ?E3, ?E4, ?E5, ?E6, ?Hb, ?Hs, ?Hl, ?Hload,
                   ?Herr, ?Hj));
      cbn [forecastData computeSource addLog setComputeSource
             setForecastData];
      split; reflexivity
    | right; intros st' HS; unfold sameInputs in HS;
      destruct HS as (E1 & E2 & E3 & E4 & E5 & E6 & _);
      unfold runForecast, runJSForecast;
      repeat (progress
                (cbn [data pythonStatus pyodide forecastHorizon forecastMetric
                        forecastSensitivity addLog];
                 rewrite ?E1, ?E2, ?E3, ?E4, ?E5, ?E6, ?Hb, ?Hs, ?Hl, ?Hload,
                   ?Herr, ?Hj));
      cbn [forecastData computeSource addLog setComputeSource
             setForecastData];
      split; reflexivity ].
Qed.

Lemma runValuation_stores_or_keeps
    (polyfit : list Qc -> list Qc -> pyres (Qc * Qc)) (st : AppState) :
  (exists res src,
     forall st', sameInputs st st' ->
       valuationResult (runValuation polyfit st') = res
       /\ valuationSource (runValuation polyfit st') = Some src)
  \/ (forall st', sameInputs st st' ->
        valuationResult (runValuation polyfit st') = valuationResult st'
        /\ valuationSource (runValuation polyfit st') = valuationSource st').
Proof.
  destruct (bool_decide (pythonStatus st = ready) && pyodide st) eqn:Hb;
    destruct (valuationScript polyfit (data st) (wacc st) (termGrowth st)
                (netDebt st) (shares st)) as [[o|]|] eqn:Hs;
    destruct (jsValuation (data st) (wacc st) (termGrowth st) (netDebt st)
                (shares st)) as [res|] eqn:Hj;
    destruct (bool_decide (pythonStatus st = loading)) eqn:Hload.
  all: first
    [ left; do 2 eexists;
      intros st' HS; unfold sameInputs in HS;
      destruct HS as (E1 & E2 & E3 & _ & _ & _ & E7 & E8 & E9 & E10);
      unfold runValuation, runJSValuation;
      repeat (progress
                (cbn [data pythonStatus pyodide wacc termGrowth netDebt shares
                        addLog];
                 rewrite ?E1, ?E2, ?E3, ?E7, ?E8, ?E9, ?E10, ?Hb, ?Hs, ?Hload,
                   ?Hj));
      cbn [valuationResult valuationSource addLog setValuationSource
             setValuationResult];
      split; reflexivity
    | right;
      intros st' HS; unfold sameInputs in HS;
      destruct HS as (E1 & E2 & E3 & _ & _ & _ & E7 & E8 & E9 & E10);
      unfold runValuation, runJSValuation;
      repeat (progress
                (cbn [data pythonStatus pyodide wacc termGrowth netDebt shares
                        addLog];
                 rewrite ?E1, ?E2, ?E3, ?E7, ?E8, ?E9, ?E10, ?Hb, ?Hs, ?Hload,
                   ?Hj));
      cbn [valuationResult valuationSource addLog setValuationSource
             setValuationResult];
      split; reflexivity ].
Qed.

Lemma sameInputs_refl (st : AppState) : sameInputs st st.
Proof. repeat split. Qed.

(** X5.  The two timer callbacks only ever write their own result and
    append to the log: neither changes the records, the kernel status or
    an input field, the forecast callback leaves the valuation alone and
    the valuation callback the forecast.  Hence running a callback twice
    stores what running it once stores, and the two callbacks store the
    same results in either order. *)
Theorem callbacks_idempotent_and_commute
    (polyfit : list Qc -> list Qc -> pyres (Qc * Qc)) (st : AppState) :
  let f := runForecast polyfit in
  let v := runValuation polyfit in
  (sameInputs st (f st) /\ sameInputs st (v st)
   /\ pythonLogs st `prefix_of` pythonLogs (f st)
   /\ pythonLogs st `prefix_of` pythonLogs (v st))
  /\ (valuationResult (f st) = valuationResult st
      /\ valuationSource (f st) = valuationSource st
      /\ forecastData (v st) = forecastData st
      /\ computeSource (v st) = computeSource st)
  /\ (forecastData (f (f st)) = forecastData (f st)
      /\ computeSource (f (f st)) = computeSource (f st)
      /\ valuationResult (v (v st)) = valuationResult (v st)
      /\ valuationSource (v (v st)) = valuationSource (v st))
  /\ (forecastData (f (v st)) = forecastData (v (f st))
      /\ computeSource (f (v st)) = computeSource (v (f st))
      /\ valuationResult (f (v st)) = valuationResult (v (f st))
      /\ valuationSource (f (v st)) = valuationSource (v (f st))).
Proof.
  intros f v. subst f v.
  destruct (runForecast_frame polyfit st) as (Fi & Fl & Fv & Fs).
  destruct (runValuation_frame polyfit st) as (Vi & Vl & Vd & Vc).
  destruct (runForecast_frame polyfit (runValuation polyfit st))
    as (_ & _ & FVv & FVs).
  destruct (runValuation_frame polyfit (runForecast polyfit st))
    as (_ & _ & VFd & VFc).
  split; [auto|]. split; [auto|].
  pose proof (sameInputs_refl st) as R.
  assert (forall P : AppState -> Prop,
            (forall st', sameInputs st st' -> P st') ->
            P st /\ P (runForecast polyfit st) /\ P (runValuation polyfit st))
    as Hinst by (intros P HP; repeat split; apply HP; assumption).
  split.
  - destruct (runForecast_stores_or_keeps polyfit st)
      as [(s & src & Hst) | Hkeep];
      [apply Hinst in Hst | apply Hinst in Hkeep];
      destruct (runValuation_stores_or_keeps polyfit st)
        as [(r & vsrc & Hvst) | Hvkeep];
      [apply Hinst in Hvst | apply Hinst in Hvkeep
      |apply Hinst in Hvst | apply Hinst in Hvkeep].
    all: repeat match goal with H : _ /\ _ |- _ => destruct H end.
    all: repeat split; congruence.
  - rewrite VFd, VFc, FVv, FVs.
    destruct (runForecast_stores_or_keeps polyfit st)
      as [(s & src & Hst) | Hkeep];
      [apply Hinst in Hst | apply Hinst in Hkeep];
      destruct (runValuation_stores_or_keeps polyfit st)
        as [(r & vsrc & Hvst) | Hvkeep];
      [apply Hinst in Hvst | apply Hinst in Hvkeep
      |apply Hinst in Hvst | apply Hinst in Hvkeep].
    all: repeat match goal with H : _ /\ _ |- _ => destruct H end.
    all: repeat split; congruence.
Qed.

(** ** The two valuation paths on the same trend line *)

Lemma year_of_int (slope intercept xl : Qc) :
  xl = qz (py_int xl) ->
  forall i : nat,
  slope * qz (py_int xl + Z.of_nat i) + intercept
  = slope * (xl + qz (Z.of_nat i)) + intercept.
Proof. intros Hint i. rewrite qz_add, <- Hint. reflexivity. Qed.

(** When [np.polyfit] hands back the coefficients of the least-squares
    block and the last year is a whole number, the script and the
    fallback compute the same seven locals. *)
Lemma dcf_locals_agree
    (polyfit : list Qc -> list Qc -> pyres (Qc * Qc))
    (data : list FinancialRecord) (xs ys : list Qc)
    (xl slope intercept w t nd sh : Qc) :
  py_literal_ok data = true ->
  map (fun d : FinancialRecord => d !! "Year") data = fin_cells xs ->
  map (fun d : FinancialRecord => d !! "Free Cash Flow") data = fin_cells ys ->
  (1 < length data)%nat ->
  last xs = Some xl -> xl = qz (py_int xl) ->
  polyfit xs ys = PyVal (slope, intercept) ->
  fitTrend (length data) (fin_cells xs) (fin_cells ys)
  = (Fin slope, Fin intercept) ->
  0 < sh -> 1 + w / qz 100 <> 0 ->
  exists o,
    valuationScript polyfit data (Fin w) (Fin t) (Fin nd) (Fin sh)
    = PyVal (ValuationSuccess o)
    /\ jsDcf data (Fin w) (Fin t) (Fin nd) (Fin sh)
       = mkDcf (map Fin (future_fcf o)) (Fin (discounted_sum o))
           (Fin (terminal_value o)) (Fin (discounted_tv o))
           (Fin (enterprise_value o)) (Fin (equity_value o))
           (Fin (share_price o)).
Proof.
  intros Hlit Hx Hy Hlen Hlast Hint Hpoly Hfit Hsh HP.
  pose proof (year_of_int slope intercept xl Hint) as Hproj.
  set (g := fun i : nat => slope * (xl + qz (Z.of_nat i)) + intercept).
  set (P := 1 + w / qz 100) in *.
  set (DS := fold_left (fun a i => a + g i / P ^ i) (seq 1 5) 0).
  set (TV := if bool_decide (t / qz 100 < w / qz 100)
             then g 5%nat * (1 + t / qz 100) / (w / qz 100 - t / qz 100)
             else g 5%nat * qz 15).
  exists (mkPyDcf (map g (seq 1 5)) DS TV (TV / P ^ 5) (DS + TV / P ^ 5)
            (DS + TV / P ^ 5 - nd) ((DS + TV / P ^ 5 - nd) / sh)).
  assert (P ^ 5 <> 0) as HP5 by (apply Qcpower_neq_0, HP).
  assert (sh <> 0) as Hsh0 by (apply Qclt_neq_0, Hsh).
  split.
  - unfold valuationScript. rewrite Hlit. cbn [negb py_number py_bind].
    destruct (py_mapM_cells "Year" data xs Hx) as [-> _].
    destruct (py_mapM_cells "Free Cash Flow" data ys Hy) as [_ ->].
    cbn [py_bind].
    assert (length ys = length data) as Hl.
    { rewrite <- (length_map (fun q : Qc => Some (Fin q)) ys), <- Hy.
      apply length_map. }
    rewrite bool_decide_eq_true_2 by lia.
    rewrite Hpoly. cbn [py_bind]. rewrite Hlast. cbn [py_bind]. cbv zeta.
    fold P.
    rewrite (py_discount_fold _ g P (seq 1 5) HP Hproj). cbn [py_bind].
    fold DS.
    assert (default 0 (last (map (fun i : nat =>
               slope * qz (py_int xl + Z.of_nat i) + intercept) (seq 1 5)))
            = g 5%nat) as -> by (cbn [seq map last default]; apply Hproj).
    assert ((if bool_decide (t / qz 100 < w / qz 100)
             then py_div (g 5%nat * (1 + t / qz 100))
                    (w / qz 100 - t / qz 100)
             else PyVal (g 5%nat * qz 15)) = PyVal TV) as ->.
    { subst TV. destruct (bool_decide (t / qz 100 < w / qz 100)) eqn:E;
        [|reflexivity].
      apply py_div_ok, Qclt_minus_neq_0, (bool_decide_eq_true_1 _ E). }
    cbn [py_bind]. rewrite (py_div_ok _ _ HP5). cbn [py_bind].
    rewrite (bool_decide_eq_true_2 _ Hsh). rewrite (py_div_ok _ _ Hsh0).
    cbn [py_bind]. do 2 f_equal. f_equal.
    apply map_ext. exact Hproj.
  - unfold jsDcf. rewrite Hx, Hy, Hfit.
    assert (last (fin_cells xs) = Some (Some (Fin xl))) as ->.
    { change (fin_cells xs) with ((fun q : Qc => Some (Fin q)) <$> xs).
      rewrite fmap_last, Hlast. reflexivity. }
    cbn [mjoin option_join option_bind mbind].
    change (fun i : nat =>
              (Fin slope * (ToNumber (Some (Fin xl)) + num (Z.of_nat i))
               + Fin intercept)%js) with (fun i : nat => Fin (g i)).
    change (ToNumber (map (fun i : nat => Fin (g i)) (seq 1 5) !! 4%nat))
      with (Fin (g 5%nat)).
    rewrite !jpercent_fin, !num_add_fin, qz_1. fold P.
    change (num 0) with (Fin 0).
    rewrite (js_discount_fold g P (seq 1 5) HP). fold DS.
    cbn [jgt]. rewrite jsub_fin, jmul_fin.
    assert ((if bool_decide (t / qz 100 < w / qz 100)
             then (Fin (g 5%nat * (1 + t / qz 100))
                   / Fin (w / qz 100 - t / qz 100))%js
             else (Fin (g 5%nat) * num 15)%js) = Fin TV) as ->.
    { subst TV. destruct (bool_decide (t / qz 100 < w / qz 100)) eqn:E;
        [|reflexivity].
      apply jdiv_fin, Qclt_minus_neq_0, (bool_decide_eq_true_1 _ E). }
    rewrite Math_pow_fin, (jdiv_fin _ _ HP5), jadd_fin, jsub_fin.
    rewrite (jdiv_fin _ _ Hsh0).
    cbn [future_fcf discounted_sum terminal_value discounted_tv
           enterprise_value equity_value share_price].
    rewrite map_map. reflexivity.
Qed.

Lemma wacc_minus_100 (w : Qc) : 1 + w / qz 100 = 0 <-> w = qz (-100).
Proof.
  split.
  - intros H.
    assert (w = (1 + w / qz 100) * qz 100 - qz 100) as ->.
    { apply Qc_this_eq. qc_unfold. change (/ (100 # 1))%Q with (1 # 100)%Q.
      ring. }
    rewrite H. apply Qc_this_eq. reflexivity.
  - intros ->. apply Qc_this_eq. reflexivity.
Qed.

Lemma py_div_zero (a b : Qc) : b = 0 -> py_div a b = PyRaise.
Proof.
  intros H. unfold py_div. destruct (decide (b = 0)); [reflexivity|contradiction].
Qed.

(** X6.  With the kernel ready, at least two records, every cell a finite
    number, every record carrying [Year] and [Free Cash Flow], distinct
    years of which the last is a whole number, finite input fields and
    [shares > 0]: when [np.polyfit] returns the least-squares line,
    [runValuation] stores the very result [runJSValuation] would store.
    It comes from the script for every WACC but -100%; at -100% the
    script divides by zero and the stored result is the fallback's. *)
Theorem valuation_paths_agree
    (polyfit : list Qc -> list Qc -> pyres (Qc * Qc)) (st : AppState)
    (xs ys : list Qc) (xl w t nd sh : Qc) :
  pythonStatus st = ready -> pyodide st = true ->
  py_literal_ok (data st) = true ->
  map (fun d : FinancialRecord => d !! "Year") (data st) = fin_cells xs ->
  map (fun d : FinancialRecord => d !! "Free Cash Flow") (data st)
  = fin_cells ys ->
  (2 <= length (data st))%nat ->
  NoDup xs ->
  last xs = Some xl -> xl = qz (py_int xl) ->
  polyfit xs ys = exact_polyfit xs ys ->
  wacc st = Fin w -> termGrowth st = Fin t -> netDebt st = Fin nd ->
  shares st = Fin sh -> 0 < sh ->
  valuationResult (runValuation polyfit st)
  = valuationResult (runJSValuation st)
  /\ (w <> qz (-100) ->
      valuationSource (runValuation polyfit st) = Some PythonNumPy)
  /\ (w = qz (-100) ->
      valuationSource (runValuation polyfit st) = Some JSFallback).
Proof.
  intros Hready Hpy Hlit Hx Hy Hlen Hnd Hlast Hint Hpoly Hw Ht Hn Hs Hsh.
  assert (length xs = length (data st)) as Lx
    by (rewrite <- (length_map (fun q : Qc => Some (Fin q)) xs), <- Hx;
        apply length_map).
  assert (length ys = length (data st)) as Ly
    by (rewrite <- (length_map (fun q : Qc => Some (Fin q)) ys), <- Hy;
        apply length_map).
  assert (data st <> []) as Hne by (intros E; rewrite E in Hlen; cbn in Hlen; lia).
  assert (forall st', data st' = data st -> wacc st' = wacc st ->
            termGrowth st' = termGrowth st -> netDebt st' = netDebt st ->
            shares st' = shares st ->
            valuationResult (runJSValuation st')
            = valuationResult (runJSValuation st)
            /\ valuationSource (runJSValuation st') = Some JSFallback)
    as Hjs.
  { intros st' E1 E2 E3 E4 E5. unfold runJSValuation.
    rewrite E1, E2, E3, E4, E5. unfold jsValuation.
    rewrite bool_decide_eq_false_2 by exact Hne. split; reflexivity. }
  pose proof (fitTrend_fin xs ys (eq_trans Lx (eq_sym Ly))
                ltac:(lia) Hnd) as Hfit.
  cbn zeta in Hfit. rewrite Lx in Hfit at 1.
  assert (exact_polyfit xs ys
          = PyVal ((qz (Z.of_nat (length xs))
                    * sumQc (zip_with Qcmult xs ys) - sumQc xs * sumQc ys)
                   / olsDen xs,
                   (sumQc ys
                    - (qz (Z.of_nat (length xs))
                       * sumQc (zip_with Qcmult xs ys) - sumQc xs * sumQc ys)
                      / olsDen xs * sumQc xs)
                   / qz (Z.of_nat (length xs)))) as Hex.
  { unfold exact_polyfit.
    rewrite (bool_decide_eq_true_2 _ (eq_trans Lx (eq_sym Ly))).
    rewrite bool_decide_eq_false_2
      by (intros E; rewrite E in Lx; cbn in Lx; lia).
    reflexivity. }
  rewrite Hex in Hpoly.
  destruct (decide (w = qz (-100))) as [-> | Hw100].
  - assert (runValuation polyfit st
            = runJSValuation
                (addLog LogValuationError (addLog LogStartValuation st)))
      as ->.
    { unfold runValuation. rewrite Hready, Hpy, Hw, Ht.
      rewrite bool_decide_eq_true_2 by reflexivity. cbn [andb].
      unfold valuationScript. rewrite Hlit, Hn, Hs.
      cbn [negb py_number py_bind].
      destruct (py_mapM_cells "Year" (data st) xs Hx) as [-> _].
      destruct (py_mapM_cells "Free Cash Flow" (data st) ys Hy) as [_ ->].
      cbn [py_bind]. rewrite bool_decide_eq_true_2 by lia.
      rewrite Hpoly, Hlast. cbn [py_bind seq py_foldM].
      rewrite py_div_zero by (apply Qc_this_eq; reflexivity).
      reflexivity. }
    destruct (Hjs (addLog LogValuationError (addLog LogStartValuation st))
                eq_refl eq_refl eq_refl eq_refl eq_refl) as [E1 E2].
    split; [exact E1|]. split; [intros H; contradiction|intros _; exact E2].
  - assert (1 + w / qz 100 <> 0) as HP
      by (intros H; apply Hw100, wacc_minus_100, H).
    destruct (dcf_locals_agree polyfit (data st) xs ys xl _ _ w t nd sh
                Hlit Hx Hy ltac:(lia) Hlast Hint Hpoly Hfit Hsh HP)
      as (o & Hrun & Hdcf).
    unfold runValuation. rewrite Hready, Hpy, Hw, Ht, Hn, Hs, Hrun.
    rewrite bool_decide_eq_true_2 by reflexivity.
    cbn [andb valuationResult valuationSource addLog setValuationSource
           setValuationResult].
    split; [|split; [reflexivity | intros H; contradiction]].
    unfold runJSValuation, jsValuation.
    rewrite bool_decide_eq_false_2 by exact Hne.
    rewrite Hw, Ht, Hn, Hs, Hdcf. reflexivity.
Qed.

Lemma valuation_paths_agree_witness :
  let st := kernelReady (initialState growthData) in
  let xs := [qz 2020; qz 2021; qz 2022] in
  let ys := [qz 12; qz 13; qz 14] in
  py_literal_ok (data st) = true
  /\ map (fun d : FinancialRecord => d !! "Year") (data st) = fin_cells xs
  /\ map (fun d : FinancialRecord => d !! "Free Cash Flow") (data st)
     = fin_cells ys
  /\ NoDup xs
  /\ qz 2022 = qz (py_int (qz 2022))
  /\ 0 < qz 50
  /\ qz 10 <> qz (-100)
  /\ valuationResult (runValuation exact_polyfit st)
     = valuationResult (runJSValuation st)
  /\ valuationSource (runValuation exact_polyfit st) = Some PythonNumPy.
Proof.
  intros st xs ys.
  assert (py_literal_ok (data st) = true) as Hlit by (vm_compute; reflexivity).
  assert (map (fun d : FinancialRecord => d !! "Year") (data st)
          = fin_cells xs) as Hx by (vm_compute; reflexivity).
  assert (map (fun d : FinancialRecord => d !! "Free Cash Flow") (data st)
          = fin_cells ys) as Hy by (vm_compute; reflexivity).
  assert (NoDup xs) as Hnd
    by (refine (bool_decide_unpack _ _); vm_compute; exact I).
  assert (qz 2022 = qz (py_int (qz 2022))) as Hint
    by (apply Qc_this_eq; vm_compute; reflexivity).
  assert (0 < qz 50) as Hsh
    by (apply Qclt_by_compute; vm_compute; reflexivity).
  assert (qz 10 <> qz (-100)) as Hw by by_compute.
  destruct (valuation_paths_agree exact_polyfit st xs ys (qz 2022) (qz 10)
              (qd 5 2) (qz 150) (qz 50) eq_refl eq_refl Hlit Hx Hy
              ltac:(cbn; lia) Hnd eq_refl Hint eq_refl eq_refl eq_refl
              eq_refl eq_refl Hsh) as (H1 & H2 & _).
  exact (conj Hlit (conj Hx (conj Hy (conj Hnd (conj Hint (conj Hsh
          (conj Hw (conj H1 (H2 Hw))))))))).
Defined.

(** ** The two forecast paths on the same trend line *)

Lemma py_int_bounds (q : Qc) :
  (inject_Z (py_int q) - 1 < this q /\ this q < inject_Z (py_int q) + 1)%Q
  /\ ((0 < py_int q)%Z -> (inject_Z (py_int q) <= this q)%Q)
  /\ ((py_int q < 0)%Z -> (this q <= inject_Z (py_int q))%Q).
Proof.
  unfold py_int. destruct q as [[n d] Hc]. cbn [this Qnum Qden].
  pose proof (Z.quot_rem' n (Z.pos d)) as Hqr.
  pose proof (Z.rem_bound_abs n (Z.pos d) ltac:(lia)) as Hb.
  pose proof (Z.rem_sign_mul n (Z.pos d) ltac:(lia)) as Hs.
  revert Hqr Hb Hs. generalize (n ÷ Z.pos d)%Z (Z.rem n (Z.pos d)).
  intros k r Hqr Hb Hs. subst n.
  unfold Qlt, Qle, Qminus, Qplus, Qopp, inject_Z. cbn [Qnum Qden].
  assert (0 < Z.pos d)%Z as HD by lia. revert Hb Hs HD.
  generalize (Z.pos d). intros D Hb Hs HD.
  split; [split; nia|]. split; intros Hk.
  - destruct (Z_lt_le_dec r 0) as [Hr|Hr]; [|nia].
    assert (0 < D * k + r)%Z by nia. nia.
  - destruct (Z_lt_le_dec 0 r) as [Hr|Hr]; [|nia].
    assert (D * k + r < 0)%Z by nia. nia.
Qed.

Lemma py_int_round_half_up (q : Qc) :
  (py_int q - 1 <= round_half_up q <= py_int q + 1)%Z
  /\ ((0 < py_int q)%Z -> (py_int q <= round_half_up q)%Z)
  /\ ((py_int q < 0)%Z -> (round_half_up q <= py_int q)%Z).
Proof.
  destruct (py_int_bounds q) as ([I1 I2] & I3 & I4).
  destruct (round_half_up_bounds q) as [R1 R2].
  revert I1 I2 I3 I4 R1 R2. generalize (py_int q) (round_half_up q).
  intros a b I1 I2 I3 I4 R1 R2.
  assert (inject_Z (a - 1) < inject_Z (b + 1))%Q as H1.
  { replace (a - 1)%Z with (a + -1)%Z by lia.
    rewrite !inject_Z_plus. change (inject_Z (-1)) with (-1 # 1)%Q.
    change (inject_Z 1) with 1%Q. Lqa.lra. }
  assert (inject_Z b < inject_Z (a + 2))%Q as H2.
  { rewrite !inject_Z_plus. change (inject_Z 2) with 2%Q. Lqa.lra. }
  rewrite <- Zlt_Qlt in H1, H2.
  split; [lia|]. split.
  - intros Ha. specialize (I3 Ha).
    assert (inject_Z a < inject_Z (b + 1))%Q as H3.
    { rewrite !inject_Z_plus. change (inject_Z 1) with 1%Q. Lqa.lra. }
    rewrite <- Zlt_Qlt in H3. lia.
  - intros Ha. specialize (I4 Ha).
    assert (inject_Z b < inject_Z (a + 1))%Q as H3.
    { rewrite !inject_Z_plus. change (inject_Z 1) with 1%Q. Lqa.lra. }
    rewrite <- Zlt_Qlt in H3. lia.
Qed.

Lemma withinOne_int_round (q : Qc) :
  withinOne (num (py_int q)) (Math_round (Fin q)).
Proof.
  exists (py_int q), (round_half_up q).
  split; [reflexivity|]. split; [reflexivity|].
  apply py_int_round_half_up.
Qed.

Lemma filter_all {A : Type} (P : A -> Prop) `{forall a, Decision (P a)}
    (l : list A) :
  Forall P l -> filter P l = l.
Proof.
  induction 1 as [|a l Ha _ IH]; [reflexivity|].
  rewrite filter_cons_True by exact Ha. f_equal. exact IH.
Qed.

Lemma cells_carry (k : string) (data : list FinancialRecord) (ys : list Qc) :
  map (fun d : FinancialRecord => d !! k) data = fin_cells ys ->
  Forall (fun d : FinancialRecord => is_Some (d !! k)) data.
Proof.
  revert ys. induction data as [|d data IH]; intros [|y ys] H; cbn [map] in H;
    try discriminate; constructor.
  - injection H as -> _. eexists. reflexivity.
  - injection H as _ H. exact (IH ys H).
Qed.

(** One row of the script against one turn of the loop. *)
Lemma scriptRow_near_pushed (slope intercept xl s : Qc) (h i : nat) :
  xl = qz (py_int xl) -> (i < h)%nat ->
  let y := (py_int xl + Z.of_nat (1 + i))%Z in
  agreeWithinOne
    (scriptRow (s / qz 100) h i y (slope * qz y + intercept))
    (pushed (forecastBand (Fin slope) (Fin intercept) (Some (Fin xl)) h
               (Fin s) (1 + i))).
Proof.
  intros Hint Hi y. rewrite forecastBand_fin by lia. subst y.
  unfold scriptRow, agreeWithinOne.
  cbn [pushed b_year b_val b_high b_low fYear fForecast fHigh fLow].
  rewrite (year_of_int slope intercept xl Hint).
  replace (Z.of_nat i + 1)%Z with (Z.of_nat (1 + i)) by lia.
  split; [|split; [|split]]; try apply withinOne_int_round.
  unfold num. rewrite qz_add, <- Hint. reflexivity.
Qed.

Lemma forecast_futures_agree
    (polyfit : list Qc -> list Qc -> pyres (Qc * Qc))
    (data : list FinancialRecord) (metric : string) (h : nat)
    (xs ys : list Qc) (xl slope intercept s : Qc) :
  py_literal_ok data = true ->
  map (fun d : FinancialRecord => d !! "Year") data = fin_cells xs ->
  map (fun d : FinancialRecord => d !! metric) data = fin_cells ys ->
  (1 < length data)%nat ->
  last xs = Some xl -> xl = qz (py_int xl) ->
  polyfit xs ys = PyVal (slope, intercept) ->
  fitTrend (length data) (fin_cells xs) (fin_cells ys)
  = (Fin slope, Fin intercept) ->
  exists future,
    forecastScript polyfit data metric h (Fin s)
    = PyVal (ForecastSuccess future)
    /\ Forall2 agreeWithinOne future (jsFuturePoints data metric h (Fin s)).
Proof.
  intros Hlit Hx Hy Hlen Hlast Hint Hpoly Hfit.
  assert (length ys = length data) as Ly
    by (rewrite <- (length_map (fun q : Qc => Some (Fin q)) ys), <- Hy;
        apply length_map).
  eexists. split.
  - unfold forecastScript. rewrite Hlit. cbn [negb py_number py_bind].
    destruct (py_mapM_cells "Year" data xs Hx) as [-> _]. cbn [py_bind].
    rewrite (filter_all _ data (cells_carry metric data ys Hy)).
    destruct (py_mapM_cells metric data ys Hy) as [-> _]. cbn [py_bind].
    rewrite bool_decide_eq_true_2 by lia.
    rewrite Hpoly. cbn [py_bind]. rewrite Hlast. cbn [py_bind].
    reflexivity.
  - unfold jsFuturePoints, jsBands. rewrite Hx, Hy, Hfit.
    assert (last (fin_cells xs) = Some (Some (Fin xl))) as ->.
    { change (fin_cells xs) with ((fun q : Qc => Some (Fin q)) <$> xs).
      rewrite fmap_last, Hlast. reflexivity. }
    cbn [mjoin option_join option_bind mbind].
    rewrite !length_map, length_seq.
    apply Forall2_same_length_lookup_2.
    + rewrite length_imap, length_zip_with, !length_map, length_seq. lia.
    + intros i p q Hp Hq.
      assert (i < h)%nat as Hi.
      { apply lookup_lt_Some in Hq. rewrite !length_map, length_seq in Hq.
        exact Hq. }
      change (map ?f ?l) with (f <$> l) in Hp, Hq.
      rewrite !list_lookup_fmap, lookup_seq_lt in Hq by exact Hi.
      injection Hq as <-.
      rewrite list_lookup_imap in Hp.
      rewrite lookup_zip_with, !list_lookup_fmap, lookup_seq_lt in Hp
        by exact Hi.
      injection Hp as <-.
      apply scriptRow_near_pushed; assumption.
Qed.

(** The closed-form line is the line of the least-squares block. *)
Lemma exact_polyfit_fitTrend (xs ys : list Qc) :
  length xs = length ys -> (2 <= length xs)%nat -> NoDup xs ->
  exists slope intercept,
    exact_polyfit xs ys = PyVal (slope, intercept)
    /\ fitTrend (length xs) (fin_cells xs) (fin_cells ys)
       = (Fin slope, Fin intercept).
Proof.
  intros Hlen H2 Hnd. do 2 eexists. split.
  - unfold exact_polyfit. rewrite (bool_decide_eq_true_2 _ Hlen).
    rewrite bool_decide_eq_false_2
      by (intros E; rewrite E in H2; cbn in H2; lia).
    reflexivity.
  - exact (fitTrend_fin xs ys Hlen H2 Hnd).
Qed.

(** X7.  With the kernel ready, at least two records, every cell a finite
    number, every record carrying [Year] and the metric, distinct years of
    which the last is a whole number, and a finite sensitivity: when
    [np.polyfit] returns the least-squares line, the series [runForecast]
    stores and the one [runJSForecast] would store share the historical
    rows and the junction row, and their projected rows agree year by year
    up to truncation against rounding: each of [Forecast], [High] and
    [Low] is an integer on both sides, the fallback's equal to the
    script's or one unit further from zero. *)
Theorem forecast_paths_within_one
    (polyfit : list Qc -> list Qc -> pyres (Qc * Qc)) (st : AppState)
    (xs ys : list Qc) (xl s : Qc) :
  pythonStatus st = ready -> pyodide st = true ->
  py_literal_ok (data st) = true ->
  map (fun d : FinancialRecord => d !! "Year") (data st) = fin_cells xs ->
  map (fun d : FinancialRecord => d !! forecastMetric st) (data st)
  = fin_cells ys ->
  (2 <= length (data st))%nat ->
  NoDup xs ->
  last xs = Some xl -> xl = qz (py_int xl) ->
  polyfit xs ys = exact_polyfit xs ys ->
  forecastSensitivity st = Fin s ->
  exists dl fpy fjs,
    last (data st) = Some dl
    /\ computeSource (runForecast polyfit st) = Some PythonNumPy
    /\ forecastData (runForecast polyfit st)
       = mergeSeries (data st) (forecastMetric st) (dl !! "Year")
           (dl !! forecastMetric st) fpy
    /\ forecastData (runJSForecast st)
       = mergeSeries (data st) (forecastMetric st) (dl !! "Year")
           (dl !! forecastMetric st) fjs
    /\ Forall2 agreeWithinOne fpy fjs.
Proof.
  intros Hready Hpy Hlit Hx Hy Hlen Hnd Hlast Hint Hpoly Hs.
  assert (length xs = length (data st)) as Lx
    by (rewrite <- (length_map (fun q : Qc => Some (Fin q)) xs), <- Hx;
        apply length_map).
  assert (length ys = length (data st)) as Ly
    by (rewrite <- (length_map (fun q : Qc => Some (Fin q)) ys), <- Hy;
        apply length_map).
  destruct (exact_polyfit_fitTrend xs ys (eq_trans Lx (eq_sym Ly))
              ltac:(lia) Hnd) as (slope & intercept & Hex & Hfit).
  rewrite Hex in Hpoly. rewrite Lx in Hfit.
  destruct (forecast_futures_agree polyfit (data st) (forecastMetric st)
              (forecastHorizon st) xs ys xl slope intercept s Hlit Hx Hy
              ltac:(lia) Hlast Hint Hpoly Hfit) as (fpy & Hrun & Hall).
  destruct (last (data st)) as [dl|] eqn:Hdl.
  2:{ apply last_None in Hdl. rewrite Hdl in Hlen. cbn in Hlen. lia. }
  exists dl, fpy,
    (jsFuturePoints (data st) (forecastMetric st) (forecastHorizon st)
       (Fin s)).
  split; [reflexivity|].
  assert (runForecast polyfit st
          = addLog LogForecastDone
              (setComputeSource PythonNumPy
                 (setForecastData
                    (mergeSeries (data st) (forecastMetric st) (dl !! "Year")
                       (dl !! forecastMetric st) fpy)
                    (addLog (LogStartForecast (forecastMetric st)
                               (forecastSensitivity st)) st)))) as ->.
  { unfold runForecast. rewrite Hready, Hpy.
    rewrite bool_decide_eq_true_2 by reflexivity. cbn [andb].
    rewrite Hs, Hrun, Hdl. reflexivity. }
  split; [reflexivity|]. split; [reflexivity|]. split; [|exact Hall].
  unfold runJSForecast, jsChartData. rewrite Hdl, Hs.
  cbn [forecastData setComputeSource setForecastData]. f_equal.
  change (map ?f (data st)) with (f <$> data st).
  rewrite fmap_last, Hdl. reflexivity.
Qed.

Lemma forecast_paths_within_one_witness :
  let st := kernelReady (initialState growthData) in
  let xs := [qz 2020; qz 2021; qz 2022] in
  let ys := [qz 100; qz 110; qz 120] in
  py_literal_ok (data st) = true
  /\ map (fun d : FinancialRecord => d !! "Year") (data st) = fin_cells xs
  /\ map (fun d : FinancialRecord => d !! forecastMetric st) (data st)
     = fin_cells ys
  /\ NoDup xs
  /\ qz 2022 = qz (py_int (qz 2022))
  /\ exists dl fpy fjs,
       last (data st) = Some dl
       /\ computeSource (runForecast exact_polyfit st) = Some PythonNumPy
       /\ forecastData (runForecast exact_polyfit st)
          = mergeSeries (data st) (forecastMetric st) (dl !! "Year")
              (dl !! forecastMetric st) fpy
       /\ forecastData (runJSForecast st)
          = mergeSeries (data st) (forecastMetric st) (dl !! "Year")
              (dl !! forecastMetric st) fjs
       /\ Forall2 agreeWithinOne fpy fjs.
Proof.
  intros st xs ys.
  assert (py_literal_ok (data st) = true) as Hlit by (vm_compute; reflexivity).
  assert (map (fun d : FinancialRecord => d !! "Year") (data st)
          = fin_cells xs) as Hx by (vm_compute; reflexivity).
  assert (map (fun d : FinancialRecord => d !! forecastMetric st) (data st)
          = fin_cells ys) as Hy by (vm_compute; reflexivity).
  assert (NoDup xs) as Hnd
    by (refine (bool_decide_unpack _ _); vm_compute; exact I).
  assert (qz 2022 = qz (py_int (qz 2022))) as Hint
    by (apply Qc_this_eq; vm_compute; reflexivity).
  exact (conj Hlit (conj Hx (conj Hy (conj Hnd (conj Hint
          (forecast_paths_within_one exact_polyfit st xs ys (qz 2022)
             (qz 10) eq_refl eq_refl Hlit Hx Hy ltac:(cbn; lia) Hnd eq_refl
             Hint eq_refl eq_refl)))))).
Defined.

(** ** What an upload logs *)

Lemma notes_app (a b : list LogMsg) : notes (a ++ b) = notes a ++ notes b.
Proof. apply List.filter_app. Qed.

Lemma notes_warn (n : nat) (cols : list string) :
  notes (map (LogIntegrityWarn n) cols) = [].
Proof. induction cols as [|c cols IH]; [reflexivity | exact IH]. Qed.

Lemma scanRow_notes (s : ScanState) (r : FinancialRecord) (idx : nat) :
  notes (scanLogs (scanRow s r idx))
  = notes (scanLogs s)
      ++ (if unusualYear r then [LogIntegrityNote (r !! "Year")] else []).
Proof.
  unfold scanRow.
  destruct (scanCells_spec r idx checkCols s) as (_ & _ & H3).
  cbn zeta in H3. fold (unusualYear r).
  destruct (unusualYear r); cbn [scanLogs].
  - rewrite notes_app, H3, notes_app, notes_warn, app_nil_r. reflexivity.
  - rewrite H3, notes_app, notes_warn, !app_nil_r. reflexivity.
Qed.

Lemma scanFrom_notes (parsed : list FinancialRecord) :
  forall (i : nat) (s : ScanState),
  notes (scanLogs (reduce_from scanRow i parsed s))
  = notes (scanLogs s)
      ++ map (fun r : FinancialRecord => LogIntegrityNote (r !! "Year"))
           (List.filter unusualYear parsed).
Proof.
  induction parsed as [|r rest IH]; intros i s;
    cbn [reduce_from List.filter].
  - cbn [map]. rewrite app_nil_r. reflexivity.
  - rewrite IH, scanRow_notes, <- app_assoc.
    destruct (unusualYear r); reflexivity.
Qed.

Lemma unusualYear_number (r : FinancialRecord) :
  unusualYear r = true ->
  exists y, r !! "Year" = Some y /\ isNaN y = false
            /\ (jlt y (num 2000) = true \/ jgt y (num 2030) = true).
Proof.
  unfold unusualYear. destruct (r !! "Year") as [y|]; [|discriminate].
  cbn [ToNumber default]. intros H. exists y. split; [reflexivity|].
  split; [destruct y; try reflexivity; discriminate H|].
  apply orb_prop in H. exact H.
Qed.

Lemma addLogs_spec (logs : list LogMsg) :
  forall st0 : AppState,
  let st1 := fold_left (fun a m => addLog m a) logs st0 in
  data st1 = data st0
  /\ forecastData st1 = forecastData st0
  /\ valuationResult st1 = valuationResult st0
  /\ pythonLogs st1 = pythonLogs st0 ++ logs.
Proof.
  induction logs as [|m logs IH]; intros st0; cbn [fold_left].
  - rewrite app_nil_r. repeat split.
  - destruct (IH (addLog m st0)) as (H1 & H2 & H3 & H4). cbn zeta.
    rewrite H1, H2, H3, H4. cbn [data forecastData valuationResult pythonLogs
                                   addLog].
    rewrite <- app_assoc. repeat split.
Qed.

(** X8.  An upload that parses to no record changes nothing and logs
    nothing.  Otherwise the records are replaced and the console gains a
    separator, the start line, the lines of the scan, a verdict, the
    record count and a separator.  The verdict is "EXCELLENT" exactly
    when no required cell is absent or [NaN], and otherwise the warning
    with the score [100 - 5k]; the year check has no part in it.  The
    notes of the scan are the years below 2000 or above 2030, in row
    order; a row without a year, or whose year is [NaN], is never
    noted.  The stored series and valuation are left as they were. *)
Theorem upload_log_and_verdict
    (fileName : string) (parsed : list FinancialRecord) (st : AppState) :
  let st' := handleFileUpload fileName parsed st in
  let k := length (nullCells parsed) in
  (parsed = [] -> st' = st)
  /\ (parsed <> [] ->
      data st' = parsed
      /\ forecastData st' = forecastData st
      /\ valuationResult st' = valuationResult st
      /\ exists verdict,
           pythonLogs st'
           = pythonLogs st ++ [LogSeparator; LogScanStart fileName]
               ++ scanLogs (scanRecords parsed)
               ++ [verdict; LogIndexed (length parsed); LogSeparator]
           /\ (verdict = LogQualityExcellent <-> nullCells parsed = [])
           /\ (nullCells parsed <> [] ->
               verdict = LogQualityWarning (100 - 5 * Z.of_nat k)))
  /\ notes (scanLogs (scanRecords parsed))
     = map (fun r : FinancialRecord => LogIntegrityNote (r !! "Year"))
         (List.filter unusualYear parsed)
  /\ Forall (fun r : FinancialRecord =>
               exists y, r !! "Year" = Some y /\ isNaN y = false)
       (List.filter unusualYear parsed).
Proof.
  intros st' k. subst st'. unfold handleFileUpload.
  split; [intros ->; reflexivity|]. split; [|split].
  - intros Hne.
    rewrite bool_decide_eq_true_2
      by (destruct parsed; [contradiction | cbn; lia]).
    destruct (scanFrom_spec parsed 0 (mkScan 100 0 [])) as (Hscore & _).
    cbn zeta in Hscore. cbn [integrityScore] in Hscore.
    fold (reduce scanRow parsed (mkScan 100 0 [])) in Hscore.
    fold (scanRecords parsed) in Hscore. fold (nullCells parsed) in Hscore.
    destruct (addLogs_spec (scanLogs (scanRecords parsed))
                (addLog (LogScanStart fileName)
                   (addLog LogSeparator (setData parsed st))))
      as (H1 & H2 & H3 & H4).
    cbn zeta in H1, H2, H3, H4.
    cbn [data forecastData valuationResult pythonLogs addLog setData]
      in H1, H2, H3, H4.
    assert (nullCells parsed = [] <-> integrityScore (scanRecords parsed)
                                      = 100%Z) as Hiff.
    { rewrite Hscore. destruct (nullCells parsed); cbn [length]; split;
        intros H; try reflexivity; try discriminate; lia. }
    destruct (bool_decide (integrityScore (scanRecords parsed) = 100%Z))
      eqn:E;
      cbn [data forecastData valuationResult pythonLogs addLog];
      rewrite H1, H2, H3, H4;
      (split; [reflexivity|]); (split; [reflexivity|]);
      (split; [reflexivity|]); eexists;
      (split; [rewrite <- !app_assoc; reflexivity|]).
    + apply bool_decide_eq_true_1 in E. apply Hiff in E.
      split; [split; [intros _; exact E | reflexivity]|].
      intros H; contradiction.
    + apply bool_decide_eq_false_1 in E.
      split; [split; [discriminate | intros H; apply Hiff in H;
                                      contradiction]|].
      intros _. rewrite Hscore. reflexivity.
  - exact (scanFrom_notes parsed 0 (mkScan 100 0 [])).
  - apply Forall_forall. intros r Hr. apply list_elem_of_In in Hr.
    apply List.filter_In in Hr as [_ Hr].
    destruct (unusualYear_number r Hr) as (y & Hy & Hn & _). eauto.
Qed.

(** ** The commentary on a stored series *)

Lemma filter_historical_future (future : list FuturePoint) :
  filter (fun d => is_Some (Historical d)) (map futureChartPoint future) = [].
Proof.
  induction future as [|p future IH]; [reflexivity|].
  cbn [map]. rewrite filter_cons_False; [exact IH|].
  cbn [futureChartPoint Historical]. intros [x Hx]. discriminate Hx.
Qed.

Lemma filter_forecast_future (future : list FuturePoint) :
  filter (fun d => is_Some (Forecast d)) (map futureChartPoint future)
  = map futureChartPoint future.
Proof.
  apply filter_all, Forall_forall. intros c Hc.
  apply list_elem_of_fmap in Hc as (p & -> & _). eexists. reflexivity.
Qed.

Lemma filter_forecast_historical (metric : string)
    (data : list FinancialRecord) :
  filter (fun d => is_Some (Forecast d)) (map (historicalPoint metric) data)
  = [].
Proof.
  induction data as [|d data IH]; [reflexivity|].
  cbn [map]. rewrite filter_cons_False; [exact IH|].
  cbn [historicalPoint Forecast]. intros [x Hx]. discriminate Hx.
Qed.

Lemma last_app_cons {A : Type} (l l' : list A) (x : A) :
  last l' = Some x -> last (l ++ l') = Some x.
Proof.
  intros H. destruct l' as [|y l'] using rev_ind; [discriminate H|].
  rewrite app_assoc, last_snoc. rewrite last_snoc in H. exact H.
Qed.

(** On a merged series with at least one projected row and a last record
    that carries the metric, the commentary compares the last record's
    value with the last projected value. *)
Lemma insight_on_merge (pow : float -> float -> float)
    (metric label : string) (data : list FinancialRecord)
    (lastYear : jsval) (v : jsnum) (future : list FuturePoint)
    (p : FuturePoint) (horizon : nat) :
  last future = Some p ->
  let c := cagrPercent pow v (fForecast p) horizon in
  StrategicInsight pow label
    (mergeSeries data metric lastYear (Some v) future) horizon
  = Commentary label (strengthOf c) (directionOf c) c horizon (fForecast p).
Proof.
  intros Hp c. unfold StrategicInsight.
  rewrite bool_decide_eq_false_2.
  2:{ rewrite mergeSeries_length. destruct future; [discriminate Hp|].
      cbn [length]. lia. }
  unfold mergeSeries. rewrite !filter_app.
  rewrite filter_historical_future, filter_forecast_historical,
    filter_forecast_future, app_nil_r.
  rewrite (filter_cons_True (fun d => is_Some (Historical d)))
    by (eexists; reflexivity).
  rewrite (filter_cons_True (fun d => is_Some (Forecast d)))
    by (eexists; reflexivity).
  rewrite !filter_nil, last_snoc, app_nil_l.
  rewrite (last_app_cons [junctionPoint lastYear (Some v)]
             (map futureChartPoint future) (futureChartPoint p)).
  2:{ change (map ?f future) with (f <$> future).
      rewrite fmap_last, Hp. reflexivity. }
  reflexivity.
Qed.

(** When no record carries the metric there is no last historical
    value. *)
Lemma insight_on_merge_none (pow : float -> float -> float)
    (metric label : string)
    (data : list FinancialRecord) (lastYear : jsval)
    (future : list FuturePoint) (horizon : nat) :
  data <> [] ->
  Forall (fun d : FinancialRecord => d !! metric = None) data ->
  StrategicInsight pow label
    (mergeSeries data metric lastYear None future) horizon
  = InitializationRequired.
Proof.
  intros Hne Hall. unfold StrategicInsight.
  rewrite bool_decide_eq_false_2.
  2:{ rewrite mergeSeries_length. destruct data; [contradiction|].
      cbn [length]. lia. }
  unfold mergeSeries. rewrite !filter_app.
  assert (filter (fun d => is_Some (Historical d))
            (map (historicalPoint metric) data) = []) as ->.
  { clear Hne. induction Hall as [|d data Hd _ IH]; [reflexivity|].
    cbn [map]. rewrite filter_cons_False; [exact IH|].
    cbn [historicalPoint Historical]. rewrite Hd. intros [x Hx].
    discriminate Hx. }
  rewrite filter_historical_future.
  rewrite (filter_cons_False (fun d => is_Some (Historical d)))
    by (intros [x Hx]; discriminate Hx).
  reflexivity.
Qed.

(** X9.  On the series either path stores for a horizon of at least one
    year, the commentary never reads "Insufficient data".  When the last
    record carries the metric, it is the growth commentary, computed from
    that record's value as start and the [Forecast] of the last row of the
    series as end; when no record carries the metric (only the fallback
    stores a series then), it reads "Model initialization required". *)
Theorem insight_on_stored_series
    (polyfit : list Qc -> list Qc -> pyres (Qc * Qc))
    (Math_pow_double : float -> float -> float) (st : AppState)
    (series : list ChartPoint) (label : string) :
  jsChartData (data st) (forecastMetric st) (forecastHorizon st)
    (forecastSensitivity st) = Some series
  \/ (pythonStatus st = ready /\ pyodide st = true
      /\ (exists future,
            forecastScript polyfit (data st) (forecastMetric st)
              (forecastHorizon st) (forecastSensitivity st)
            = PyVal (ForecastSuccess future))
      /\ series = forecastData (runForecast polyfit st)) ->
  (1 <= forecastHorizon st)%nat ->
  let h := forecastHorizon st in
  StrategicInsight Math_pow_double label series h <> InsufficientData
  /\ exists dl,
       last (data st) = Some dl
       /\ (forall v, dl !! forecastMetric st = Some v ->
           exists fp e,
             last series = Some fp /\ Forecast fp = Some e
             /\ let c := cagrPercent Math_pow_double v e h in
                StrategicInsight Math_pow_double label series h
                = Commentary label (strengthOf c) (directionOf c) c h e)
       /\ (Forall (fun d : FinancialRecord => d !! forecastMetric st = None)
             (data st) ->
           StrategicInsight Math_pow_double label series h = InitializationRequired).
Proof.
  intros Hstored Hh h.
  destruct (stored_series_is_merge polyfit st series Hstored)
    as (dl & future & Hdl & -> & Hlen & _).
  assert (data st <> []) as Hne by (intros E; rewrite E in Hdl; discriminate).
  assert (exists p, last future = Some p) as [p Hp].
  { destruct (last future) as [p|] eqn:E; [eauto|].
    apply last_None in E. rewrite E in Hlen. cbn in Hlen. lia. }
  assert (forall v, dl !! forecastMetric st = Some v ->
          let c := cagrPercent Math_pow_double v (fForecast p) h in
          StrategicInsight Math_pow_double label
            (mergeSeries (data st) (forecastMetric st) (dl !! "Year")
               (dl !! forecastMetric st) future) h
          = Commentary label (strengthOf c) (directionOf c) c h
              (fForecast p)) as Hsome.
  { intros v Hv. rewrite Hv. apply insight_on_merge, Hp. }
  assert (Forall (fun d : FinancialRecord => d !! forecastMetric st = None)
            (data st) ->
          StrategicInsight Math_pow_double label
            (mergeSeries (data st) (forecastMetric st) (dl !! "Year")
               (dl !! forecastMetric st) future) h
          = InitializationRequired) as Hnone.
  { intros Hall.
    assert (dl !! forecastMetric st = None) as ->.
    { rewrite Forall_forall in Hall. apply Hall.
      apply last_Some_elem_of, Hdl. }
    apply insight_on_merge_none; assumption. }
  split.
  - unfold StrategicInsight. rewrite bool_decide_eq_false_2.
    2:{ rewrite mergeSeries_length. destruct (data st); [contradiction|].
        cbn [length]. lia. }
    destruct (last (filter _ _)); [|discriminate].
    destruct (last (filter _ _)); discriminate.
  - exists dl. split; [exact Hdl|]. split; [|exact Hnone].
    intros v Hv. exists (futureChartPoint p), (fForecast p).
    split; [|split; [reflexivity | exact (Hsome v Hv)]].
    unfold mergeSeries. rewrite app_assoc. apply last_app_cons.
    change (map ?f future) with (f <$> future).
    rewrite fmap_last, Hp. reflexivity.
Qed.

Lemma insight_on_stored_series_witness :
  let st := setForecastHorizon 1 (initialState growthData) in
  let series := forecastData (runJSForecast st) in
  let c := cagrPercent unitPow (num 120) (num 130) 1 in
  jsChartData (data st) (forecastMetric st) (forecastHorizon st)
    (forecastSensitivity st) = Some series
  /\ (1 <= forecastHorizon st)%nat
  /\ c = ((130 / 120 - 1) * 100)%float
  /\ strengthOf c = moderate
  /\ directionOf c = expansion
  /\ StrategicInsight unitPow "Revenue" series 1
     = Commentary "Revenue" (strengthOf c) (directionOf c) c 1 (num 130).
Proof.
  intros st series c.
  assert (jsChartData (data st) (forecastMetric st) (forecastHorizon st)
            (forecastSensitivity st) = Some series) as Hjs
    by (vm_compute; reflexivity).
  assert (1 <= forecastHorizon st)%nat as Hh by (cbn; lia).
  destruct (insight_on_stored_series exact_polyfit unitPow st series "Revenue"
              (or_introl Hjs) Hh) as (_ & dl & Hdl & Hsome & _).
  assert (dl = row 2022 120 18 14) as -> by (cbn in Hdl; congruence).
  destruct (Hsome (num 120) ltac:(by_compute)) as (fp & e & Hfp & He & Hc).
  assert (last series
          = Some (mkChart (Some (num 2023)) None (Some (num 130))
                    (Some (num 143)) (Some (num 117))
                    (Some (Some (num 117), Some (num 143))))) as Hl
    by by_compute.
  rewrite Hl in Hfp. injection Hfp as <-. cbn [Forecast] in He.
  injection He as <-.
  split; [exact Hjs|]. split; [exact Hh|].
  split; [vm_compute; reflexivity|].
  split; [vm_compute; reflexivity|]. split; [vm_compute; reflexivity|].
  exact Hc.
Defined.

(** ** The sample records *)

Lemma round_in_range (q : Qc) (lo hi : Z) :
  qz lo <= q -> q < qz hi + qd 1 2 ->
  (lo <= round_half_up q <= hi)%Z.
Proof.
  intros Hlo Hhi. destruct (round_half_up_bounds q) as [R1 R2].
  revert R1 R2 Hlo Hhi. generalize (round_half_up q). intros z.
  qc_unfold. unfold inject_Z. intros R1 R2 Hlo Hhi.
  change (this (qd 1 2)) with (1 # 2)%Q in *.
  assert ((lo # 1) < (z + 1 # 1))%Q as H1.
  { assert ((z + 1 # 1) == (z # 1) + 1)%Q as ->
      by (unfold Qeq, Qplus; cbn; lia).
    Lqa.lra. }
  assert ((z # 1) < (hi + 1 # 1))%Q as H2.
  { assert ((hi + 1 # 1) == (hi # 1) + 1)%Q as ->
      by (unfold Qeq, Qplus; cbn; lia).
    Lqa.lra. }
  unfold Qlt in H1, H2. cbn in H1, H2. lia.
Qed.

Lemma qz_mul (a b : Z) : qz (a * b) = qz a * qz b.
Proof. apply Qc_this_eq. qc_unfold. unfold Qeq, Qmult. cbn. lia. Qed.

Lemma sample_revenue_range (r : Qc) (i : nat) :
  0 <= r -> r < 1 ->
  let q := qz 100000 * (qz 1 + qz (Z.of_nat i) * qd 1 10 + r * qd 5 100) in
  (100000 + 10000 * Z.of_nat i <= round_half_up q
   <= 105000 + 10000 * Z.of_nat i)%Z.
Proof.
  intros H0 H1 q. apply round_in_range; subst q;
    rewrite qz_add, qz_mul; revert H0 H1; generalize (qz (Z.of_nat i));
    intros I; qc_unfold; intros H0 H1;
    change (this (qd 1 2)) with (1 # 2)%Q; Lqa.lra.
Qed.

(** A record of the five columns. *)
Lemma sampleRow_spec (random : nat -> Qc) (i : nat) :
  0 <= random (2 * i)%nat -> random (2 * i)%nat < 1 ->
  exists z : Z,
    (100000 + 10000 * Z.of_nat i <= z <= 105000 + 10000 * Z.of_nat i)%Z
    /\ sampleRow random i
       = {[ "Year" := num (2020 + Z.of_nat i);
            "Revenue" := num z;
            "Net Income" := num (round_half_up (qz z * qd 15 100));
            "Free Cash Flow" := num (round_half_up (qz z * qd 12 100));
            "Budget" :=
              num (round_half_up
                     (qz z * (if bool_decide (qd 1 2 < random (2 * i + 1)%nat)
                              then qd 95 100 else qd 105 100))) ]}.
Proof.
  intros H0 H1. eexists. split; [exact (sample_revenue_range _ i H0 H1)|].
  unfold sampleRow. cbn [jgt]. unfold num at 1 2.
  rewrite jadd_fin, <- qz_add.
  destruct (bool_decide (qd 1 2 < random (2 * i + 1)%nat)); reflexivity.
Qed.

Lemma record5_lookup (a b c d e : jsnum) :
  let r : FinancialRecord :=
    {[ "Year" := a; "Revenue" := b; "Net Income" := c;
       "Free Cash Flow" := d; "Budget" := e ]} in
  r !! "Year" = Some a /\ r !! "Revenue" = Some b
  /\ r !! "Net Income" = Some c /\ r !! "Free Cash Flow" = Some d
  /\ r !! "Budget" = Some e.
Proof. repeat split; vm_compute; reflexivity. Qed.

Lemma record5_finite (a b c d e : Qc) :
  map_Forall (fun (_ : string) (v : jsnum) => is_fin v = true)
    ({[ "Year" := Fin a; "Revenue" := Fin b; "Net Income" := Fin c;
        "Free Cash Flow" := Fin d; "Budget" := Fin e ]} : FinancialRecord).
Proof.
  repeat (apply map_Forall_insert_2; [reflexivity|]).
  apply map_Forall_empty.
Qed.

Lemma budget_below (z : Z) :
  (100000 <= z)%Z -> (0 < round_half_up (qz z * qd 95 100) < z)%Z.
Proof.
  intros Hz.
  destruct (round_in_range (qz z * qd 95 100) 1 (z - 1)) as [H1 H2]; [| |lia].
  - assert (qz 100000 <= qz z) as H
      by (unfold qz, Qcle, Q2Qc, this; rewrite !Qred_correct;
          unfold Qle; cbn; lia).
    revert H. generalize (qz z). intros q. qc_unfold. intros H. Lqa.lra.
  - assert (qz (z - 1) = qz z - 1) as ->
      by (apply Qc_this_eq; qc_unfold; unfold Qeq, Qminus, Qplus, Qopp; cbn;
          lia).
    assert (qz 100000 <= qz z) as H
      by (unfold qz, Qcle, Q2Qc, this; rewrite !Qred_correct;
          unfold Qle; cbn; lia).
    revert H. generalize (qz z). intros q. qc_unfold. intros H.
    change (this (qd 1 2)) with (1 # 2)%Q. Lqa.lra.
Qed.

Lemma budget_above (z : Z) :
  (100000 <= z)%Z -> (z < round_half_up (qz z * qd 105 100))%Z.
Proof.
  intros Hz.
  destruct (round_half_up_bounds (qz z * qd 105 100)) as [_ R2].
  revert R2. generalize (round_half_up (qz z * qd 105 100)). intros b.
  assert (qz 100000 <= qz z) as H
    by (unfold qz, Qcle, Q2Qc, this; rewrite !Qred_correct;
        unfold Qle; cbn; lia).
  assert (this (qz z) == inject_Z z)%Q as Hz'
    by (unfold qz, Q2Qc, this; rewrite Qred_correct; reflexivity).
  revert H Hz'. generalize (qz z). intros q. qc_unfold. intros H Hz' R2.
  assert (inject_Z z < inject_Z (b + 1))%Q as H1.
  { rewrite inject_Z_plus. change (inject_Z 1) with 1%Q. Lqa.lra. }
  rewrite <- Zlt_Qlt in H1.
  assert (inject_Z z + 1 < inject_Z (b + 1))%Q as H2.
  { rewrite inject_Z_plus. change (inject_Z 1) with 1%Q. Lqa.lra. }
  change 1%Q with (inject_Z 1) in H2 at 1.
  rewrite <- inject_Z_plus, <- Zlt_Qlt in H2. lia.
Qed.

Lemma qz_neq_0 (z : Z) : (z <> 0)%Z -> qz z <> 0.
Proof.
  intros Hz E. apply Hz. apply (f_equal this) in E.
  unfold qz, Q2Qc, this in E.
  assert (Qred (z # 1) == Qred 0)%Q as H by (rewrite E; reflexivity).
  rewrite !Qred_correct in H. unfold Qeq in H. cbn in H. lia.
Qed.

Lemma qz_lt (a b : Z) : (a < b)%Z <-> qz a < qz b.
Proof.
  unfold qz, Qclt, Q2Qc, this. rewrite !Qred_correct. unfold Qlt. cbn.
  rewrite !Z.mul_1_r. reflexivity.
Qed.

(** One sample record, for any two draws in [0, 1). *)
Lemma sampleRow_facts (random : nat -> Qc) (i : nat) :
  0 <= random (2 * i)%nat -> random (2 * i)%nat < 1 ->
  let d := sampleRow random i in
  exists z : Z,
    (100000 + 10000 * Z.of_nat i <= z <= 105000 + 10000 * Z.of_nat i)%Z
    /\ d !! "Year" = Some (num (2020 + Z.of_nat i))
    /\ d !! "Revenue" = Some (num z)
    /\ d !! "Net Income" = Some (num (round_half_up (qz z * qd 15 100)))
    /\ d !! "Free Cash Flow" = Some (num (round_half_up (qz z * qd 12 100)))
    /\ map_Forall (fun (_ : string) (v : jsnum) => is_fin v = true) d
    /\ favourable d = bool_decide (qd 1 2 < random (2 * i + 1)%nat)
    /\ variance d <> num 0.
Proof.
  intros H0 H1 d. subst d.
  destruct (sampleRow_spec random i H0 H1) as (z & Hz & ->).
  exists z. split; [exact Hz|].
  match goal with
  | |- context [insert "Year" ?a (insert "Revenue" ?b (insert "Net Income" ?c
                  (insert "Free Cash Flow" ?d (singletonM "Budget" ?e))))] =>
      destruct (record5_lookup a b c d e) as (L1 & L2 & L3 & L4 & L5)
  end.
  cbn zeta in L1, L2, L3, L4, L5.
  split; [exact L1|]. split; [exact L2|]. split; [exact L3|].
  split; [exact L4|]. split; [apply record5_finite|].
  unfold favourable, variance. rewrite L2, L5.
  assert (100000 <= z)%Z as Hz' by lia.
  assert (orZero (Some (num z)) = num z) as ->.
  { unfold orZero, num. rewrite decide_False; [reflexivity|].
    apply qz_neq_0. lia. }
  destruct (bool_decide (qd 1 2 < random (2 * i + 1)%nat)).
  - pose proof (budget_below z Hz') as Hb.
    assert (orZero (Some (num (round_half_up (qz z * qd 95 100))))
            = num (round_half_up (qz z * qd 95 100))) as ->.
    { unfold orZero, num. rewrite decide_False; [reflexivity|].
      apply qz_neq_0. lia. }
    revert Hb. generalize (round_half_up (qz z * qd 95 100)). intros b Hb.
    unfold num. rewrite jsub_fin.
    assert (0 < qz z - qz b) as Hpos.
    { assert (qz b < qz z) as H by (apply (proj1 (qz_lt b z)); lia).
      revert H. generalize (qz z) (qz b). intros p q. qc_unfold. intros H.
      Lqa.lra. }
    split.
    + unfold jge, jlt, jgt. rewrite qz_0.
      rewrite bool_decide_eq_false_2; [reflexivity|].
      apply Qcle_not_lt, Qclt_le_weak, Hpos.
    + intros E. assert (qz z - qz b = qz 0) as E' by congruence.
      rewrite qz_0 in E'. rewrite E' in Hpos.
      exact (Qclt_not_eq _ _ Hpos eq_refl).
  - pose proof (budget_above z Hz') as Hb.
    assert (orZero (Some (num (round_half_up (qz z * qd 105 100))))
            = num (round_half_up (qz z * qd 105 100))) as ->.
    { unfold orZero, num. rewrite decide_False; [reflexivity|].
      apply qz_neq_0. lia. }
    revert Hb. generalize (round_half_up (qz z * qd 105 100)). intros b Hb.
    unfold num. rewrite jsub_fin.
    assert (qz z - qz b < 0) as Hneg.
    { assert (qz z < qz b) as H by (apply (proj1 (qz_lt z b)); lia).
      revert H. generalize (qz z) (qz b). intros p q. qc_unfold. intros H.
      Lqa.lra. }
    split.
    + unfold jge, jlt, jgt. rewrite qz_0.
      rewrite bool_decide_eq_true_2; [reflexivity | exact Hneg].
    + intros E. assert (qz z - qz b = qz 0) as E' by congruence.
      rewrite qz_0 in E'. rewrite E' in Hneg.
      exact (Qclt_not_eq _ _ Hneg eq_refl).
Qed.

Lemma sample_lookup (random : nat -> Qc) (i : nat) (d : FinancialRecord) :
  generateSampleData random !! i = Some d ->
  (i < 6)%nat /\ d = sampleRow random i.
Proof.
  unfold generateSampleData. change (map ?f ?l) with (f <$> l).
  rewrite list_lookup_fmap. intros H.
  destruct (seq 0 6 !! i) as [j|] eqn:E; [|discriminate H].
  apply lookup_seq in E as [-> Hi]. injection H as <-. split; [exact Hi|].
  reflexivity.
Qed.

Lemma sample_elem (random : nat -> Qc) (d : FinancialRecord) :
  d ∈ generateSampleData random ->
  exists i, (i < 6)%nat /\ d = sampleRow random i.
Proof.
  intros H. apply list_elem_of_lookup in H as [i Hi].
  exists i. exact (sample_lookup random i d Hi).
Qed.

Lemma nullCellsFrom_none (l : list FinancialRecord) :
  Forall (fun r => isNullCell r "Revenue" = false
                   /\ isNullCell r "Net Income" = false) l ->
  forall i, nullCellsFrom i l = [].
Proof.
  induction 1 as [|r l [H1 H2] _ IH]; intros i; [reflexivity|].
  cbn [nullCellsFrom checkCols List.filter]. rewrite H1, H2. cbn [map app].
  apply IH.
Qed.

Lemma filter_none {A : Type} (f : A -> bool) (l : list A) :
  Forall (fun a => f a = false) l -> List.filter f l = [].
Proof.
  induction 1 as [|a l Ha _ IH]; [reflexivity|].
  cbn [List.filter]. rewrite Ha. exact IH.
Qed.

(** X10.  Whatever [Math.random] returns (numbers in [0, 1)),
    [generateSampleData] yields six records, for 2020 to 2025, whose five
    cells are finite integers: [Revenue] lies between
    [100000 + 10000 i] and [105000 + 10000 i] and so grows strictly from
    one year to the next, [Net Income] and [Free Cash Flow] are 15% and
    12% of it, rounded; the variance against [Budget] is never zero and
    is favourable exactly when the second draw of the row exceeds 0.5.
    The records can be written into the scripts, no required cell is
    missing and no year is unusual. *)
Theorem sample_data_invariants (random : nat -> Qc) :
  (forall k, 0 <= random k /\ random k < 1) ->
  let data := generateSampleData random in
  length data = 6%nat
  /\ (forall i d, data !! i = Some d ->
      exists z : Z,
        (100000 + 10000 * Z.of_nat i <= z <= 105000 + 10000 * Z.of_nat i)%Z
        /\ d !! "Year" = Some (num (2020 + Z.of_nat i))
        /\ d !! "Revenue" = Some (num z)
        /\ d !! "Net Income" = Some (num (round_half_up (qz z * qd 15 100)))
        /\ d !! "Free Cash Flow"
           = Some (num (round_half_up (qz z * qd 12 100)))
        /\ (favourable d = true <-> qd 1 2 < random (2 * i + 1)%nat)
        /\ variance d <> num 0)
  /\ (forall i d d', data !! i = Some d -> data !! S i = Some d' ->
      jlt (ToNumber (d !! "Revenue")) (ToNumber (d' !! "Revenue")) = true)
  /\ py_literal_ok data = true
  /\ nullCells data = []
  /\ List.filter unusualYear data = [].
Proof.
  intros Hr data. subst data.
  assert (forall i, let d := sampleRow random i in
            exists z : Z,
              (100000 + 10000 * Z.of_nat i <= z
               <= 105000 + 10000 * Z.of_nat i)%Z
              /\ d !! "Year" = Some (num (2020 + Z.of_nat i))
              /\ d !! "Revenue" = Some (num z)
              /\ d !! "Net Income"
                 = Some (num (round_half_up (qz z * qd 15 100)))
              /\ d !! "Free Cash Flow"
                 = Some (num (round_half_up (qz z * qd 12 100)))
              /\ map_Forall (fun (_ : string) (v : jsnum) => is_fin v = true)
                   d
              /\ favourable d = bool_decide (qd 1 2 < random (2 * i + 1)%nat)
              /\ variance d <> num 0) as Hrow
    by (intros i; apply sampleRow_facts; apply Hr).
  split; [reflexivity|]. split; [|split; [|split; [|split]]].
  - intros i d Hd. apply sample_lookup in Hd as [_ ->].
    destruct (Hrow i) as (z & Hz & H1 & H2 & H3 & H4 & _ & H6 & H7).
    exists z. repeat (split; [assumption|]). split; [|exact H7].
    rewrite H6. apply bool_decide_eq_true.
  - intros i d d' Hd Hd'. apply sample_lookup in Hd as [_ ->].
    apply sample_lookup in Hd' as [_ ->].
    destruct (Hrow i) as (z & Hz & _ & -> & _).
    destruct (Hrow (S i)) as (z' & Hz' & _ & -> & _).
    cbn [ToNumber default]. unfold num.
    apply (proj2 (jlt_fin (qz z) (qz z'))), (proj1 (qz_lt z z')). lia.
  - unfold py_literal_ok. apply forallb_forall. intros d Hd.
    apply list_elem_of_In, sample_elem in Hd as (i & _ & ->).
    destruct (Hrow i) as (z & _ & _ & _ & _ & _ & Hfin & _).
    apply bool_decide_eq_true_2, Hfin.
  - apply nullCellsFrom_none, Forall_forall. intros d Hd.
    apply sample_elem in Hd as (i & _ & ->).
    destruct (Hrow i) as (z & _ & _ & H2 & H3 & _).
    unfold isNullCell. rewrite H2, H3. split; reflexivity.
  - apply filter_none, Forall_forall. intros d Hd.
    apply sample_elem in Hd as (i & Hi & ->).
    destruct (Hrow i) as (z & _ & H1 & _).
    unfold unusualYear. rewrite H1. cbn [ToNumber default].
    unfold jlt, jgt, num.
    apply orb_false_intro; apply bool_decide_eq_false_2; intros H;
      apply (proj2 (qz_lt _ _)) in H; lia.
Qed.

Lemma sample_data_invariants_witness :
  let random := fun k : nat => if Nat.even k then qd 1 4 else qd 3 4 in
  (forall k, 0 <= random k /\ random k < 1)
  /\ length (generateSampleData random) = 6%nat
  /\ map (fun d : FinancialRecord => d !! "Revenue")
       (generateSampleData random)
     = [Some (num 101250); Some (num 111250); Some (num 121250);
        Some (num 131250); Some (num 141250); Some (num 151250)]
  /\ py_literal_ok (generateSampleData random) = true
  /\ nullCells (generateSampleData random) = [].
Proof.
  intros random.
  assert (forall k, 0 <= random k /\ random k < 1) as Hr.
  { intros k. subst random. cbn beta. destruct (Nat.even k); split;
      first [apply Qcle_by_compute | apply Qclt_by_compute];
      vm_compute; reflexivity. }
  destruct (sample_data_invariants random Hr) as (H1 & _ & _ & H4 & H5 & _).
  split; [exact Hr|]. split; [exact H1|]. split; [by_compute|].
  split; [exact H4 | exact H5].
Defined.

(** ** The market cards *)

Lemma orZero_cell (v : jsval) :
  v <> Some PInf -> v <> Some NInf -> orZero v = Fin (cellOrZero v).
Proof.
  intros H1 H2. destruct v as [[q| | |]|]; try contradiction;
    cbn [orZero cellOrZero]; try (unfold num; rewrite qz_0; reflexivity).
  destruct (decide (q = 0)) as [->|]; [|reflexivity].
  unfold num. rewrite qz_0. reflexivity.
Qed.

Lemma sumOrZero_total (k : string) (data : list FinancialRecord) :
  noInfinity k data -> sumOrZero k data = Fin (total k data).
Proof.
  intros H. unfold sumOrZero, reduce, total, num. rewrite qz_0.
  assert (forall (i : nat) (acc : Qc),
            reduce_from
              (fun a (curr : FinancialRecord) (_ : nat) =>
                 (a + orZero (curr !! k))%js) i data (Fin acc)
            = Fin (acc + sumQc (map (fun d : FinancialRecord =>
                                       cellOrZero (d !! k)) data))) as Hgen.
  { induction H as [|d data [H1 H2] _ IH]; intros i acc;
      cbn [reduce_from map].
    - rewrite sumQc_nil, Qcplus_0_r. reflexivity.
    - rewrite (orZero_cell _ H1 H2), jadd_fin, IH, sumQc_cons, Qcplus_assoc.
      reflexivity. }
  rewrite Hgen, Qcplus_0_l. reflexivity.
Qed.

Lemma Math_max_from (l : list Qc) :
  forall m : Qc,
  exists M : Qc,
    fold_left jmax (map Fin l) (Fin m) = Fin M
    /\ m <= M /\ Forall (fun q => q <= M) l /\ (M = m \/ M ∈ l).
Proof.
  induction l as [|q l IH]; intros m; cbn [map fold_left].
  - exists m. split; [reflexivity|]. split; [apply Qcle_refl|].
    split; [constructor | left; reflexivity].
  - cbn [jmax jgt]. destruct (bool_decide (m < q)) eqn:E.
    + apply bool_decide_eq_true_1 in E.
      destruct (IH q) as (M & HM & Hq & Hall & Hin). exists M.
      split; [exact HM|].
      split; [exact (Qcle_trans _ _ _ (Qclt_le_weak _ _ E) Hq)|].
      split; [constructor; assumption|]. right.
      destruct Hin as [->|Hin]; [left | right; exact Hin].
    + apply bool_decide_eq_false_1 in E. apply Qcnot_lt_le in E.
      destruct (IH m) as (M & HM & Hm & Hall & Hin). exists M.
      split; [exact HM|]. split; [exact Hm|].
      split; [constructor; [exact (Qcle_trans _ _ _ E Hm) | exact Hall]|].
      destruct Hin as [->|Hin]; [left; reflexivity | right; right; exact Hin].
Qed.

Lemma Math_max_fin (q : Qc) (l : list Qc) :
  exists M : Qc,
    Math_max (map Fin (q :: l)) = Fin M
    /\ Forall (fun x => x <= M) (q :: l) /\ M ∈ q :: l.
Proof.
  unfold Math_max. cbn [map fold_left jmax jgt].
  destruct (Math_max_from l q) as (M & HM & Hq & Hall & Hin).
  exists M. split; [exact HM|]. split; [constructor; assumption|].
  destruct Hin as [->|Hin]; [left | right; exact Hin].
Qed.

Lemma sum_le_max (l : list Qc) (M : Qc) :
  Forall (fun x => x <= M) l -> sumQc l <= qz (Z.of_nat (length l)) * M.
Proof.
  induction 1 as [|x l Hx _ IH].
  - cbn [length]. change (Z.of_nat 0) with 0%Z.
    rewrite sumQc_nil, qz_0, Qcmult_0_l. apply Qcle_refl.
  - cbn [length]. rewrite sumQc_cons, qz_succ_nat.
    revert Hx IH. generalize (sumQc l) (qz (Z.of_nat (length l))).
    intros s n. qc_unfold. intros Hx IH. Lqa.lra.
Qed.

Lemma avg_le (s n M : Qc) : 0 < n -> s <= n * M -> s / n <= M.
Proof.
  intros Hn H. apply (Qcmult_lt_0_le_reg_r _ _ n Hn).
  unfold Qcdiv. rewrite <- Qcmult_assoc, (Qcmult_comm (/ n)),
    Qcmult_inv_r, Qcmult_1_r by (apply Qclt_neq_0, Hn).
  rewrite Qcmult_comm. exact H.
Qed.

Lemma roe_closed_form (N F n : Qc) :
  n <> 0 -> F <> 0 ->
  N / n / (F / n * qz 5) * qz 100 = qz 20 * N / F.
Proof.
  intros Hn HF. apply Qc_this_neq in Hn, HF. apply Qc_this_eq. qc_unfold.
  field. split; assumption.
Qed.

Lemma Qcdiv_mul_neq_0 (F n : Qc) : F <> 0 -> n <> 0 -> F / n * qz 5 <> 0.
Proof.
  intros HF Hn E. apply Qcmult_integral in E as [E|E].
  - unfold Qcdiv in E. apply Qcmult_integral in E as [E|E]; [contradiction|].
    pose proof (Qcmult_inv_r n Hn) as H1. rewrite E, Qcmult_0_r in H1.
    discriminate H1.
  - revert E. apply qz_neq_0. lia.
Qed.

(** X11.  On a non-empty record set whose [Free Cash Flow], [Net Income]
    and [Revenue] cells are finite numbers, [NaN] or absent, the six
    numbers behind the market cards are all finite: absent and [NaN]
    cells count as 0.  The implied ROE is [20 * N / F], [N] and [F] the
    totals of [Net Income] and [Free Cash Flow], whatever the number of
    records, and 0 when [F = 0]; the rate base is 1.5 times the "equity"
    [5 * F / n]; the peak revenue is the largest revenue cell (at least 0
    when a cell is absent) and is attained; the average revenue does not
    exceed it. *)
Theorem market_metrics_finite (data : list FinancialRecord) :
  data <> [] ->
  noInfinity "Free Cash Flow" data -> noInfinity "Net Income" data ->
  noInfinity "Revenue" data ->
  let n := qz (Z.of_nat (length data)) in
  let F := total "Free Cash Flow" data in
  let N := total "Net Income" data in
  let R := total "Revenue" data in
  exists r mr : Qc,
    marketMetrics data
    = Some (mkMarket (Fin (F / n * qz 5)) (Fin (N / n)) (Fin r)
              (Fin (F / n * qz 5 * qd 3 2)) (Fin (R / n)) (Fin mr))
    /\ (F <> 0 -> r = qz 20 * N / F)
    /\ (F = 0 -> r = 0)
    /\ Forall (fun d : FinancialRecord => cellOrZero (d !! "Revenue") <= mr)
         data
    /\ Exists (fun d : FinancialRecord => cellOrZero (d !! "Revenue") = mr)
         data
    /\ R / n <= mr.
Proof.
  intros Hne HF HN HR n F N R.
  assert (0 < n) as Hn.
  { apply qz_nat_pos. destruct data; [contradiction | cbn; lia]. }
  assert (n <> 0) as Hn0 by (apply Qclt_neq_0, Hn).
  assert (map (fun d : FinancialRecord => orZero (d !! "Revenue")) data
          = map Fin (map (fun d : FinancialRecord =>
                            cellOrZero (d !! "Revenue")) data)) as Hmap.
  { rewrite map_map. apply map_ext_Forall.
    eapply Forall_impl; [exact HR|]. intros d [H1 H2].
    apply orZero_cell; assumption. }
  destruct (map (fun d : FinancialRecord => cellOrZero (d !! "Revenue")) data)
    as [|q l] eqn:Hcells.
  { destruct data; [contradiction | discriminate Hcells]. }
  destruct (Math_max_fin q l) as (mr & Hmax & Hall & Hin).
  assert (Forall (fun d : FinancialRecord =>
                    cellOrZero (d !! "Revenue") <= mr) data) as Hall'.
  { rewrite <- Hcells in Hall. rewrite Forall_map in Hall. exact Hall. }
  assert (R / n <= mr) as Havg.
  { apply avg_le; [exact Hn|]. subst R n. unfold total.
    rewrite <- (length_map (fun d : FinancialRecord =>
                              cellOrZero (d !! "Revenue")) data).
    apply sum_le_max. rewrite Hcells. exact Hall. }
  assert (marketMetrics data
          = Some (mkMarket (Fin (F / n * qz 5)) (Fin (N / n))
                    (if negb (bool_decide (F / n * qz 5 = 0))
                     then Fin (N / n / (F / n * qz 5) * qz 100) else num 0)
                    (Fin (F / n * qz 5 * qd 3 2)) (Fin (R / n)) (Fin mr)))
    as Hmm.
  { unfold marketMetrics. rewrite bool_decide_eq_false_2 by exact Hne.
    rewrite (sumOrZero_total _ _ HF), (sumOrZero_total _ _ HN),
      (sumOrZero_total _ _ HR), Hmap, Hmax.
    fold F N R. unfold num. fold n.
    rewrite !(jdiv_fin _ _ Hn0), !jmul_fin. cbn [truthy].
    destruct (bool_decide (F / n * qz 5 = 0)) eqn:E; cbn [negb];
      [reflexivity|].
    apply bool_decide_eq_false_1 in E.
    rewrite (jdiv_fin _ _ E), jmul_fin. reflexivity. }
  destruct (decide (F = 0)) as [HF0|HF0].
  - exists 0, mr. split.
    { rewrite Hmm. rewrite bool_decide_eq_true_2; [reflexivity|].
      rewrite HF0. unfold Qcdiv. rewrite !Qcmult_0_l. reflexivity. }
    split; [intros H; contradiction|]. split; [reflexivity|].
    split; [exact Hall'|]. split; [|exact Havg].
    apply Exists_exists. rewrite <- Hcells in Hin.
    apply list_elem_of_fmap in Hin as (d & -> & Hd). exists d.
    split; [exact Hd | reflexivity].
  - exists (qz 20 * N / F), mr. split.
    { rewrite Hmm.
      rewrite bool_decide_eq_false_2 by (apply Qcdiv_mul_neq_0; assumption).
      cbn [negb]. rewrite (roe_closed_form N F n Hn0 HF0). reflexivity. }
    split; [reflexivity|]. split; [intros H; contradiction|].
    split; [exact Hall'|]. split; [|exact Havg].
    apply Exists_exists. rewrite <- Hcells in Hin.
    apply list_elem_of_fmap in Hin as (d & -> & Hd). exists d.
    split; [exact Hd | reflexivity].
Qed.

Lemma market_metrics_finite_witness :
  growthData <> []
  /\ noInfinity "Free Cash Flow" growthData
  /\ noInfinity "Net Income" growthData
  /\ noInfinity "Revenue" growthData
  /\ exists res,
       marketMetrics growthData = Some res
       /\ avgEquity res = num 65
       /\ roe res = Fin (qz 20 * qz 49 / qz 39)
       /\ maxRev res = num 120.
Proof.
  assert (growthData <> []) as Hne by discriminate.
  assert (forall k, noInfinity k growthData) as Hfin.
  { intros k. unfold noInfinity, growthData.
    repeat constructor; intros H; unfold row in H;
      repeat (rewrite lookup_insert_Some in H;
              destruct H as [[_ H]|[_ H]]; [discriminate H|]);
      rewrite lookup_singleton_Some in H; destruct H as [_ H];
      discriminate H. }
  destruct (market_metrics_finite growthData Hne (Hfin _) (Hfin _) (Hfin _))
    as (r & mr & Hmm & Hr & _ & _ & _ & _).
  assert (total "Free Cash Flow" growthData = qz 39) as HF by by_compute.
  assert (total "Net Income" growthData = qz 49) as HN by by_compute.
  assert (marketMetrics growthData
          = Some (mkMarket (num 65) (Fin (qd 49 3))
                    (Fin (qz 20 * qz 49 / qz 39)) (Fin (qd 195 2))
                    (num 110) (num 120))) as Hc by by_compute.
  rewrite Hr, HN, HF in Hmm by (rewrite HF; apply qz_neq_0; lia).
  split; [exact Hne|]. repeat (split; [apply Hfin|]).
  eexists. split; [exact Hmm|].
  match type of Hmm with
  | _ = Some ?x =>
      assert (x = mkMarket (num 65) (Fin (qd 49 3))
                    (Fin (qz 20 * qz 49 / qz 39)) (Fin (qd 195 2))
                    (num 110) (num 120)) as -> by congruence
  end.
  repeat split.
Defined.

(** ** The shades of the sensitivity matrix *)

Lemma Math_min_from (l : list Qc) :
  forall m : Qc,
  exists M : Qc,
    fold_left jmin (map Fin l) (Fin m) = Fin M
    /\ M <= m /\ Forall (fun q => M <= q) l /\ (M = m \/ M ∈ l).
Proof.
  induction l as [|q l IH]; intros m; cbn [map fold_left].
  - exists m. split; [reflexivity|]. split; [apply Qcle_refl|].
    split; [constructor | left; reflexivity].
  - cbn [jmin jlt jgt]. destruct (bool_decide (q < m)) eqn:E.
    + apply bool_decide_eq_true_1 in E.
      destruct (IH q) as (M & HM & Hq & Hall & Hin). exists M.
      split; [exact HM|].
      split; [exact (Qcle_trans _ _ _ Hq (Qclt_le_weak _ _ E))|].
      split; [constructor; assumption|]. right.
      destruct Hin as [->|Hin]; [left | right; exact Hin].
    + apply bool_decide_eq_false_1 in E. apply Qcnot_lt_le in E.
      destruct (IH m) as (M & HM & Hm & Hall & Hin). exists M.
      split; [exact HM|]. split; [exact Hm|].
      split; [constructor; [exact (Qcle_trans _ _ _ Hm E) | exact Hall]|].
      destruct Hin as [->|Hin]; [left; reflexivity | right; right; exact Hin].
Qed.

Lemma Math_min_fin (q : Qc) (l : list Qc) :
  exists M : Qc,
    Math_min (map Fin (q :: l)) = Fin M
    /\ Forall (fun x => M <= x) (q :: l) /\ M ∈ q :: l.
Proof.
  unfold Math_min. cbn [map fold_left jmin jlt jgt].
  destruct (Math_min_from l q) as (M & HM & Hq & Hall & Hin).
  exists M. split; [exact HM|]. split; [constructor; assumption|].
  destruct Hin as [->|Hin]; [left | right; exact Hin].
Qed.

(** The shade of a value between the two extremes. *)
Lemma shade_range (x m M : Qc) :
  m <= x -> x <= M -> m < M ->
  qz 20 <= qz 20 + (x - m) / (M - m) * qz 80
  /\ qz 20 + (x - m) / (M - m) * qz 80 <= qz 100.
Proof.
  intros H1 H2 H3.
  assert (0 < M - m) as Hd
    by (revert H3; generalize M m; intros a b; qc_unfold; intros H;
        Lqa.lra).
  assert (0 <= (x - m) / (M - m)) as Hlo.
  { unfold Qcdiv. rewrite <- (Qcmult_0_l (/ (M - m))).
    apply Qcmult_le_compat_r.
    - revert H1. generalize x m. intros a b. qc_unfold. intros H. Lqa.lra.
    - apply Qclt_le_weak, Qcinv_pos, Hd. }
  assert ((x - m) / (M - m) <= 1) as Hhi.
  { apply avg_le; [exact Hd|]. rewrite Qcmult_1_r.
    revert H2. generalize x m M. intros a b c. qc_unfold. intros H.
    Lqa.lra. }
  revert Hlo Hhi. generalize ((x - m) / (M - m)). intros t. qc_unfold.
  intros Hlo Hhi. split; Lqa.lra.
Qed.

Lemma grid_cells (R C : Qc) :
  let ch := [qd 9 10; qd 95 100; qz 1; qd 105 100; qd 11 10] in
  concat (sensitivityData (Some (Fin R)) (Fin C))
  = map Fin (flat_map (fun r => map (fun c => R * r - C * c) ch) ch).
Proof. reflexivity. Qed.

Lemma grid_not_flat (R C m M : Qc) :
  R <> 0 \/ C <> 0 ->
  m <= R * qd 9 10 - C * qd 9 10 -> R * qd 9 10 - C * qd 9 10 <= M ->
  m <= R * qd 9 10 - C * qd 95 100 -> R * qd 9 10 - C * qd 95 100 <= M ->
  m <= R * qd 95 100 - C * qd 9 10 -> R * qd 95 100 - C * qd 9 10 <= M ->
  m < M.
Proof.
  intros Hne A1 A2 B1 B2 C1 C2.
  destruct (Qclt_le_dec m M) as [|Hle]; [assumption|]. exfalso.
  assert (R = 0 /\ C = 0) as [HR HC].
  { revert A1 A2 B1 B2 C1 C2 Hle. clear Hne. qc_unfold.
    intros A1 A2 B1 B2 C1 C2 Hle.
    split; apply Qc_this_eq; qc_unfold; Lqa.lra. }
  destruct Hne; contradiction.
Qed.

Lemma shade_min (m M : Qc) : qz 20 + (m - m) / (M - m) * qz 80 = qz 20.
Proof. apply Qc_this_eq. qc_unfold. ring. Qed.

Lemma shade_max (m M : Qc) :
  m < M -> qz 20 + (M - m) / (M - m) * qz 80 = qz 100.
Proof.
  intros H.
  assert (M - m <> 0) as Hd by (apply Qclt_minus_neq_0, H).
  unfold Qcdiv. rewrite Qcmult_inv_r by exact Hd.
  apply Qc_this_eq. reflexivity.
Qed.

(** X12.  The sensitivity grid has 25 cells.  For a finite base revenue
    and base cost that are not both zero, every shade is a finite
    lightness between 20 and 100, and both ends occur; when both are
    zero, or when the base revenue is undefined (an upload whose last row
    has no [Revenue]), every shade is [NaN]. *)
Theorem heat_shades_in_range (R C : Qc) :
  let grid := sensitivityData (Some (Fin R)) (Fin C) in
  length (heatCells grid) = 25%nat
  /\ (R <> 0 \/ C <> 0 ->
      Forall (fun x => exists s, x = Fin s /\ qz 20 <= s /\ s <= qz 100)
        (heatCells grid)
      /\ num 20 ∈ heatCells grid /\ num 100 ∈ heatCells grid)
  /\ (R = 0 -> C = 0 -> heatCells grid = replicate 25 NaN)
  /\ (forall baseCost : jsnum,
        heatCells (sensitivityData None baseCost) = replicate 25 NaN).
Proof.
  intros grid. split; [reflexivity|]. split; [|split].
  - intros Hne. subst grid. unfold heatCells, lightness.
    rewrite grid_cells. cbv zeta.
    set (ch := [qd 9 10; qd 95 100; qz 1; qd 105 100; qd 11 10]).
    set (cs := flat_map (fun r => map (fun c => R * r - C * c) ch) ch).
    assert (exists q l, cs = q :: l) as (q & l & Hcs)
      by (do 2 eexists; reflexivity).
    rewrite Hcs.
    destruct (Math_max_fin q l) as (M & -> & HallM & HinM).
    destruct (Math_min_fin q l) as (m & -> & Hallm & Hinm).
    rewrite <- Hcs in *.
    rewrite Forall_forall in HallM, Hallm.
    assert (forall x, x ∈ cs -> m <= x /\ x <= M) as Hb
      by (intros x Hx; split; [apply Hallm | apply HallM]; exact Hx).
    assert (m < M) as HmM.
    { apply (grid_not_flat R C m M Hne); apply Hb; subst cs ch;
        cbn [flat_map map app]; repeat constructor. }
    assert (M - m <> 0) as Hd by (apply Qclt_minus_neq_0, HmM).
    set (f := fun val : jsnum =>
                (num 20 + (val - Fin m) / (Fin M - Fin m) * num 80)%js).
    assert (forall x : Qc,
              f (Fin x) = Fin (qz 20 + (x - m) / (M - m) * qz 80)) as Hl.
    { intros x. subst f. cbn beta.
      rewrite !jsub_fin, (jdiv_fin _ _ Hd). reflexivity. }
    change (map ?g ?k) with (g <$> k).
    split; [|split].
    + apply Forall_forall. intros y Hy.
      apply list_elem_of_fmap in Hy as (v & -> & Hv).
      apply list_elem_of_fmap in Hv as (x & -> & Hx).
      rewrite Hl. eexists. split; [reflexivity|].
      destruct (Hb x Hx). apply shade_range; assumption.
    + apply list_elem_of_fmap. exists (Fin m). split.
      * rewrite Hl, shade_min. reflexivity.
      * apply list_elem_of_fmap. exists m. split; [reflexivity | exact Hinm].
    + apply list_elem_of_fmap. exists (Fin M). split.
      * rewrite Hl, (shade_max m M HmM). reflexivity.
      * apply list_elem_of_fmap. exists M. split; [reflexivity | exact HinM].
  - intros -> ->. subst grid. by_compute.
  - intros baseCost. reflexivity.
Qed.

Lemma heat_shades_in_range_witness :
  let grid := sensitivityData (Some (num 100000)) (num 80000) in
  (qz 100000 <> 0 \/ qz 80000 <> 0)
  /\ Forall (fun x => exists s, x = Fin s /\ qz 20 <= s /\ s <= qz 100)
       (heatCells grid)
  /\ heatCells grid !! 4%nat = Some (num 20)
  /\ heatCells grid !! 20%nat = Some (num 100).
Proof.
  intros grid.
  assert (qz 100000 <> 0 \/ qz 80000 <> 0) as Hne
    by (left; apply qz_neq_0; lia).
  destruct (heat_shades_in_range (qz 100000) (qz 80000))
    as (_ & Hin & _).
  split; [exact Hne|]. split; [exact (proj1 (Hin Hne))|].
  split; by_compute.
Defined.

(** ** One bad cell spoils the fallback *)

Lemma jadd_NaN_r (x : jsnum) : (x + NaN)%js = NaN.
Proof. destruct x; reflexivity. Qed.

Lemma jsub_NaN_r (x : jsnum) : (x - NaN)%js = NaN.
Proof. destruct x; reflexivity. Qed.

Lemma jmul_NaN_r (x : jsnum) : (x * NaN)%js = NaN.
Proof. destruct x; reflexivity. Qed.

Lemma isNullCell_NaN (d : FinancialRecord) (k : string) :
  isNullCell d k = true <-> ToNumber (d !! k) = NaN.
Proof.
  unfold isNullCell. destruct (d !! k) as [[| | |]|]; cbn; split;
    intros H; try reflexivity; discriminate H.
Qed.

Lemma reduce_absorbs {A : Type} (f : jsnum -> A -> nat -> jsnum)
    (l : list A) :
  (forall b i, f NaN b i = NaN) ->
  forall i, reduce_from f i l NaN = NaN.
Proof.
  intros Hf. induction l as [|a l IH]; intros i; [reflexivity|].
  cbn [reduce_from]. rewrite Hf. apply IH.
Qed.

Lemma reduce_sum_poisoned (l : list jsval) :
  Exists (fun v => ToNumber v = NaN) l ->
  forall i acc,
  reduce_from (fun a b (_ : nat) => (a + ToNumber b)%js) i l acc = NaN.
Proof.
  induction 1 as [v l Hv | v l _ IH]; intros i acc; cbn [reduce_from].
  - rewrite Hv, jadd_NaN_r. apply reduce_absorbs. reflexivity.
  - apply IH.
Qed.

(** A cell that is absent or [NaN], in either column, turns both
    coefficients into [NaN]. *)
Lemma fitTrend_poisoned (n : nat) (x y : list jsval) :
  Exists (fun v => ToNumber v = NaN) x
  \/ Exists (fun v => ToNumber v = NaN) y ->
  fitTrend n x y = (NaN, NaN).
Proof.
  intros H. unfold fitTrend, reduce.
  set (sumXY := reduce_from _ 0 x (num 0)).
  set (sumXX := reduce_from (fun a b _ => a + ToNumber b * ToNumber b)%js
                  0 x (num 0)).
  assert ((reduce_from (fun a b (_ : nat) => (a + ToNumber b)%js) 0 x (num 0)
           * reduce_from (fun a b (_ : nat) => (a + ToNumber b)%js) 0 y
               (num 0))%js = NaN) as Hprod.
  { destruct H as [H|H].
    - rewrite (reduce_sum_poisoned x H). reflexivity.
    - rewrite (reduce_sum_poisoned y H). apply jmul_NaN_r. }
  rewrite Hprod, jsub_NaN_r. cbn [jdiv jmul jsign].
  rewrite jsub_NaN_r. reflexivity.
Qed.

Lemma exists_null_column (k : string) (data : list FinancialRecord) :
  Exists (fun d => isNullCell d k = true) data ->
  Exists (fun v => ToNumber v = NaN)
    (map (fun d : FinancialRecord => d !! k) data).
Proof.
  induction 1 as [d data Hd | d data _ IH]; cbn [map].
  - left. apply isNullCell_NaN, Hd.
  - right. exact IH.
Qed.

(** X13.  As soon as one record lacks [Year] or the metric, or holds
    [NaN] there, the fallback still stores a series but every projected
    [Forecast], [High] and [Low] is [NaN]; in the same way one record
    without a usable [Year] or [Free Cash Flow] makes [runJSValuation]
    store a share price of [NaN] and a bridge of [NaN]s.  The cells the
    integrity scan warns about are of this kind. *)
Theorem null_cell_spoils_fallback
    (data : list FinancialRecord) (metric : string) (h : nat)
    (sens wacc termGrowth netDebt shares : jsnum) :
  (Exists (fun d => isNullCell d "Year" = true
                    \/ isNullCell d metric = true) data ->
   jsFuturePoints data metric h sens
   = map (fun i : nat =>
            mkFuture
              (ToNumber (mjoin (last (map (fun d : FinancialRecord =>
                                             d !! "Year") data)))
               + num (Z.of_nat i))%js NaN NaN NaN)
       (seq 1 h))
  /\ (Exists (fun d => isNullCell d "Year" = true
                       \/ isNullCell d "Free Cash Flow" = true) data ->
      jsValuation data wacc termGrowth netDebt shares
      = Some (mkValuation NaN
                [ mkEntry "Sum of FCFs" NaN None "NaN";
                  mkEntry "Terminal Value" NaN None "NaN";
                  mkEntry "Enterprise Value" NaN (Some true) "100.0" ])).
Proof.
  assert (forall k,
            Exists (fun d => isNullCell d "Year" = true
                             \/ isNullCell d k = true) data ->
            fitTrend (length data)
              (map (fun d : FinancialRecord => d !! "Year") data)
              (map (fun d : FinancialRecord => d !! k) data)
            = (NaN, NaN)) as Hfit.
  { intros k H. apply fitTrend_poisoned.
    apply Exists_or_inv in H as [H|H]; [left | right];
      apply exists_null_column, H. }
  split; intros H.
  - unfold jsFuturePoints, jsBands. rewrite (Hfit metric H).
    rewrite map_map. apply map_ext. intros i. reflexivity.
  - unfold jsValuation. rewrite bool_decide_eq_false_2
      by (intros E; rewrite E in H; inversion H).
    unfold jsDcf. rewrite (Hfit "Free Cash Flow" H).
    cbn [dcfSharePrice discountedSum discountedTV enterpriseValue].
    destruct (jgt _ _); reflexivity.
Qed.

Lemma null_cell_spoils_fallback_witness :
  Exists (fun d => isNullCell d "Year" = true
                   \/ isNullCell d "Revenue" = true) twoGaps
  /\ map fForecast (jsFuturePoints twoGaps "Revenue" 3 (num 10))
     = [NaN; NaN; NaN]
  /\ map fYear (jsFuturePoints twoGaps "Revenue" 3 (num 10))
     = [num 2024; num 2025; num 2026].
Proof.
  assert (Exists (fun d => isNullCell d "Year" = true
                           \/ isNullCell d "Revenue" = true) twoGaps) as H
    by (right; left; right; reflexivity).
  destruct (null_cell_spoils_fallback twoGaps "Revenue" 3 (num 10) (num 10)
              (num 2) (num 0) (num 1)) as [Hf _].
  split; [exact H|]. rewrite (Hf H). split; [reflexivity | by_compute].
Defined.

(** ** When the valuation script reports insufficient data *)

Lemma py_mapM_get_default (k : string) (data : list FinancialRecord) :
  py_literal_ok data = true ->
  exists vs,
    py_mapM (fun d => py_get_default d k) data = PyVal vs
    /\ length vs = length data.
Proof.
  induction data as [|d ds IH]; intros Hok.
  - exists []. split; reflexivity.
  - apply py_literal_ok_cons in Hok as [Hd Hds].
    destruct (IH Hds) as (vs & Hvs & Hlen).
    assert (exists q, py_get_default d k = PyVal q) as [q Hq].
    { unfold py_get_default. destruct (d !! k) as [v|] eqn:Hv; [|eauto].
      specialize (Hd k v Hv). destruct v; try discriminate. eauto. }
    exists (q :: vs). cbn [py_mapM]. rewrite Hq. cbn [py_bind].
    rewrite Hvs. cbn [py_bind length]. split; [reflexivity | lia].
Qed.

(** X14.  With the kernel ready, finite input fields and fewer than two
    records (readable ones: finite cells, each with a [Year]), the
    valuation script answers [{"success": False, ...}]: [runValuation]
    only logs the start of the job, [runJSValuation] is not run, and the
    stored valuation and its source stay as they were.  The fallback, run
    on the same single record, would have stored a share price of
    [NaN]. *)
Theorem python_failure_leaves_valuation_untouched
    (polyfit : list Qc -> list Qc -> pyres (Qc * Qc)) (st : AppState)
    (w t nd sh : Qc) :
  pythonStatus st = ready ->
  pyodide st = true ->
  wacc st = Fin w -> termGrowth st = Fin t -> netDebt st = Fin nd ->
  shares st = Fin sh ->
  py_literal_ok (data st) = true ->
  Forall (fun d : FinancialRecord => is_Some (d !! "Year")) (data st) ->
  (length (data st) < 2)%nat ->
  valuationScript polyfit (data st) (wacc st) (termGrowth st) (netDebt st)
    (shares st) = PyVal ValuationFailure
  /\ runValuation polyfit st = addLog LogStartValuation st
  /\ valuationResult (runValuation polyfit st) = valuationResult st
  /\ valuationSource (runValuation polyfit st) = valuationSource st
  /\ (data st <> [] ->
      sharePrice (valuationResult (runJSValuation st)) = NaN
      /\ valuationSource (runJSValuation st) = Some JSFallback).
Proof.
  intros Hready Hpy Hw Ht Hn Hs Hok Hyears Hfew.
  assert (valuationScript polyfit (data st) (wacc st) (termGrowth st)
            (netDebt st) (shares st) = PyVal ValuationFailure) as Hfail.
  { unfold valuationScript. rewrite Hok, Hw, Ht, Hn, Hs.
    cbn [negb py_number py_bind].
    destruct (py_mapM_get "Year" (data st) Hok Hyears) as (ys & -> & _).
    cbn [py_bind].
    destruct (py_mapM_get_default "Free Cash Flow" (data st) Hok)
      as (vs & -> & Hlen).
    cbn [py_bind]. rewrite bool_decide_eq_false_2 by lia. reflexivity. }
  assert (runValuation polyfit st = addLog LogStartValuation st) as Hrun.
  { unfold runValuation. rewrite Hready, Hpy, Hfail.
    rewrite bool_decide_eq_true_2 by reflexivity. reflexivity. }
  split; [exact Hfail|]. split; [exact Hrun|].
  rewrite Hrun. split; [reflexivity|]. split; [reflexivity|].
  intros Hne. destruct (data st) as [|d [|d' ds]] eqn:Hd;
    [contradiction | | cbn in Hfew; lia].
  unfold runJSValuation, jsValuation. rewrite Hd.
  rewrite bool_decide_eq_false_2 by discriminate.
  cbn [valuationResult valuationSource setValuationSource setValuationResult
         sharePrice].
  split; [|reflexivity].
  unfold jsDcf. cbn [map length last]. rewrite fitTrend_single.
  reflexivity.
Qed.

Lemma python_failure_leaves_valuation_untouched_witness :
  py_literal_ok (data staleState) = true
  /\ Forall (fun d : FinancialRecord => is_Some (d !! "Year"))
       (data staleState)
  /\ (length (data staleState) < 2)%nat
  /\ valuationResult (runValuation exact_polyfit staleState)
     = mkValuation (num 0) []
  /\ valuationSource (runValuation exact_polyfit staleState) = None
  /\ sharePrice (valuationResult (runJSValuation staleState)) = NaN.
Proof.
  assert (py_literal_ok (data staleState) = true) as H4
    by (vm_compute; reflexivity).
  assert (Forall (fun d : FinancialRecord => is_Some (d !! "Year"))
            (data staleState)) as H5 by by_compute.
  assert (length (data staleState) < 2)%nat as H6 by (cbn; lia).
  destruct (python_failure_leaves_valuation_untouched exact_polyfit staleState
              (qz 10) (qd 5 2) (qz 150) (qz 50) eq_refl eq_refl eq_refl
              eq_refl eq_refl eq_refl H4 H5 H6) as (_ & _ & Hres & Hsrc & Hjs).
  destruct (Hjs ltac:(discriminate)) as [Hnan _].
  exact (conj H4 (conj H5 (conj H6 (conj Hres (conj Hsrc Hnan))))).
Defined.

(** ** The rows [parseCSV] builds *)

Lemma assign_lookup_ne (h k : string) (c : CsvCell)
    (obj : gmap string CsvCell) :
  k <> h -> assign h c obj !! k = obj !! k.
Proof.
  intros Hk. unfold assign. destruct (decide (h = "__proto__")); [reflexivity|].
  apply lookup_insert_ne. congruence.
Qed.

Lemma assign_lookup (h : string) (c : CsvCell) (obj : gmap string CsvCell) :
  h <> "__proto__" -> assign h c obj !! h = Some c.
Proof.
  intros Hh. unfold assign. rewrite decide_False by exact Hh.
  apply lookup_insert_eq.
Qed.

Lemma assign_is_Some (h k : string) (c : CsvCell)
    (obj : gmap string CsvCell) :
  is_Some (obj !! k) -> is_Some (assign h c obj !! k).
Proof.
  intros H. unfold assign. destruct (decide (h = "__proto__")); [exact H|].
  destruct (decide (k = h)) as [->|Hk].
  - rewrite lookup_insert_eq. eauto.
  - rewrite lookup_insert_ne by congruence. exact H.
Qed.

(** The object after [headers.forEach]. *)
Lemma forEach_assign (g : nat -> CsvCell) (hs : list string) :
  forall (i0 : nat) (obj0 : gmap string CsvCell),
  let obj := reduce_from (fun obj h i => assign h (g i) obj) i0 hs obj0 in
  (forall k, is_Some (obj !! k) -> is_Some (obj0 !! k) \/ k ∈ hs)
  /\ (forall k, is_Some (obj0 !! k) -> is_Some (obj !! k))
  /\ (forall h, h ∈ hs -> h <> "__proto__" -> is_Some (obj !! h))
  /\ (forall k, k ∉ hs -> obj !! k = obj0 !! k)
  /\ (NoDup hs -> forall i h, hs !! i = Some h -> h <> "__proto__" ->
      obj !! h = Some (g (i0 + i)%nat)).
Proof.
  induction hs as [|h hs IH]; intros i0 obj0; cbn [reduce_from].
  - cbn zeta. repeat split.
    + intros k Hk. left. exact Hk.
    + intros k Hk. exact Hk.
    + intros h Hh. inversion Hh.
    + intros _ i h Hi. discriminate Hi.
  - destruct (IH (S i0) (assign h (g i0) obj0)) as (D1 & D2 & D3 & D4 & D5).
    cbn zeta in *. split; [|split; [|split; [|split]]].
    + intros k Hk. destruct (D1 k Hk) as [Hk'|Hk'].
      * destruct (decide (k = h)) as [->|Hne]; [right; left|].
        rewrite assign_lookup_ne in Hk' by exact Hne. left. exact Hk'.
      * right. right. exact Hk'.
    + intros k Hk. apply D2, assign_is_Some, Hk.
    + intros h' Hh' Hp. apply elem_of_cons in Hh' as [->|Hh'].
      * apply D2. rewrite assign_lookup by exact Hp. eauto.
      * apply D3; assumption.
    + intros k Hk. apply not_elem_of_cons in Hk as [Hk1 Hk2].
      rewrite D4 by exact Hk2. apply assign_lookup_ne, Hk1.
    + intros Hnd i h' Hi Hp. apply NoDup_cons in Hnd as [Hni Hnd].
      destruct i as [|i]; cbn in Hi.
      * injection Hi as <-. rewrite D4 by exact Hni.
        rewrite assign_lookup by exact Hp. f_equal. f_equal. lia.
      * rewrite (D5 Hnd i h' Hi Hp). f_equal. f_equal. lia.
Qed.

Lemma cellOf_present (Number : string -> jsnum) (s : string) :
  cellOf Number (Some s)
  = if isNaN (Number s) then CellStr s else CellNum (Number s).
Proof. reflexivity. Qed.

(** X15.  A text with fewer than two non-blank lines parses to no
    record.  Otherwise there is one record per non-blank line after the
    first.  The keys of a record are header names, and possibly [Budget];
    every header other than [__proto__] is a key.  When the header names
    are distinct, the cell under the header of column [i], [Budget]
    apart, is read from the trimmed text of the cell [i] of the line: the
    number when [Number] gives one, the text otherwise, and [undefined]
    only when the line has no cell [i].  So a blank cell, which [Number]
    reads as 0, is stored as 0 and not as a missing value. *)
Theorem parseCSV_rows (Number : string -> jsnum) (text : string) :
  ((length (nonBlankLines text) < 2)%nat -> parseCSV Number text = [])
  /\ (forall first rest,
        nonBlankLines text = first :: rest -> rest <> [] ->
        length (parseCSV Number text) = length rest
        /\ forall j line,
             rest !! j = Some line ->
             exists r,
               parseCSV Number text !! j = Some r
               /\ (forall k, is_Some (r !! k) ->
                   k ∈ headersOf first \/ k = "Budget")
               /\ (forall h, h ∈ headersOf first -> h <> "__proto__" ->
                   is_Some (r !! h))
               /\ (NoDup (headersOf first) ->
                   forall i h,
                     headersOf first !! i = Some h ->
                     h <> "__proto__" -> h <> "Budget" ->
                     let cell := split chComma line !! i in
                     r !! h = Some (cellOf Number (trim <$> cell))
                     /\ (r !! h = Some CellUndefined <-> cell = None)
                     /\ (Number EmptyString = num 0 ->
                         forall s, cell = Some s -> trim s = EmptyString ->
                         r !! h = Some (CellNum (num 0))))).
Proof.
  split.
  - intros H. unfold parseCSV. rewrite bool_decide_eq_true_2 by exact H.
    reflexivity.
  - intros first rest Hlines Hrest.
    assert (parseCSV Number text = map (parseLine Number (headersOf first)) rest)
      as ->.
    { unfold parseCSV. rewrite Hlines.
      rewrite bool_decide_eq_false_2; [reflexivity|].
      destruct rest; [contradiction | cbn [length]; lia]. }
    split; [apply length_map|]. intros j line Hj.
    exists (parseLine Number (headersOf first) line). split.
    { change (map ?f rest) with (f <$> rest).
      rewrite list_lookup_fmap, Hj. reflexivity. }
    unfold parseLine. cbv zeta. unfold reduce.
    set (g := fun i : nat => cellOf Number (trim <$> split chComma line !! i)).
    destruct (forEach_assign g (headersOf first) 0 ∅)
      as (D1 & _ & D3 & _ & D5).
    cbn zeta in D1, D3, D5.
    set (obj := reduce_from _ 0 (headersOf first) ∅) in *.
    set (budget := CellNum _).
    assert (forall k, k <> "Budget" ->
              (if negb (cellTruthy (obj !! "Budget"))
                  && cellTruthy (obj !! "Revenue")
               then <["Budget" := budget]> obj else obj) !! k = obj !! k)
      as Hother.
    { intros k Hk. destruct (_ && _); [|reflexivity].
      apply lookup_insert_ne. congruence. }
    split; [|split].
    + intros k Hk. destruct (decide (k = "Budget")) as [->|Hne];
        [right; reflexivity|].
      rewrite Hother in Hk by exact Hne. left.
      destruct (D1 k Hk) as [H|H]; [|exact H].
      rewrite lookup_empty in H. destruct H as [x Hx]. discriminate Hx.
    + intros h Hh Hp. destruct (_ && _); [|apply D3; assumption].
      destruct (decide (h = "Budget")) as [->|Hne].
      * rewrite lookup_insert_eq. eauto.
      * rewrite lookup_insert_ne by congruence. apply D3; assumption.
    + intros Hnd i h Hi Hp Hb. cbv zeta.
      rewrite (Hother h Hb), (D5 Hnd i h Hi Hp). cbn [Nat.add]. subst g.
      cbn beta. split; [reflexivity|]. split; [split|].
      * destruct (split chComma line !! i) as [s|]; [|reflexivity].
        cbn [fmap option_fmap option_map]. rewrite cellOf_present.
        destruct (isNaN (Number (trim s))); intros H; discriminate H.
      * intros ->. reflexivity.
      * intros H0 s -> Hs. cbn [fmap option_fmap option_map].
        rewrite cellOf_present, Hs, H0. reflexivity.
Qed.

Lemma parseCSV_rows_witness :
  nonBlankLines sampleCsv = ["Year,Revenue"; "2020,100"; "2021,"]
  /\ NoDup (headersOf "Year,Revenue")
  /\ digitsNumber EmptyString = num 0
  /\ length (parseCSV digitsNumber sampleCsv) = 2%nat
  /\ exists r,
       parseCSV digitsNumber sampleCsv !! 1%nat = Some r
       /\ r !! "Revenue" = Some (CellNum (num 0))
       /\ r !! "Budget" = None.
Proof.
  assert (nonBlankLines sampleCsv = ["Year,Revenue"; "2020,100"; "2021,"])
    as Hlines by (vm_compute; reflexivity).
  assert (NoDup (headersOf "Year,Revenue")) as Hnd
    by (refine (bool_decide_unpack _ _); vm_compute; exact I).
  assert (digitsNumber EmptyString = num 0) as H0 by reflexivity.
  destruct (parseCSV_rows digitsNumber sampleCsv) as [_ Hrows].
  destruct (Hrows _ _ Hlines ltac:(discriminate)) as [Hlen Hrow].
  destruct (Hrow 1%nat "2021," eq_refl) as (r & Hr & _ & _ & Hcell).
  destruct (Hcell Hnd 1%nat "Revenue" ltac:(vm_compute; reflexivity)
              ltac:(discriminate) ltac:(discriminate)) as (_ & _ & Hblank).
  split; [exact Hlines|]. split; [exact Hnd|]. split; [exact H0|].
  split; [exact Hlen|]. exists r. split; [exact Hr|].
  split; [exact (Hblank H0 EmptyString ltac:(vm_compute; reflexivity)
                   eq_refl)|].
  assert (parseCSV digitsNumber sampleCsv !! 1%nat
          = Some ({[ "Year" := CellNum (num 2021);
                     "Revenue" := CellNum (num 0) ]}
                  : gmap string CsvCell)) as Hc by by_compute.
  rewrite Hc in Hr. injection Hr as <-. by_compute.
Defined.

(** ** Carriage returns *)

Lemma append_nil (x : string) : EmptyString +:+ x = x.
Proof. reflexivity. Qed.

Lemma append_cons (c : Ascii.ascii) (l x : string) :
  String c l +:+ x = String c (l +:+ x).
Proof. reflexivity. Qed.

Lemma split_nonempty (sep : Ascii.ascii) (s : string) : split sep s <> [].
Proof.
  destruct s as [|c s]; cbn [split]; [discriminate|].
  destruct (decide (c = sep)); [discriminate|].
  destruct (split sep s); discriminate.
Qed.

Lemma split_one_line (s : string) : oneLine s = true -> split chLF s = [s].
Proof.
  induction s as [|c s IH]; [reflexivity|]. cbn [oneLine split].
  intros [Hc Hs]%andb_prop. apply negb_true_iff, bool_decide_eq_false_1 in Hc.
  rewrite decide_False by exact Hc. rewrite (IH Hs). reflexivity.
Qed.

Lemma split_line_feed (l t : string) :
  oneLine l = true ->
  split chLF (l +:+ String chLF t) = l :: split chLF t.
Proof.
  induction l as [|c l IH]; rewrite ?append_nil, ?append_cons;
    cbn [oneLine split].
  - intros _. destruct (decide (chLF = chLF)); [reflexivity | contradiction].
  - intros [Hc Hs]%andb_prop.
    apply negb_true_iff, bool_decide_eq_false_1 in Hc.
    rewrite decide_False by exact Hc. rewrite (IH Hs). reflexivity.
Qed.

Lemma split_joinLines (ls : list string) :
  ls <> [] -> Forall (fun l => oneLine l = true) ls ->
  split chLF (joinLines ls) = ls.
Proof.
  intros Hne Hall. induction Hall as [|l ls Hl Hall IH]; [contradiction|].
  destruct ls as [|l' ls]; cbn [joinLines].
  - apply split_one_line, Hl.
  - rewrite (split_line_feed _ _ Hl). f_equal. apply IH. discriminate.
Qed.

Lemma split_snoc (sep c : Ascii.ascii) (s : string) :
  c <> sep ->
  split sep (s +:+ String c EmptyString)
  = appLast (split sep s) (String c EmptyString).
Proof.
  intros Hc. induction s as [|a s IH]; rewrite ?append_nil, ?append_cons;
    cbn [split].
  - destruct (decide (c = sep)); [contradiction | reflexivity].
  - destruct (decide (a = sep)).
    + rewrite IH. cbn [appLast].
      destruct (split sep s) eqn:E; [|reflexivity].
      exfalso. exact (split_nonempty sep s E).
    + rewrite IH. destruct (split sep s) as [|cur [|x rest]] eqn:E.
      * exfalso. exact (split_nonempty sep s E).
      * reflexivity.
      * reflexivity.
Qed.

Lemma trimEnd_snoc (c : Ascii.ascii) (s : string) :
  isSpace c = true -> trimEnd (s +:+ String c EmptyString) = trimEnd s.
Proof.
  intros Hc. induction s as [|a s IH]; rewrite ?append_nil, ?append_cons;
    cbn [trimEnd].
  - rewrite Hc. reflexivity.
  - rewrite IH. reflexivity.
Qed.

Lemma trim_snoc (c : Ascii.ascii) (s : string) :
  isSpace c = true -> trim (s +:+ String c EmptyString) = trim s.
Proof.
  intros Hc. unfold trim.
  induction s as [|a s IH]; rewrite ?append_nil, ?append_cons;
    cbn [trimStart].
  - rewrite Hc. reflexivity.
  - destruct (isSpace a); [exact IH|].
    apply (trimEnd_snoc c (String a s) Hc).
Qed.

Lemma trim_appLast (c : Ascii.ascii) (l : list string) :
  isSpace c = true ->
  map trim (appLast l (String c EmptyString)) = map trim l.
Proof.
  intros Hc. induction l as [|x l IH]; [reflexivity|].
  destruct l as [|y l].
  - cbn [appLast map]. rewrite (trim_snoc c x Hc). reflexivity.
  - change (appLast (x :: y :: l) ?t) with (x :: appLast (y :: l) t).
    cbn [map]. cbn [map] in IH. rewrite IH. reflexivity.
Qed.

Lemma trim_cells_sameLine (l l' : string) :
  sameLine l l' ->
  map trim (split chComma l') = map trim (split chComma l)
  /\ trim l' = trim l.
Proof.
  intros [-> | ->]; [split; reflexivity|].
  assert (isSpace chCR = true) as Hs by reflexivity.
  split; [|apply trim_snoc, Hs].
  rewrite split_snoc by discriminate. apply trim_appLast, Hs.
Qed.

Lemma reduce_from_ext {A B : Type} (f f' : B -> A -> nat -> B) (l : list A) :
  (forall b a i, f b a i = f' b a i) ->
  forall i acc, reduce_from f i l acc = reduce_from f' i l acc.
Proof.
  intros Hf. induction l as [|a l IH]; intros i acc; [reflexivity|].
  cbn [reduce_from]. rewrite Hf. apply IH.
Qed.

Lemma parseLine_trimmed (Number : string -> jsnum) (hs : list string)
    (l l' : string) :
  map trim (split chComma l') = map trim (split chComma l) ->
  parseLine Number hs l' = parseLine Number hs l.
Proof.
  intros H. unfold parseLine. cbv zeta. unfold reduce.
  rewrite (reduce_from_ext
             (fun obj h i =>
                assign h (cellOf Number (trim <$> split chComma l' !! i)) obj)
             (fun obj h i =>
                assign h (cellOf Number (trim <$> split chComma l !! i)) obj)).
  - reflexivity.
  - intros obj h i. do 2 f_equal.
    change (trim <$> ?v !! i) with (fmap (M := option) trim (v !! i)).
    rewrite <- !list_lookup_fmap.
    change (trim <$> ?v) with (map trim v). rewrite H. reflexivity.
Qed.

Lemma oneLine_sameLine (l l' : string) :
  sameLine l l' -> oneLine l = true -> oneLine l' = true.
Proof.
  intros [-> | ->] H; [exact H|].
  induction l as [|c l IH]; rewrite ?append_nil, ?append_cons; [reflexivity|].
  cbn [oneLine] in *. apply andb_prop in H as [H1 H2].
  rewrite H1, (IH H2). reflexivity.
Qed.

Lemma nonBlank_sameLine (ls ls' : list string) :
  Forall2 sameLine ls ls' ->
  Forall2 sameLine
    (List.filter (fun l => negb (bool_decide (trim l = EmptyString))) ls)
    (List.filter (fun l => negb (bool_decide (trim l = EmptyString))) ls').
Proof.
  induction 1 as [|l l' ls ls' Hl _ IH]; [constructor|].
  cbn [List.filter]. rewrite (proj2 (trim_cells_sameLine l l' Hl)).
  destruct (negb _); [constructor; assumption | exact IH].
Qed.

Lemma nonBlankLines_joinLines (ls : list string) :
  Forall (fun l => oneLine l = true) ls ->
  nonBlankLines (joinLines ls)
  = List.filter (fun l => negb (bool_decide (trim l = EmptyString))) ls.
Proof.
  intros H. unfold nonBlankLines. destruct ls as [|l ls]; [reflexivity|].
  rewrite split_joinLines by (discriminate || exact H). reflexivity.
Qed.

(** X16.  Carriage returns at the ends of lines make no difference:
    two texts whose lines differ only by a trailing carriage return, on
    any of the lines, parse to the same records. *)
Theorem parseCSV_ignores_carriage_returns
    (Number : string -> jsnum) (ls ls' : list string) :
  Forall (fun l => oneLine l = true) ls ->
  Forall2 sameLine ls ls' ->
  parseCSV Number (joinLines ls') = parseCSV Number (joinLines ls).
Proof.
  intros Hone Hsame.
  assert (Forall (fun l => oneLine l = true) ls') as Hone'.
  { clear -Hone Hsame. induction Hsame as [|l l' ls ls' Hl _ IH];
      [constructor|].
    apply Forall_cons in Hone as [H1 H2]. constructor.
    - exact (oneLine_sameLine l l' Hl H1).
    - exact (IH H2). }
  unfold parseCSV.
  rewrite (nonBlankLines_joinLines ls Hone),
    (nonBlankLines_joinLines ls' Hone').
  pose proof (nonBlank_sameLine ls ls' Hsame) as Hnb.
  revert Hnb.
  generalize (List.filter (fun l => negb (bool_decide (trim l = EmptyString)))
                ls)
             (List.filter (fun l => negb (bool_decide (trim l = EmptyString)))
                ls').
  intros ks ks' Hnb. cbv zeta.
  rewrite <- (Forall2_length _ _ _ Hnb).
  destruct (bool_decide (length ks < 2)%nat); [reflexivity|].
  destruct Hnb as [|first first' rest rest' Hfirst Hrest]; [reflexivity|].
  assert (headersOf first' = headersOf first) as ->.
  { unfold headersOf.
    rewrite <- !(map_map trim removeQuotes).
    rewrite (proj1 (trim_cells_sameLine first first' Hfirst)). reflexivity. }
  induction Hrest as [|l l' rest rest' Hl _ IH]; [reflexivity|].
  cbn [map]. rewrite IH.
  rewrite (parseLine_trimmed Number _ l l'
             (proj1 (trim_cells_sameLine l l' Hl))).
  reflexivity.
Qed.

Lemma parseCSV_ignores_carriage_returns_witness :
  let ls := ["Year,Revenue"; "2020,100"; "2021,"; EmptyString] in
  let cr := String chCR EmptyString in
  let ls' := ["Year,Revenue" +:+ cr; "2020,100" +:+ cr; "2021," +:+ cr;
              EmptyString] in
  Forall (fun l => oneLine l = true) ls
  /\ Forall2 sameLine ls ls'
  /\ joinLines ls = sampleCsv
  /\ parseCSV digitsNumber (joinLines ls') = parseCSV digitsNumber sampleCsv.
Proof.
  intros ls cr ls'.
  assert (Forall (fun l => oneLine l = true) ls) as H1
    by (repeat constructor).
  assert (Forall2 sameLine ls ls') as H2
    by (repeat constructor; first [right; reflexivity | left; reflexivity]).
  assert (joinLines ls = sampleCsv) as H3 by reflexivity.
  split; [exact H1|]. split; [exact H2|]. split; [exact H3|].
  rewrite <- H3.
  exact (parseCSV_ignores_carriage_returns digitsNumber ls ls' H1 H2).
Defined.

(** ** Exporting the valuation *)

Lemma round_half_up_qz (z : Z) : round_half_up (qz z) = z.
Proof.
  destruct (round_half_up_bounds (qz z)) as [R1 R2].
  revert R1 R2. generalize (round_half_up (qz z)). intros r.
  assert (this (qz z) == inject_Z z)%Q as ->
    by (unfold qz, Q2Qc, this; rewrite Qred_correct; reflexivity).
  intros R1 R2.
  assert (inject_Z r < inject_Z (z + 1))%Q as H1.
  { rewrite inject_Z_plus. change (inject_Z 1) with 1%Q. Lqa.lra. }
  assert (inject_Z z < inject_Z (r + 1))%Q as H2.
  { rewrite inject_Z_plus. change (inject_Z 1) with 1%Q. Lqa.lra. }
  rewrite <- Zlt_Qlt in H1, H2. lia.
Qed.

Lemma Math_round_idempotent (x : jsnum) :
  Math_round (Math_round x) = Math_round x.
Proof.
  destruct x as [q| | |]; try reflexivity.
  cbn [Math_round]. rewrite round_half_up_qz. reflexivity.
Qed.

(** X17.  The valuation sheet of the export reads three entries of the
    waterfall.  While none is stored (the state of the first render, and
    for as long as the kernel is loading, since [runValuation] then
    stores nothing) reading the first one throws.  Once either path has
    stored a valuation the read succeeds and the sheet shows the three
    stored values unchanged, rounding being idempotent, then the stored
    enterprise value less the net debt, rounded. *)
Theorem export_needs_stored_valuation
    (polyfit : list Qc -> list Qc -> pyres (Qc * Qc)) (st : AppState) :
  (waterfall (valuationResult st) = [] ->
   valuationDetailOutputs (valuationResult st) (netDebt st) = None
   /\ (pythonStatus st = loading ->
       valuationDetailOutputs (valuationResult (runValuation polyfit st))
         (netDebt st) = None))
  /\ (forall res,
        jsValuation (data st) (wacc st) (termGrowth st) (netDebt st)
          (shares st) = Some res
        \/ (pythonStatus st = ready /\ pyodide st = true
            /\ (exists o,
                  valuationScript polyfit (data st) (wacc st) (termGrowth st)
                    (netDebt st) (shares st) = PyVal (ValuationSuccess o))
            /\ res = valuationResult (runValuation polyfit st)) ->
        valuationDetailOutputs res (netDebt st)
        = Some (map value (waterfall res)
                  ++ [Math_round
                        (default NaN (value <$> last (waterfall res))
                         - netDebt st)%js])).
Proof.
  split.
  - intros Hw. split.
    + unfold valuationDetailOutputs. rewrite Hw. reflexivity.
    + intros Hl. unfold runValuation. rewrite Hl.
      rewrite bool_decide_eq_false_2 by discriminate. cbn [andb].
      rewrite bool_decide_eq_true_2 by reflexivity.
      unfold valuationDetailOutputs. rewrite Hw. reflexivity.
  - intros res Hstored.
    destruct (stored_valuation_is_bridge polyfit st res Hstored)
      as (s & t & Hw).
    unfold valuationDetailOutputs. rewrite Hw. unfold buildWaterfall.
    cbn [lookup list_lookup mbind option_bind value map last fmap option_fmap
           option_map default app].
    rewrite !Math_round_idempotent. reflexivity.
Qed.

Lemma export_needs_stored_valuation_witness :
  let st := initialState growthData in
  waterfall (valuationResult st) = []
  /\ pythonStatus st = loading
  /\ valuationDetailOutputs (valuationResult (runValuation exact_polyfit st))
       (netDebt st) = None
  /\ valuationDetailOutputs
       (valuationResult (runJSValuation st)) (netDebt st)
     = Some [num 64; num 161; num 225; num 75].
Proof.
  intros st.
  destruct (export_needs_stored_valuation exact_polyfit st) as [Hinit Hstored].
  destruct (Hinit eq_refl) as [_ Hload].
  split; [reflexivity|]. split; [reflexivity|].
  split; [exact (Hload eq_refl)|].
  assert (map value (waterfall (valuationResult (runJSValuation st)))
          = [num 64; num 161; num 225]) as Hvals by by_compute.
  assert (exists res,
            jsValuation (data st) (wacc st) (termGrowth st) (netDebt st)
              (shares st) = Some res
            /\ valuationResult (runJSValuation st) = res)
    as (res' & Hres & Hrun)
    by (eexists; split; vm_compute; reflexivity).
  rewrite Hrun in Hvals |- *. rewrite (Hstored res' (or_introl Hres)), Hvals.
  destruct (waterfall res') as [|e0 [|e1 [|e2 [|e3 w]]]];
    try discriminate Hvals.
  cbn [map] in Hvals. injection Hvals as _ _ H2.
  cbn [last fmap option_fmap option_map default app]. rewrite H2.
  by_compute.
Defined.

(** ** Lengthening the horizon *)

(** X18.  The projected years and values of the fallback do not depend
    on the horizon or on the sensitivity: for a longer horizon the first
    rows carry the same [Year] and [Forecast] as before (only [High] and
    [Low] move). *)
Theorem js_forecast_prefix
    (data : list FinancialRecord) (metric : string) (h h' : nat)
    (sens sens' : jsnum) :
  (h <= h')%nat ->
  map (fun p => (fYear p, fForecast p)) (jsFuturePoints data metric h sens)
  = take h (map (fun p => (fYear p, fForecast p))
              (jsFuturePoints data metric h' sens')).
Proof.
  intros Hh. unfold jsFuturePoints, jsBands.
  destruct (fitTrend (length data) _ _) as [slope intercept].
  rewrite !map_map.
  change (map ?f (seq 1 h')) with (f <$> seq 1 h').
  rewrite <- fmap_take, take_seq, Nat.min_l by exact Hh.
  reflexivity.
Qed.

Lemma js_forecast_prefix_witness :
  (2 <= 5)%nat
  /\ map (fun p => (fYear p, fForecast p))
       (jsFuturePoints growthData "Revenue" 2 (num 10))
     = [(num 2023, num 130); (num 2024, num 140)]
  /\ take 2 (map (fun p => (fYear p, fForecast p))
               (jsFuturePoints growthData "Revenue" 5 (num 30)))
     = [(num 2023, num 130); (num 2024, num 140)].
Proof.
  assert (2 <= 5)%nat as H by lia.
  assert (map (fun p => (fYear p, fForecast p))
            (jsFuturePoints growthData "Revenue" 2 (num 10))
          = [(num 2023, num 130); (num 2024, num 140)]) as H1 by by_compute.
  split; [exact H|]. split; [exact H1|].
  rewrite <- (js_forecast_prefix growthData "Revenue" 2 5 (num 10) (num 30) H).
  exact H1.
Defined.

(** ** The band around the forecast *)

Lemma round_half_up_mono (a b : Qc) :
  a <= b -> (round_half_up a <= round_half_up b)%Z.
Proof.
  intros H. unfold round_half_up. apply Qfloor_resp_le.
  change (this (qd 1 2)) with (1 # 2)%Q. revert H. qc_unfold. intros H.
  Lqa.lra.
Qed.

Lemma round_half_up_pos (a : Qc) : (0 < round_half_up a)%Z -> 0 < a.
Proof.
  intros H. destruct (Qclt_le_dec 0 a) as [|Hle]; [assumption|]. exfalso.
  pose proof (round_half_up_mono a 0 Hle) as Hm.
  assert (round_half_up 0 = 0%Z) as E by reflexivity. lia.
Qed.

Lemma round_half_up_neg (a : Qc) : (round_half_up a < 0)%Z -> a < 0.
Proof.
  intros H. destruct (Qclt_le_dec a 0) as [|Hle]; [assumption|]. exfalso.
  pose proof (round_half_up_mono 0 a Hle) as Hm.
  assert (round_half_up 0 = 0%Z) as E by reflexivity. lia.
Qed.

Lemma band_order (p k : Qc) :
  0 <= k ->
  (0 <= p -> p * (1 - k) <= p /\ p <= p * (1 + k))
  /\ (p <= 0 -> p * (1 + k) <= p /\ p <= p * (1 - k)).
Proof.
  qc_unfold. intros Hk. split; intros Hp; split; Lqa.nra.
Qed.

Lemma spread_nonneg (s : Qc) (i h : nat) :
  0 <= s -> 0 <= s / qz 100 * (qz (Z.of_nat i) / qz (Z.of_nat h)).
Proof.
  intros Hs.
  assert (0 <= s / qz 100) as H1.
  { revert Hs. qc_unfold. change (/ (100 # 1))%Q with (1 # 100)%Q.
    intros Hs. Lqa.lra. }
  assert (0 <= qz (Z.of_nat i) / qz (Z.of_nat h)) as H2.
  { unfold Qcdiv. destruct h as [|h].
    - change (Z.of_nat 0) with 0%Z. rewrite qz_0.
      assert (/ 0 = 0) as -> by (apply Qc_this_eq; reflexivity).
      rewrite Qcmult_0_r. apply Qcle_refl.
    - rewrite <- (Qcmult_0_l (/ qz (Z.of_nat (S h)))).
      apply Qcmult_le_compat_r; [apply qz_nat_nonneg|].
      apply Qclt_le_weak, Qcinv_pos, qz_nat_pos. lia. }
  revert H1 H2. generalize (s / qz 100) (qz (Z.of_nat i) / qz (Z.of_nat h)).
  intros a b. qc_unfold. intros H1 H2. Lqa.nra.
Qed.

(** X19.  On at least two records with finite cells and distinct years,
    for a sensitivity that is not negative, every projected row of the
    fallback carries three integers; where the forecast is positive the
    band brackets it, [Low <= Forecast <= High], and where the forecast is
    negative the band is upside down, [High <= Forecast <= Low]. *)
Theorem js_band_brackets_forecast
    (data : list FinancialRecord) (metric : string) (h : nat)
    (xs ys : list Qc) (sens : Qc) :
  map (fun d : FinancialRecord => d !! "Year") data = fin_cells xs ->
  map (fun d : FinancialRecord => d !! metric) data = fin_cells ys ->
  (2 <= length data)%nat ->
  NoDup xs ->
  0 <= sens ->
  Forall (fun p =>
            exists f hi lo : Z,
              fForecast p = num f /\ fHigh p = num hi /\ fLow p = num lo
              /\ (0 < f -> lo <= f <= hi)%Z
              /\ (f < 0 -> hi <= f <= lo)%Z)
    (jsFuturePoints data metric h (Fin sens)).
Proof.
  intros Hx Hy Hlen Hnd Hs.
  assert (length xs = length data) as Lx
    by (rewrite <- (length_map (fun q : Qc => Some (Fin q)) xs), <- Hx;
        apply length_map).
  assert (length ys = length data) as Ly
    by (rewrite <- (length_map (fun q : Qc => Some (Fin q)) ys), <- Hy;
        apply length_map).
  pose proof (fitTrend_fin xs ys (eq_trans Lx (eq_sym Ly)) ltac:(lia) Hnd)
    as Hfit.
  cbn zeta in Hfit. rewrite Lx in Hfit at 1.
  unfold jsFuturePoints, jsBands. rewrite Hx, Hy, Hfit.
  assert (exists xl, last xs = Some xl) as [xl Hxl].
  { destruct (last xs) eqn:E; [eauto|]. apply last_None in E.
    rewrite E in Lx. cbn in Lx. lia. }
  assert (last (fin_cells xs) = Some (Some (Fin xl))) as ->.
  { change (fin_cells xs) with ((fun q : Qc => Some (Fin q)) <$> xs).
    rewrite fmap_last, Hxl. reflexivity. }
  cbn [mjoin option_join option_bind mbind].
  apply Forall_forall. intros p Hp.
  apply list_elem_of_fmap in Hp as (b & -> & Hb).
  apply list_elem_of_fmap in Hb as (i & -> & Hi).
  apply elem_of_seq in Hi.
  rewrite forecastBand_fin by lia.
  cbn [pushed b_val b_high b_low fForecast fHigh fLow Math_round].
  do 3 eexists. split; [reflexivity|]. split; [reflexivity|].
  split; [reflexivity|].
  match goal with
  | |- context [round_half_up (?p * (1 + ?k))] =>
      destruct (band_order p k (spread_nonneg sens i h Hs)) as [Hpos Hneg];
      split; intros Hf
  end.
  - apply round_half_up_pos, Qclt_le_weak in Hf.
    destruct (Hpos Hf). split; apply round_half_up_mono; assumption.
  - apply round_half_up_neg, Qclt_le_weak in Hf.
    destruct (Hneg Hf). split; apply round_half_up_mono; assumption.
Qed.

Lemma js_band_brackets_forecast_witness :
  let xs := [qz 2020; qz 2021; qz 2022] in
  let ys := [qz 500; qz 400; qz 300] in
  map (fun d : FinancialRecord => d !! "Year") declineData = fin_cells xs
  /\ map (fun d : FinancialRecord => d !! "Revenue") declineData
     = fin_cells ys
  /\ NoDup xs
  /\ 0 <= qz 20
  /\ jsFuturePoints declineData "Revenue" 5 (num 20) !! 4%nat
     = Some (mkFuture (num 2027) (num (-200)) (num (-240)) (num (-160)))
  /\ Forall (fun p =>
               exists f hi lo : Z,
                 fForecast p = num f /\ fHigh p = num hi /\ fLow p = num lo
                 /\ (0 < f -> lo <= f <= hi)%Z
                 /\ (f < 0 -> hi <= f <= lo)%Z)
       (jsFuturePoints declineData "Revenue" 5 (num 20)).
Proof.
  intros xs ys.
  assert (map (fun d : FinancialRecord => d !! "Year") declineData
          = fin_cells xs) as Hx by (vm_compute; reflexivity).
  assert (map (fun d : FinancialRecord => d !! "Revenue") declineData
          = fin_cells ys) as Hy by (vm_compute; reflexivity).
  assert (NoDup xs) as Hnd
    by (refine (bool_decide_unpack _ _); vm_compute; exact I).
  assert (0 <= qz 20) as Hs
    by (apply Qcle_by_compute; vm_compute; reflexivity).
  split; [exact Hx|]. split; [exact Hy|]. split; [exact Hnd|].
  split; [exact Hs|]. split; [by_compute|].
  exact (js_band_brackets_forecast declineData "Revenue" 5 xs ys (qz 20)
           Hx Hy ltac:(cbn; lia) Hnd Hs).
Defined.

(** ** The share price against the bridge *)

Lemma equity_round_trip (ev : jsnum) (nd sh : Qc) :
  sh <> 0 -> ((ev - Fin nd) / Fin sh * Fin sh + Fin nd)%js = ev.
Proof.
  intros Hsh. destruct ev as [e| | |]; [| | |reflexivity].
  - rewrite jsub_fin, (jdiv_fin _ _ Hsh), jmul_fin, jadd_fin. f_equal.
    apply Qc_this_neq in Hsh. apply Qc_this_eq. qc_unfold. field. exact Hsh.
  - cbn [jsub jneg jadd jdiv].
    destruct (sh ?= 0) eqn:E.
    + apply Qceq_alt in E. contradiction.
    + cbn [jmul jsign]. rewrite E. reflexivity.
    + cbn [jmul jsign]. rewrite E. reflexivity.
  - cbn [jsub jneg jadd jdiv].
    destruct (sh ?= 0) eqn:E.
    + apply Qceq_alt in E. contradiction.
    + cbn [jmul jsign]. rewrite E. reflexivity.
    + cbn [jmul jsign]. rewrite E. reflexivity.
Qed.

(** X20.  The bridge of the fallback does not depend on the net debt or
    on the share count.  And whichever path stored the valuation, for a
    finite net debt and a positive share count, there is an enterprise
    value [ev] whose rounding is the value of the last entry of the
    bridge and which the share price gives back:
    [sharePrice * shares + netDebt = ev]. *)
Theorem share_price_matches_bridge
    (polyfit : list Qc -> list Qc -> pyres (Qc * Qc)) (st : AppState)
    (res : ValuationResult) (nd sh : Qc) :
  jsValuation (data st) (wacc st) (termGrowth st) (netDebt st) (shares st)
  = Some res
  \/ (pythonStatus st = ready /\ pyodide st = true
      /\ (exists o,
            valuationScript polyfit (data st) (wacc st) (termGrowth st)
              (netDebt st) (shares st) = PyVal (ValuationSuccess o))
      /\ res = valuationResult (runValuation polyfit st)) ->
  netDebt st = Fin nd -> shares st = Fin sh -> 0 < sh ->
  (exists ev,
     value <$> last (waterfall res) = Some (Math_round ev)
     /\ (sharePrice res * Fin sh + Fin nd)%js = ev)
  /\ (forall netDebt' shares',
        waterfall <$> jsValuation (data st) (wacc st) (termGrowth st)
                        netDebt' shares'
        = waterfall <$> jsValuation (data st) (wacc st) (termGrowth st)
                          (netDebt st) (shares st)).
Proof.
  intros Hstored Hn Hs Hsh.
  assert (sh <> 0) as Hsh0 by (apply Qclt_neq_0, Hsh).
  split.
  - destruct Hstored as [Hjs | (Hready & Hpy & [o Hrun] & ->)].
    + unfold jsValuation in Hjs.
      destruct (bool_decide (data st = [])); [discriminate|].
      apply (inj Some) in Hjs. subst res. rewrite Hn, Hs. unfold jsDcf.
      destruct (fitTrend (length (data st)) _ _) as [slope intercept].
      cbn [sharePrice waterfall dcfSharePrice discountedSum discountedTV
             enterpriseValue buildWaterfall last fmap option_fmap option_map
             value].
      eexists. split; [reflexivity|].
      apply equity_round_trip, Hsh0.
    + unfold runValuation. rewrite Hready, Hpy, Hrun.
      rewrite bool_decide_eq_true_2 by reflexivity.
      cbn [andb valuationResult addLog setValuationSource setValuationResult
             sharePrice waterfall buildWaterfall last fmap option_fmap
             option_map value].
      exists (Fin (enterprise_value o)). split; [reflexivity|].
      unfold valuationScript in Hrun. rewrite Hn, Hs in Hrun.
      repeat py_step Hrun. injection Hrun as <-.
      cbn [share_price enterprise_value].
      cbn [py_number] in *.
      repeat match goal with
             | H : PyVal _ = PyVal _ |- _ => injection H as <-
             end.
      match goal with
      | H : (if bool_decide (0 < _) then _ else _) = PyVal _ |- _ =>
          rewrite (bool_decide_eq_true_2 _ Hsh) in H;
          apply py_div_val in H as [_ ->]
      end.
      rewrite jmul_fin, jadd_fin. f_equal.
      apply Qc_this_neq in Hsh0. apply Qc_this_eq. qc_unfold. field.
      exact Hsh0.
  - intros netDebt' shares'. unfold jsValuation.
    destruct (bool_decide (data st = [])); [reflexivity|].
    unfold jsDcf.
    destruct (fitTrend (length (data st)) _ _) as [slope intercept].
    reflexivity.
Qed.

Lemma share_price_matches_bridge_witness :
  let st := initialState growthData in
  0 < qz 50
  /\ exists res,
       jsValuation (data st) (wacc st) (termGrowth st) (netDebt st)
         (shares st) = Some res
       /\ exists ev,
            value <$> last (waterfall res) = Some (Math_round ev)
            /\ (sharePrice res * Fin (qz 50) + Fin (qz 150))%js = ev.
Proof.
  intros st.
  assert (0 < qz 50) as Hsh
    by (apply Qclt_by_compute; vm_compute; reflexivity).
  assert (exists res,
            jsValuation (data st) (wacc st) (termGrowth st) (netDebt st)
              (shares st) = Some res) as [res Hres]
    by (vm_compute; eexists; reflexivity).
  split; [exact Hsh|]. exists res. split; [exact Hres|].
  exact (proj1 (share_price_matches_bridge exact_polyfit st res (qz 150)
                  (qz 50) (or_introl Hres) eq_refl eq_refl Hsh)).
Defined.

(** ** Whole-number data on a line is extrapolated exactly *)

Lemma qz_inj (a b : Z) : qz a = qz b -> a = b.
Proof.
  intros H. destruct (Z.lt_total a b) as [L | [E | L]]; [|exact E|];
    apply (proj1 (qz_lt _ _)) in L; rewrite H in L;
    exfalso; exact (Qclt_not_eq _ _ L eq_refl).
Qed.

(** The slope of a line through two whole points of distinct abscissa is
    at most their difference in ordinate. *)
Lemma whole_slope_bound (a b B z1 z2 w1 w2 : Z) :
  (a * z1 + b = w1 -> a * z2 + b = w2 -> z1 <> z2 ->
   Z.abs w1 <= B -> Z.abs w2 <= B -> Z.abs a <= 2 * B)%Z.
Proof. intros E1 E2 Hne H1 H2. nia. Qed.

(** X1.  In exact arithmetic, on data small enough for binary64
    arithmetic to be exact as well: two or more records with distinct
    whole-number years whose metric lies on a line [value = a * year + b]
    with whole [a] and [b]; years, values and intercept of absolute value
    at most [B]; and [2 n^2 B^2 + 2 B h + B <= 2^53], which keeps every
    sum, product and quotient of the least-squares block and of the loop a
    whole number that a double holds.  Then the fallback projects, whatever
    the sensitivity, the years [lastYear + i] with
    [Forecast = a * (lastYear + i) + b] for [i = 1 .. h], and each of these
    figures is a whole number of absolute value at most [2^53]. *)
Theorem js_forecast_extrapolates_line
    (data : list FinancialRecord) (metric : string) (xs ys : list Qc)
    (a b B : Z) (xl : Qc) (h : nat) (sens : jsnum) :
  map (fun d : FinancialRecord => d !! "Year") data = fin_cells xs ->
  map (fun d : FinancialRecord => d !! metric) data = fin_cells ys ->
  (2 <= length data)%nat ->
  NoDup xs ->
  Forall2 (fun x y => y = qz a * x + qz b) xs ys ->
  last xs = Some xl ->
  Forall (wholeWithin B) xs ->
  Forall (wholeWithin B) ys ->
  (Z.abs b <= B)%Z ->
  (2 * Z.of_nat (length data) ^ 2 * B ^ 2 + 2 * B * Z.of_nat h + B
   <= 2 ^ 53)%Z ->
  exists lastYear : Z,
    xl = qz lastYear
    /\ map (fun p => (fYear p, fForecast p))
         (jsFuturePoints data metric h sens)
       = map (fun i : nat =>
                (num (lastYear + Z.of_nat i),
                 num (a * (lastYear + Z.of_nat i) + b)))
           (seq 1 h)
    /\ forall i : nat,
         (1 <= i <= h)%nat ->
         (Z.abs (lastYear + Z.of_nat i) <= 2 ^ 53
          /\ Z.abs (a * (lastYear + Z.of_nat i) + b) <= 2 ^ 53)%Z.
Proof.
  intros Hx Hy H2 Hnd Hline Hlast Hxs Hys Hb Hbound.
  assert (length xs = length data) as Lx
    by (rewrite <- (length_map (fun q : Qc => Some (Fin q)) xs), <- Hx;
        apply length_map).
  assert (length ys = length data) as Ly
    by (rewrite <- (length_map (fun q : Qc => Some (Fin q)) ys), <- Hy;
        apply length_map).
  assert (wholeWithin B xl) as (zl & -> & Hzl).
  { rewrite Forall_forall in Hxs. apply Hxs, last_Some_elem_of, Hlast. }
  exists zl. split; [reflexivity|]. split.
  - unfold jsFuturePoints, jsBands. rewrite Hx, Hy, <- Lx.
    rewrite (fitTrend_on_line xs ys (qz a) (qz b))
      by (congruence || lia || assumption).
    change (last (fin_cells xs)) with (last ((fun q => Some (Fin q)) <$> xs)).
    rewrite fmap_last, Hlast. rewrite !map_map. apply map_ext. intros i.
    unfold pushed, forecastBand.
    cbn [fYear fForecast b_year b_val ToNumber mjoin option_join option_bind
           mbind default].
    change (ToNumber (mjoin ((fun q : Qc => Some (Fin q)) <$> Some (qz zl))))
      with (Fin (qz zl)).
    unfold num. rewrite jadd_fin, jmul_fin, jadd_fin. cbn [Math_round].
    unfold num. rewrite <- qz_add, <- qz_mul, <- qz_add, round_half_up_qz.
    reflexivity.
  - assert (Z.abs a <= 2 * B /\ 1 <= B)%Z as [Ha HB].
    { destruct Hline as [|x1 y1 xs1 ys1 E1 Hline]; [cbn in Lx; lia|].
      destruct Hline as [|x2 y2 xs2 ys2 E2 Hline]; [cbn in Lx; lia|].
      apply Forall_cons in Hxs as [(z1 & -> & Hz1) Hxs].
      apply Forall_cons in Hxs as [(z2 & -> & Hz2) _].
      apply Forall_cons in Hys as [(w1 & -> & Hw1) Hys].
      apply Forall_cons in Hys as [(w2 & -> & Hw2) _].
      rewrite <- qz_mul, <- qz_add in E1, E2.
      apply qz_inj in E1, E2.
      apply NoDup_cons in Hnd as [Hnin _].
      assert (z1 <> z2) as Hne
        by (intros ->; apply Hnin; left).
      split; [|lia].
      apply (whole_slope_bound a b B z1 z2 w1 w2); congruence || assumption. }
    intros i Hi.
    assert (4 <= Z.of_nat (length data) ^ 2)%Z as Hn by nia.
    assert (2 * B ^ 2 <= 2 * Z.of_nat (length data) ^ 2 * B ^ 2)%Z by nia.
    assert (Z.abs (zl + Z.of_nat i) <= B + Z.of_nat h)%Z as Hy' by lia.
    assert (B + Z.of_nat h <= 2 * B * Z.of_nat h + B)%Z by nia.
    split; [lia|].
    assert (Z.abs (a * (zl + Z.of_nat i))
            <= 2 * B * (B + Z.of_nat h))%Z as Hprod.
    { rewrite Z.abs_mul. apply Z.mul_le_mono_nonneg; lia. }
    pose proof (Z.abs_triangle (a * (zl + Z.of_nat i)) b). nia.
Qed.

Lemma js_forecast_extrapolates_line_witness :
  let xs := [qz 2020; qz 2021; qz 2022] in
  let ys := [qz 100; qz 110; qz 120] in
  map (fun d : FinancialRecord => d !! "Year") growthData = fin_cells xs
  /\ map (fun d : FinancialRecord => d !! "Revenue") growthData = fin_cells ys
  /\ (2 <= length growthData)%nat
  /\ NoDup xs
  /\ Forall2 (fun x y => y = qz 10 * x + qz (-20100)) xs ys
  /\ Forall (wholeWithin 20100) xs
  /\ Forall (wholeWithin 20100) ys
  /\ (2 * Z.of_nat (length growthData) ^ 2 * 20100 ^ 2
      + 2 * 20100 * Z.of_nat 2 + 20100 <= 2 ^ 53)%Z
  /\ map (fun p => (fYear p, fForecast p))
       (jsFuturePoints growthData "Revenue" 2 NaN)
     = [(num 2023, num 130); (num 2024, num 140)].
Proof.
  intros xs ys.
  assert (map (fun d : FinancialRecord => d !! "Year") growthData
          = fin_cells xs) as Hx by (vm_compute; reflexivity).
  assert (map (fun d : FinancialRecord => d !! "Revenue") growthData
          = fin_cells ys) as Hy by (vm_compute; reflexivity).
  assert (2 <= length growthData)%nat as H2 by (cbn; lia).
  assert (NoDup xs) as Hnd by (refine (bool_decide_unpack _ _); vm_compute; exact I).
  assert (Forall2 (fun x y => y = qz 10 * x + qz (-20100)) xs ys) as Hline
    by (repeat constructor; apply Qc_this_eq; vm_compute; reflexivity).
  assert (Forall (wholeWithin 20100) xs) as Wx
    by (repeat constructor; eexists; (split; [reflexivity|]); cbn; lia).
  assert (Forall (wholeWithin 20100) ys) as Wy
    by (repeat constructor; eexists; (split; [reflexivity|]); cbn; lia).
  assert (2 * Z.of_nat (length growthData) ^ 2 * 20100 ^ 2
          + 2 * 20100 * Z.of_nat 2 + 20100 <= 2 ^ 53)%Z as Hb
    by (vm_compute; discriminate).
  destruct (js_forecast_extrapolates_line growthData "Revenue" xs ys 10
              (-20100) 20100 (qz 2022) 2 NaN Hx Hy H2 Hnd Hline eq_refl
              Wx Wy ltac:(cbn; lia) Hb) as (zl & Hzl & Hrows & _).
  apply qz_inj in Hzl. subst zl.
  exact (conj Hx (conj Hy (conj H2 (conj Hnd (conj Hline (conj Wx (conj Wy
          (conj Hb Hrows)))))))).
Defined.
